(** * MBP-10 reconstruction from an MBO event stream

    A shallow embedding of the order-book engine of [mbp_reconstructor]
    ([Order.hpp], [Orderbook.hpp], [Orderbook.cpp], the row validation and
    the row writing of [CsvWriter.cpp], the event loop of [main.cpp], the
    string helpers of [Utils.cpp], the order validation and the header
    handling of [CsvReader.cpp] and the validators of [Order.cpp]) together
    with the properties its specification states about it and further
    properties of the code.

    Conventions.
    - [uint64_t], [uint32_t] and [size_t] values are integers of [Z]; every
      arithmetic operation that can leave the range is followed by an explicit
      reduction ([wrap64], [wrap32]).
    - [char] is [ascii], [std::string] is [string].
    - [double] is [spec_float] at precision 53 and exponent bound 1024
      (IEEE 754 binary64, round to nearest even).
    - [std::map] and [std::unordered_map] are [gmap]s; the key-ordered
      iteration of a [std::map] is the list of its bindings sorted by the
      map's comparator ([bid_iteration], [ask_iteration]).
    - [std::vector<uint64_t>] is a [list Z].
    - Console output, timers and the byte-level CSV text are not part of the
      model; a written row is recorded as the pair of its row index and the
      [MBPRow] value. *)

From Stdlib Require Import ZArith Ascii String Floats.SpecFloat.
From Stdlib Require DecimalString DecimalPos DecimalN.
From stdpp Require Import gmap strings list sorting.

Open Scope Z_scope.

(** ** Machine arithmetic *)

Definition wrap64 (z : Z) : Z := z mod 2 ^ 64.
Definition wrap32 (z : Z) : Z := z mod 2 ^ 32.

Definition double : Type := spec_float.

(** [static_cast<double>] of an unsigned integer. *)
Definition to_double (z : Z) : double := binary_normalize 53 1024 z 0 false.

Definition double_div (x y : double) : double := SFdiv 53 1024 x y.

(** The literal [0.0]. *)
Definition double_zero : double := S754_zero false.

(** ** Utils.hpp *)

Module Utils.

Definition MAX_DEPTH : Z := 10.

Definition ACTION_ADD : ascii := "A".
Definition ACTION_CANCEL : ascii := "C".
Definition ACTION_TRADE : ascii := "T".
Definition ACTION_FILL : ascii := "F".
Definition ACTION_CLEAR : ascii := "R".

Definition SIDE_BID : ascii := "B".
Definition SIDE_ASK : ascii := "A".
Definition SIDE_NEUTRAL : ascii := "N".

(** The integer counters of [Utils::Statistics]; the accumulated wall-clock
    time is left out. *)
Record Statistics : Type := mkStatistics {
  total_orders_processed : Z;
  total_trades_processed : Z;
  total_cancellations_processed : Z;
  total_additions_processed : Z;
  mbp_updates_generated : Z
}.

Definition reset : Statistics := mkStatistics 0 0 0 0 0.

(** *** Utils.cpp: string helpers *)

Definition empty (s : string) : bool :=
  match s with EmptyString => true | String _ _ => false end.

(** [std::isdigit] and [std::isspace] in the "C" locale, on the code of the
    character. *)
Definition isdigit (c : ascii) : bool :=
  let n := Z.of_N (N_of_ascii c) in (48 <=? n) && (n <=? 57).
Definition isspace (c : ascii) : bool :=
  let n := Z.of_N (N_of_ascii c) in (n =? 32) || ((9 <=? n) && (n <=? 13)).



(** The loop of [fast_string_to_uint64] and [fast_string_to_uint32]:
    the digit read is added to ten times [result], in the width of [result],
    while the character is a digit. *)
Fixpoint digits_loop (wrap : Z → Z) (ptr : string) (result : Z) : Z :=
  match ptr with
  | EmptyString => result
  | String c rest =>
      if isdigit c
      then digits_loop wrap rest (wrap (result * 10 + (Z.of_N (N_of_ascii c) - 48)))
      else result
  end.

Definition fast_string_to_uint64 (str : string) : Z :=
  if empty str then 0 else digits_loop wrap64 str 0.

Definition fast_string_to_uint32 (str : string) : Z :=
  if empty str then 0 else digits_loop wrap32 str 0.

Fixpoint all_of (p : ascii → bool) (s : string) : bool :=
  match s with
  | EmptyString => true
  | String c rest => p c && all_of p rest
  end.

Definition is_empty_or_whitespace (str : string) : bool :=
  empty str || all_of isspace str.

(** [str.erase(str.begin(), find_if(not space))] *)
Fixpoint erase_leading (s : string) : string :=
  match s with
  | EmptyString => EmptyString
  | String c rest => if isspace c then erase_leading rest else s
  end.

(** [str.erase(find_if(str.rbegin(), str.rend(), not space).base(), str.end())]:
    what follows the last character that is not a space goes. *)
Fixpoint erase_trailing (s : string) : string :=
  match s with
  | EmptyString => EmptyString
  | String c rest =>
      if all_of isspace rest
      then if isspace c then EmptyString else String c EmptyString
      else String c (erase_trailing rest)
  end.

Definition trim_string (str : string) : string := erase_trailing (erase_leading str).

End Utils.

(** ** Order.hpp *)

Module Order.

Record t : Type := mk {
  order_id : Z;
  price_scaled : Z;
  size : Z;
  side : ascii;
  action : ascii;
  ts_recv : string;
  ts_event : string;
  flags : Z;
  ts_in_delta : Z;
  sequence : Z;
  symbol : string
}.

Definition get_price (o : t) : double :=
  double_div (to_double (price_scaled o)) (to_double (10 ^ 9)).

Definition is_bid (o : t) : bool := Ascii.eqb (side o) "B".
Definition is_ask (o : t) : bool := Ascii.eqb (side o) "A".
Definition is_valid (o : t) : bool :=
  Ascii.eqb (side o) "B" || Ascii.eqb (side o) "A".

End Order.

(** ** OrderBook::PriceLevel *)

Module PriceLevel.

Record t : Type := mk {
  price_scaled : Z;
  total_size : Z;
  order_count : Z;
  order_ids : list Z
}.

(** [PriceLevel()] *)
Definition empty : t := mk 0 0 0 [].

(** [PriceLevel(price, size, order_id)] *)
Definition make (price size order_id : Z) : t := mk price size 1 [order_id].

Definition add_order (l : t) (order_id size : Z) : t :=
  mk (price_scaled l)
     (wrap64 (total_size l + size))
     (wrap32 (order_count l + 1))
     (order_ids l ++ [order_id]).

(** [std::find] yields the position of the first occurrence, [erase] drops
    that one element.  The result pairs the returned flag with the level as
    the call leaves it. *)
Definition remove_order (l : t) (order_id size : Z) : bool * t :=
  match list_find (λ x, x = order_id) (order_ids l) with
  | Some (it, _) =>
      let order_count' := wrap32 (order_count l - 1) in
      (order_count' =? 0,
       mk (price_scaled l)
          (wrap64 (total_size l - size))
          order_count'
          (delete it (order_ids l)))
  | None => (false, l)
  end.

Definition get_price (l : t) : double :=
  double_div (to_double (price_scaled l)) (to_double (10 ^ 9)).

End PriceLevel.

(** ** OrderBook::MBPRow *)

Module MBPRow.

Record Level : Type := mkLevel {
  price : double;
  size : Z;
  count : Z
}.

(** [Level()] *)
Definition Level0 : Level := mkLevel double_zero 0 0.

Record t : Type := mk {
  ts_recv : string;
  ts_event : string;
  rtype : Z;
  publisher_id : Z;
  instrument_id : Z;
  action : ascii;
  side : ascii;
  depth : Z;
  row_price : double;
  row_size : Z;
  flags : Z;
  ts_in_delta : Z;
  sequence : Z;
  symbol : string;
  order_id : Z;
  bid_levels : list Level;
  ask_levels : list Level
}.

(** [MBPRow()]: the two arrays hold [MAX_DEPTH] default levels. *)
Definition init : t :=
  mk EmptyString EmptyString 10 2 1108 " " "N" 0 double_zero 0 0 0 0 EmptyString 0
     (replicate (Z.to_nat Utils.MAX_DEPTH) Level0)
     (replicate (Z.to_nat Utils.MAX_DEPTH) Level0).

End MBPRow.

(** ** OrderBook *)

Module OrderBook.

Record OrderInfo : Type := mkOrderInfo {
  side : ascii;
  price_scaled : Z;
  size : Z
}.

Record t : Type := mk {
  bid_levels : gmap Z PriceLevel.t;
  ask_levels : gmap Z PriceLevel.t;
  active_orders : gmap Z OrderInfo;
  stats : Utils.Statistics
}.

(** [OrderBook()] *)
Definition init : t := mk ∅ ∅ ∅ Utils.reset.

Definition clear (b : t) : t := mk ∅ ∅ ∅ Utils.reset.

(** *** Iteration order of the two price maps

    [bid_levels] is a [std::map] under [std::greater], [ask_levels] one under
    [std::less]: a range-for visits the bindings by descending, respectively
    ascending, key. *)

Definition key_greater (x y : Z * PriceLevel.t) : Prop := y.1 ≤ x.1.
Definition key_less (x y : Z * PriceLevel.t) : Prop := x.1 ≤ y.1.

#[global] Instance key_greater_dec : RelDecision key_greater.
Proof. intros x y. unfold key_greater. apply _. Defined.
#[global] Instance key_less_dec : RelDecision key_less.
Proof. intros x y. unfold key_less. apply _. Defined.

Definition bid_iteration (b : t) : list (Z * PriceLevel.t) :=
  merge_sort key_greater (map_to_list (bid_levels b)).
Definition ask_iteration (b : t) : list (Z * PriceLevel.t) :=
  merge_sort key_less (map_to_list (ask_levels b)).

(** *** get_price_depth, affects_top_levels *)

(** The body of the range-for of [get_price_depth], entered with the running
    [depth]; leaving the loop by [break] or by exhaustion reaches the final
    [return -1]. *)
Fixpoint depth_loop (it : list (Z * PriceLevel.t)) (price_scaled depth : Z) : Z :=
  match it with
  | [] => -1
  | (price, _) :: rest =>
      if price =? price_scaled then depth
      else
        let depth := depth + 1 in
        if depth >=? Utils.MAX_DEPTH then -1
        else depth_loop rest price_scaled depth
  end.

Definition get_price_depth (b : t) (side : ascii) (price_scaled : Z) : Z :=
  if Ascii.eqb side Utils.SIDE_BID then depth_loop (bid_iteration b) price_scaled 0
  else if Ascii.eqb side Utils.SIDE_ASK then depth_loop (ask_iteration b) price_scaled 0
  else -1.

Definition affects_top_levels (b : t) (side : ascii) (price_scaled : Z) : bool :=
  let depth := get_price_depth b side price_scaled in
  (depth >=? 0) && (depth <? Utils.MAX_DEPTH).

(** *** add_order *)

(** [auto& level = levels[price]; if (level.order_count == 0) level =
    PriceLevel(...); else level.add_order(...)]: [operator[]] creates an empty
    level when the key is absent, and either branch then writes the level. *)
Definition add_to_levels (levels : gmap Z PriceLevel.t) (order : Order.t)
  : gmap Z PriceLevel.t :=
  let level := default PriceLevel.empty (levels !! Order.price_scaled order) in
  <[Order.price_scaled order :=
      if PriceLevel.order_count level =? 0
      then PriceLevel.make (Order.price_scaled order) (Order.size order)
                           (Order.order_id order)
      else PriceLevel.add_order level (Order.order_id order) (Order.size order)]>
    levels.

Definition add_order (b : t) (order : Order.t) : bool * t :=
  if negb (Order.is_valid order) || (Order.price_scaled order =? 0)
     || (Order.size order =? 0)
  then (false, b)
  else
    let active := <[Order.order_id order :=
                      mkOrderInfo (Order.side order) (Order.price_scaled order)
                                  (Order.size order)]> (active_orders b) in
    let b' :=
      if Order.is_bid order
      then mk (add_to_levels (bid_levels b) order) (ask_levels b) active (stats b)
      else if Order.is_ask order
      then mk (bid_levels b) (add_to_levels (ask_levels b) order) active (stats b)
      else mk (bid_levels b) (ask_levels b) active (stats b) in
    (affects_top_levels b' (Order.side order) (Order.price_scaled order), b').

(** *** cancel_order *)

(** [find] the level of the stored price; when it is there, [remove_order] and
    [erase] the level if that call reported it empty. *)
Definition remove_from_levels (levels : gmap Z PriceLevel.t) (info : OrderInfo)
    (order_id : Z) : gmap Z PriceLevel.t :=
  match levels !! price_scaled info with
  | Some level =>
      let '(level_empty, level') :=
        PriceLevel.remove_order level order_id (size info) in
      if level_empty then delete (price_scaled info) levels
      else <[price_scaled info := level']> levels
  | None => levels
  end.

Definition cancel_order (b : t) (order : Order.t) : bool * t :=
  match active_orders b !! Order.order_id order with
  | None => (false, b)
  | Some order_info =>
      let affects_top :=
        affects_top_levels b (side order_info) (price_scaled order_info) in
      let bids :=
        if Ascii.eqb (side order_info) Utils.SIDE_BID
        then remove_from_levels (bid_levels b) order_info (Order.order_id order)
        else bid_levels b in
      let asks :=
        if Ascii.eqb (side order_info) Utils.SIDE_BID then ask_levels b
        else if Ascii.eqb (side order_info) Utils.SIDE_ASK
        then remove_from_levels (ask_levels b) order_info (Order.order_id order)
        else ask_levels b in
      (affects_top,
       mk bids asks (delete (Order.order_id order) (active_orders b)) (stats b))
  end.

(** *** process_trade *)

(** The local [effective_side] of [process_trade] once the two lookups are
    done. *)
Definition effective_side (b : t) (order : Order.t) : ascii :=
  if Ascii.eqb (Order.side order) Utils.SIDE_ASK then
    match ask_levels b !! Order.price_scaled order with
    | None => Utils.SIDE_BID
    | Some level =>
        if PriceLevel.order_count level =? 0 then Utils.SIDE_BID
        else Order.side order
    end
  else if Ascii.eqb (Order.side order) Utils.SIDE_BID then
    match bid_levels b !! Order.price_scaled order with
    | None => Utils.SIDE_ASK
    | Some level =>
        if PriceLevel.order_count level =? 0 then Utils.SIDE_ASK
        else Order.side order
    end
  else Order.side order.

Definition process_trade (b : t) (order : Order.t) : bool * t :=
  if Ascii.eqb (Order.side order) Utils.SIDE_NEUTRAL then (false, b)
  else (affects_top_levels b (effective_side b order) (Order.price_scaled order), b).

(** *** generate_mbp_snapshot *)

Definition to_level (level_info : PriceLevel.t) : MBPRow.Level :=
  MBPRow.mkLevel (PriceLevel.get_price level_info)
                 (PriceLevel.total_size level_info)
                 (PriceLevel.order_count level_info).

(** First loop of [update_bid_levels] / [update_ask_levels]: write slot
    [level] for each binding until [MAX_DEPTH] slots are written. *)
Fixpoint fill_levels (it : list (Z * PriceLevel.t)) (level : Z)
    (arr : list MBPRow.Level) : Z * list MBPRow.Level :=
  match it with
  | [] => (level, arr)
  | (_, level_info) :: rest =>
      if level >=? Utils.MAX_DEPTH then (level, arr)
      else fill_levels rest (level + 1)
             (<[Z.to_nat level := to_level level_info]> arr)
  end.

(** Second loop: [for (i = level; i < MAX_DEPTH; ++i) arr[i] = Level()]. *)
Definition clear_levels (level : Z) (arr : list MBPRow.Level) : list MBPRow.Level :=
  foldl (λ a i, <[i := MBPRow.Level0]> a) arr
        (seq (Z.to_nat level) (Z.to_nat (Utils.MAX_DEPTH - level))).

Definition update_levels (it : list (Z * PriceLevel.t)) (arr : list MBPRow.Level)
  : list MBPRow.Level :=
  let '(level, arr') := fill_levels it 0 arr in clear_levels level arr'.

Definition update_bid_levels (b : t) (row : MBPRow.t) : list MBPRow.Level :=
  update_levels (bid_iteration b) (MBPRow.bid_levels row).
Definition update_ask_levels (b : t) (row : MBPRow.t) : list MBPRow.Level :=
  update_levels (ask_iteration b) (MBPRow.ask_levels row).

Definition generate_mbp_snapshot (b : t) (triggering_order : Order.t) : MBPRow.t :=
  let row := MBPRow.init in
  MBPRow.mk
    (Order.ts_recv triggering_order)
    (Order.ts_event triggering_order)
    (MBPRow.rtype row)
    (MBPRow.publisher_id row)
    (MBPRow.instrument_id row)
    (Order.action triggering_order)
    (Order.side triggering_order)
    (get_price_depth b (Order.side triggering_order)
                     (Order.price_scaled triggering_order))
    (Order.get_price triggering_order)
    (Order.size triggering_order)
    (Order.flags triggering_order)
    (Order.ts_in_delta triggering_order)
    (Order.sequence triggering_order)
    (Order.symbol triggering_order)
    (Order.order_id triggering_order)
    (update_bid_levels b row)
    (update_ask_levels b row).

(** *** process_order *)

Definition with_stats (b : t) (s : Utils.Statistics) : t :=
  mk (bid_levels b) (ask_levels b) (active_orders b) s.

Definition count_order (s : Utils.Statistics) : Utils.Statistics :=
  Utils.mkStatistics (wrap64 (Utils.total_orders_processed s + 1))
    (Utils.total_trades_processed s) (Utils.total_cancellations_processed s)
    (Utils.total_additions_processed s) (Utils.mbp_updates_generated s).
Definition count_trade (s : Utils.Statistics) : Utils.Statistics :=
  Utils.mkStatistics (Utils.total_orders_processed s)
    (wrap64 (Utils.total_trades_processed s + 1))
    (Utils.total_cancellations_processed s)
    (Utils.total_additions_processed s) (Utils.mbp_updates_generated s).
Definition count_cancellation (s : Utils.Statistics) : Utils.Statistics :=
  Utils.mkStatistics (Utils.total_orders_processed s)
    (Utils.total_trades_processed s)
    (wrap64 (Utils.total_cancellations_processed s + 1))
    (Utils.total_additions_processed s) (Utils.mbp_updates_generated s).
Definition count_addition (s : Utils.Statistics) : Utils.Statistics :=
  Utils.mkStatistics (Utils.total_orders_processed s)
    (Utils.total_trades_processed s) (Utils.total_cancellations_processed s)
    (wrap64 (Utils.total_additions_processed s + 1))
    (Utils.mbp_updates_generated s).
Definition count_mbp_update (s : Utils.Statistics) : Utils.Statistics :=
  Utils.mkStatistics (Utils.total_orders_processed s)
    (Utils.total_trades_processed s) (Utils.total_cancellations_processed s)
    (Utils.total_additions_processed s)
    (wrap64 (Utils.mbp_updates_generated s + 1)).

(** The [switch] of [process_order]: the flag [should_generate_mbp] and the
    book after the selected case. *)
Definition dispatch (b : t) (order : Order.t) : bool * t :=
  let a := Order.action order in
  if Ascii.eqb a Utils.ACTION_CLEAR then (false, clear b)
  else if Ascii.eqb a Utils.ACTION_ADD then
    let '(r, b') := add_order b order in
    (r, with_stats b' (count_addition (stats b')))
  else if Ascii.eqb a Utils.ACTION_CANCEL then
    let '(r, b') := cancel_order b order in
    (r, with_stats b' (count_cancellation (stats b')))
  else if Ascii.eqb a Utils.ACTION_TRADE then
    let '(r, b') := process_trade b order in
    (r, with_stats b' (count_trade (stats b')))
  else if Ascii.eqb a Utils.ACTION_FILL then (false, b)
  else (false, b).

(** The result is the row behind the returned pointer ([None] for
    [nullptr]) and the book the call leaves. *)
Definition process_order (b : t) (order : Order.t) : option MBPRow.t * t :=
  let '(should_generate_mbp, b1) := dispatch b order in
  let b2 := with_stats b1 (count_order (stats b1)) in
  if should_generate_mbp
  then (Some (generate_mbp_snapshot b2 order),
        with_stats b2 (count_mbp_update (stats b2)))
  else (None, b2).

(** *** get_spread, get_total_orders, get_level_counts *)

Definition get_spread (b : t) : double * double :=
  let best_bid :=
    match bid_iteration b with
    | [] => double_zero
    | (_, level) :: _ => PriceLevel.get_price level
    end in
  let best_ask :=
    match ask_iteration b with
    | [] => double_zero
    | (_, level) :: _ => PriceLevel.get_price level
    end in
  (best_bid, best_ask).

Definition get_total_orders (b : t) : Z := Z.of_nat (base.size (active_orders b)).

Definition get_level_counts (b : t) : Z * Z :=
  (Z.of_nat (base.size (bid_levels b)), Z.of_nat (base.size (ask_levels b))).

End OrderBook.

(** ** CsvWriter: row validation and row numbering *)

Module CsvWriter.

(** The writer as far as the rows are concerned: the running [row_index],
    the rows handed to the stream so far, each with the index it was
    formatted under, and the [success] flag of [current_result].  The output
    stream is taken to be open and good. *)
Record t : Type := mk {
  row_index : Z;
  written : list (Z * MBPRow.t);
  success : bool
}.

(** [CsvWriter(filename)] *)
Definition init : t := mk 0 [] true.

Definition empty (s : string) : bool :=
  match s with EmptyString => true | String _ _ => false end.

Definition double_ltb (x y : double) : bool := SFltb x y.

Definition level_at (arr : list MBPRow.Level) (i : nat) : MBPRow.Level :=
  default MBPRow.Level0 (arr !! i).

Definition validate_mbp_row (mbp_row : MBPRow.t) : bool :=
  if empty (MBPRow.ts_recv mbp_row) || empty (MBPRow.ts_event mbp_row) then false
  else if empty (MBPRow.symbol mbp_row) then false
  else if negb (Ascii.eqb (MBPRow.action mbp_row) "A")
          && negb (Ascii.eqb (MBPRow.action mbp_row) "C")
          && negb (Ascii.eqb (MBPRow.action mbp_row) "T")
          && negb (Ascii.eqb (MBPRow.action mbp_row) "F")
          && negb (Ascii.eqb (MBPRow.action mbp_row) "R") then false
  else if negb (Ascii.eqb (MBPRow.side mbp_row) "B")
          && negb (Ascii.eqb (MBPRow.side mbp_row) "A")
          && negb (Ascii.eqb (MBPRow.side mbp_row) "N") then false
  else
    forallb
      (λ i, negb (double_ltb (MBPRow.price (level_at (MBPRow.bid_levels mbp_row) i))
                             double_zero
                  || double_ltb (MBPRow.price (level_at (MBPRow.ask_levels mbp_row) i))
                                double_zero))
      (seq 0 (Z.to_nat Utils.MAX_DEPTH)).

Definition write_mbp_row (w : t) (mbp_row : MBPRow.t) : bool * t :=
  if negb (validate_mbp_row mbp_row)
  then (false, mk (row_index w) (written w) false)
  else (true,
        mk (wrap64 (row_index w + 1))
           (written w ++ [(row_index w, mbp_row)])
           (success w)).


End CsvWriter.

(** ** main.cpp: the event loop of process_reconstruction *)

Module Main.

Record LoopState : Type := mkLoopState {
  order_book : OrderBook.t;
  csv_writer : CsvWriter.t;
  first_clear_ignored : bool;
  processed_orders : Z;
  mbp_updates : Z
}.

Definition initial : LoopState :=
  mkLoopState OrderBook.init CsvWriter.init false 0 0.

(** One turn of the range-for over the parsed orders: [inl] when the loop
    goes on, [inr] when the function leaves with [return 1]. *)
Definition loop_body (st : LoopState) (order : Order.t) : LoopState + LoopState :=
  if negb (first_clear_ignored st) && Ascii.eqb (Order.action order) Utils.ACTION_CLEAR
  then inl (mkLoopState (order_book st) (csv_writer st) true
                        (wrap64 (processed_orders st + 1)) (mbp_updates st))
  else
    let '(mbp_row, book) := OrderBook.process_order (order_book st) order in
    match mbp_row with
    | Some row =>
        let '(ok, writer) := CsvWriter.write_mbp_row (csv_writer st) row in
        if ok
        then inl (mkLoopState book writer (first_clear_ignored st)
                              (wrap64 (processed_orders st + 1))
                              (wrap64 (mbp_updates st + 1)))
        else inr (mkLoopState book writer (first_clear_ignored st)
                              (processed_orders st) (mbp_updates st))
    | None =>
        inl (mkLoopState book (csv_writer st) (first_clear_ignored st)
                         (wrap64 (processed_orders st + 1)) (mbp_updates st))
    end.

(** The loop from a given state; the first component is the exit code the
    run has earned so far (0 when the loop ran through, 1 on the early
    return). *)
Fixpoint process_orders (orders : list Order.t) (st : LoopState) : Z * LoopState :=
  match orders with
  | [] => (0, st)
  | order :: rest =>
      match loop_body st order with
      | inl st' => process_orders rest st'
      | inr st' => (1, st')
      end
  end.

(** [process_reconstruction] once the input is parsed into [orders]. *)
Definition process_reconstruction (orders : list Order.t) : Z * LoopState :=
  process_orders orders initial.

End Main.

(** ** CsvReader: validation of a parsed order *)

Module CsvReader.

Definition empty (s : string) : bool :=
  match s with EmptyString => true | String _ _ => false end.

Definition double_leb (x y : double) : bool := SFleb x y.
Definition double_ltb (x y : double) : bool := SFltb x y.

Definition validate_order (order : Order.t) : bool :=
  let action := Order.action order in
  let side := Order.side order in
  if negb (Ascii.eqb action "A") && negb (Ascii.eqb action "C")
     && negb (Ascii.eqb action "T") && negb (Ascii.eqb action "F")
     && negb (Ascii.eqb action "R") && negb (Ascii.eqb action "M") then false
  else if negb (Ascii.eqb side "B") && negb (Ascii.eqb side "A")
          && negb (Ascii.eqb side "N") then false
  else if negb (Ascii.eqb action "R")
          && (empty (Order.ts_recv order) || empty (Order.ts_event order)) then false
  else if negb (Ascii.eqb action "R")
          && ((Order.order_id order =? 0) && negb (Ascii.eqb action "R")) then false
  else if (Ascii.eqb action Utils.ACTION_ADD || Ascii.eqb action Utils.ACTION_CLEAR)
          && empty (Order.symbol order) then false
  else if Ascii.eqb action "A" then
    if (Order.price_scaled order =? 0) || (Order.size order =? 0) then false
    else
      let price := Order.get_price order in
      if double_leb price double_zero || double_ltb (to_double 1000000) price then false
      else if Order.size order >? 1000000000 then false
      else true
  else true.

(** *** The header

    [parse_header] on the fields [split_csv_line] has returned. *)

Record ColumnIndices : Type := mkColumnIndices {
  ts_recv : Z;
  ts_event : Z;
  rtype : Z;
  publisher_id : Z;
  instrument_id : Z;
  action : Z;
  side : Z;
  price : Z;
  size : Z;
  channel_id : Z;
  order_id : Z;
  flags : Z;
  ts_in_delta : Z;
  sequence : Z;
  symbol : Z
}.

(** [ColumnIndices()] *)
Definition ColumnIndices0 : ColumnIndices :=
  mkColumnIndices (-1) (-1) (-1) (-1) (-1) (-1) (-1) (-1) (-1) (-1) (-1) (-1) (-1) (-1) (-1).

Definition is_valid (c : ColumnIndices) : bool :=
  (ts_recv c >=? 0) && (ts_event c >=? 0) && (action c >=? 0) &&
  (side c >=? 0) && (order_id c >=? 0) && (sequence c >=? 0).

(** [static_cast<int>] of a [size_t]. *)
Definition to_int (i : Z) : Z := (i + 2 ^ 31) mod 2 ^ 32 - 2 ^ 31.

(** The chain of comparisons in the body of the loop over the fields. *)
Definition set_column (c : ColumnIndices) (field_name : string) (i : Z) : ColumnIndices :=
  if String.eqb field_name "ts_recv" then
      mkColumnIndices (to_int i) (ts_event c) (rtype c) (publisher_id c)
        (instrument_id c) (action c) (side c) (price c) (size c) (channel_id c)
        (order_id c) (flags c) (ts_in_delta c) (sequence c) (symbol c)
  else if String.eqb field_name "ts_event" then
      mkColumnIndices (ts_recv c) (to_int i) (rtype c) (publisher_id c)
        (instrument_id c) (action c) (side c) (price c) (size c) (channel_id c)
        (order_id c) (flags c) (ts_in_delta c) (sequence c) (symbol c)
  else if String.eqb field_name "rtype" then
      mkColumnIndices (ts_recv c) (ts_event c) (to_int i) (publisher_id c)
        (instrument_id c) (action c) (side c) (price c) (size c) (channel_id c)
        (order_id c) (flags c) (ts_in_delta c) (sequence c) (symbol c)
  else if String.eqb field_name "publisher_id" then
      mkColumnIndices (ts_recv c) (ts_event c) (rtype c) (to_int i) (instrument_id c)
        (action c) (side c) (price c) (size c) (channel_id c) (order_id c) (flags c)
        (ts_in_delta c) (sequence c) (symbol c)
  else if String.eqb field_name "instrument_id" then
      mkColumnIndices (ts_recv c) (ts_event c) (rtype c) (publisher_id c) (to_int i)
        (action c) (side c) (price c) (size c) (channel_id c) (order_id c) (flags c)
        (ts_in_delta c) (sequence c) (symbol c)
  else if String.eqb field_name "action" then
      mkColumnIndices (ts_recv c) (ts_event c) (rtype c) (publisher_id c)
        (instrument_id c) (to_int i) (side c) (price c) (size c) (channel_id c)
        (order_id c) (flags c) (ts_in_delta c) (sequence c) (symbol c)
  else if String.eqb field_name "side" then
      mkColumnIndices (ts_recv c) (ts_event c) (rtype c) (publisher_id c)
        (instrument_id c) (action c) (to_int i) (price c) (size c) (channel_id c)
        (order_id c) (flags c) (ts_in_delta c) (sequence c) (symbol c)
  else if String.eqb field_name "price" then
      mkColumnIndices (ts_recv c) (ts_event c) (rtype c) (publisher_id c)
        (instrument_id c) (action c) (side c) (to_int i) (size c) (channel_id c)
        (order_id c) (flags c) (ts_in_delta c) (sequence c) (symbol c)
  else if String.eqb field_name "size" then
      mkColumnIndices (ts_recv c) (ts_event c) (rtype c) (publisher_id c)
        (instrument_id c) (action c) (side c) (price c) (to_int i) (channel_id c)
        (order_id c) (flags c) (ts_in_delta c) (sequence c) (symbol c)
  else if String.eqb field_name "channel_id" then
      mkColumnIndices (ts_recv c) (ts_event c) (rtype c) (publisher_id c)
        (instrument_id c) (action c) (side c) (price c) (size c) (to_int i) (order_id c)
        (flags c) (ts_in_delta c) (sequence c) (symbol c)
  else if String.eqb field_name "order_id" then
      mkColumnIndices (ts_recv c) (ts_event c) (rtype c) (publisher_id c)
        (instrument_id c) (action c) (side c) (price c) (size c) (channel_id c)
        (to_int i) (flags c) (ts_in_delta c) (sequence c) (symbol c)
  else if String.eqb field_name "flags" then
      mkColumnIndices (ts_recv c) (ts_event c) (rtype c) (publisher_id c)
        (instrument_id c) (action c) (side c) (price c) (size c) (channel_id c)
        (order_id c) (to_int i) (ts_in_delta c) (sequence c) (symbol c)
  else if String.eqb field_name "ts_in_delta" then
      mkColumnIndices (ts_recv c) (ts_event c) (rtype c) (publisher_id c)
        (instrument_id c) (action c) (side c) (price c) (size c) (channel_id c)
        (order_id c) (flags c) (to_int i) (sequence c) (symbol c)
  else if String.eqb field_name "sequence" then
      mkColumnIndices (ts_recv c) (ts_event c) (rtype c) (publisher_id c)
        (instrument_id c) (action c) (side c) (price c) (size c) (channel_id c)
        (order_id c) (flags c) (ts_in_delta c) (to_int i) (symbol c)
  else if String.eqb field_name "symbol" then
      mkColumnIndices (ts_recv c) (ts_event c) (rtype c) (publisher_id c)
        (instrument_id c) (action c) (side c) (price c) (size c) (channel_id c)
        (order_id c) (flags c) (ts_in_delta c) (sequence c) (to_int i)
  else c.

Fixpoint header_loop (fields : list string) (i : Z) (c : ColumnIndices)
  : ColumnIndices :=
  match fields with
  | [] => c
  | field_name :: rest => header_loop rest (wrap64 (i + 1)) (set_column c field_name i)
  end.

(** The loop over [required_indices] returns false at the first negative
    index. *)
Definition validate_mbo_format (c : ColumnIndices) : bool :=
  let required_indices :=
    [ts_recv c; ts_event c; action c; side c; order_id c; sequence c; symbol c] in
  forallb (λ index, negb (index <? 0)) required_indices.

Definition parse_header (fields : list string) : bool * ColumnIndices :=
  let c := header_loop fields 0 ColumnIndices0 in
  if negb (is_valid c) then (false, c) else (validate_mbo_format c, c).

End CsvReader.

(** ** Order.cpp: namespace OrderUtils *)

Module OrderUtils.

Definition empty (s : string) : bool :=
  match s with EmptyString => true | String _ _ => false end.

Definition double_leb (x y : double) : bool := SFleb x y.
Definition double_ltb (x y : double) : bool := SFltb x y.

(** The checks of [validate_order] that follow the block for Adds. *)
Definition validate_rest (order : Order.t) : bool :=
  if negb (Ascii.eqb (Order.action order) "R")
     && (empty (Order.ts_recv order) || empty (Order.ts_event order)) then false
  else if empty (Order.symbol order) then false
  else true.

Definition validate_order (order : Order.t) : bool :=
  let action := Order.action order in
  let side := Order.side order in
  if negb (Ascii.eqb action "A") && negb (Ascii.eqb action "C")
     && negb (Ascii.eqb action "T") && negb (Ascii.eqb action "F")
     && negb (Ascii.eqb action "R") && negb (Ascii.eqb action "M") then false
  else if negb (Ascii.eqb side "B") && negb (Ascii.eqb side "A")
          && negb (Ascii.eqb side "N") then false
  else if negb (Ascii.eqb action "R") && (Order.order_id order =? 0) then false
  else if Ascii.eqb action "A" then
    if (Order.price_scaled order =? 0) || (Order.size order =? 0) then false
    else
      let price := Order.get_price order in
      if double_leb price double_zero || double_ltb (to_double 1000000) price then false
      else validate_rest order
  else validate_rest order.

Definition orders_equal (order1 order2 : Order.t) : bool :=
  (Order.order_id order1 =? Order.order_id order2) &&
  (Order.price_scaled order1 =? Order.price_scaled order2) &&
  (Order.size order1 =? Order.size order2) &&
  Ascii.eqb (Order.side order1) (Order.side order2) &&
  Ascii.eqb (Order.action order1) (Order.action order2) &&
  String.eqb (Order.ts_recv order1) (Order.ts_recv order2) &&
  String.eqb (Order.ts_event order1) (Order.ts_event order2) &&
  (Order.flags order1 =? Order.flags order2) &&
  (Order.ts_in_delta order1 =? Order.ts_in_delta order2) &&
  (Order.sequence order1 =? Order.sequence order2) &&
  String.eqb (Order.symbol order1) (Order.symbol order2).

End OrderUtils.

(** ** Specification-level notions *)

(** The keys of a side in iteration order; a side other than ['B'] and ['A']
    has no map. *)
Definition side_keys (b : OrderBook.t) (side : ascii) : list Z :=
  if Ascii.eqb side Utils.SIDE_BID then (OrderBook.bid_iteration b).*1
  else if Ascii.eqb side Utils.SIDE_ASK then (OrderBook.ask_iteration b).*1
  else [].

(** A price is within the top 10 levels of a side when it is among the first
    ten keys the side's iteration visits. *)
Definition in_top10 (b : OrderBook.t) (side : ascii) (price_scaled : Z) : Prop :=
  price_scaled ∈ take 10 (side_keys b side).

(** The price map of a side. *)
Definition side_levels (b : OrderBook.t) (side : ascii) : option (gmap Z PriceLevel.t) :=
  if Ascii.eqb side Utils.SIDE_BID then Some (OrderBook.bid_levels b)
  else if Ascii.eqb side Utils.SIDE_ASK then Some (OrderBook.ask_levels b)
  else None.

(** The level stored for a (side, price) pair, if any. *)
Definition level_of (b : OrderBook.t) (side : ascii) (price_scaled : Z)
  : option PriceLevel.t :=
  m ← side_levels b side; m !! price_scaled.

(** The three containers that make up the book state. *)
Definition book_state (b : OrderBook.t)
  : gmap Z PriceLevel.t * gmap Z PriceLevel.t * gmap Z OrderBook.OrderInfo :=
  (OrderBook.bid_levels b, OrderBook.ask_levels b, OrderBook.active_orders b).

(** Events of the scenarios: only the fields a scenario names are fixed
    there, the rest comes with the event. *)
Definition event (action side : ascii) (order_id price_scaled size : Z)
    (ts_recv ts_event symbol : string) (flags ts_in_delta sequence : Z) : Order.t :=
  Order.mk order_id price_scaled size side action ts_recv ts_event
           flags ts_in_delta sequence symbol.

(** No order rests at a (side, price) pair: the side has no level there, or
    one whose order count is 0. *)
Definition no_resting (b : OrderBook.t) (side : ascii) (price_scaled : Z) : Prop :=
  match level_of b side price_scaled with
  | None => True
  | Some level => PriceLevel.order_count level = 0
  end.

(** [k] comes strictly before [p] in the iteration of a side. *)
Definition ahead (side : ascii) (k p : Z) : Prop :=
  if Ascii.eqb side Utils.SIDE_BID then p < k else k < p.

(** [i] is the position of the first occurrence of [x] in [l]. *)
Definition first_at (x : Z) (l : list Z) (i : nat) : Prop :=
  l !! i = Some x ∧ ∀ j, (j < i)%nat → l !! j ≠ Some x.

(** The level [remove_order] leaves when it erases position [i]. *)
Definition level_without (l : PriceLevel.t) (i : nat) (size : Z) : PriceLevel.t :=
  PriceLevel.mk (PriceLevel.price_scaled l)
                (wrap64 (PriceLevel.total_size l - size))
                (wrap32 (PriceLevel.order_count l - 1))
                (delete i (PriceLevel.order_ids l)).

(** The counters of a level lie in the range of their C++ types. *)
Definition level_typed (l : PriceLevel.t) : Prop :=
  0 ≤ PriceLevel.total_size l < 2 ^ 64 ∧ 0 ≤ PriceLevel.order_count l < 2 ^ 32.

(** The guard of [add_order] lets the event through. *)
Definition accepted (o : Order.t) : bool :=
  negb (negb (Order.is_valid o) || (Order.price_scaled o =? 0) || (Order.size o =? 0)).

(** The level [add_order] writes, given what the map held at the price. *)
Definition level_after_add (old : option PriceLevel.t) (o : Order.t) : PriceLevel.t :=
  let level := default PriceLevel.empty old in
  if PriceLevel.order_count level =? 0
  then PriceLevel.make (Order.price_scaled o) (Order.size o) (Order.order_id o)
  else PriceLevel.add_order level (Order.order_id o) (Order.size o).

(** *** The invariant I1 and what supports it *)

(** First half: the record of a live id names a level that holds the id. *)
Definition forward_inv (b : OrderBook.t) : Prop :=
  ∀ id info, OrderBook.active_orders b !! id = Some info →
    ∃ l, level_of b (OrderBook.side info) (OrderBook.price_scaled info) = Some l ∧
         id ∈ PriceLevel.order_ids l.

(** Second half: an id held by a level is live and recorded at that level. *)
Definition converse_inv (b : OrderBook.t) : Prop :=
  ∀ side p l id, level_of b side p = Some l → id ∈ PriceLevel.order_ids l →
    ∃ info, OrderBook.active_orders b !! id = Some info ∧
            OrderBook.side info = side ∧ OrderBook.price_scaled info = p.

Definition index_invariant (b : OrderBook.t) : Prop :=
  forward_inv b ∧ converse_inv b.

(** Every stored level counts its ids, holds at least one and at most [n]. *)
Definition counts_ok (n : nat) (b : OrderBook.t) : Prop :=
  ∀ side p l, level_of b side p = Some l →
    PriceLevel.order_count l = Z.of_nat (length (PriceLevel.order_ids l)) ∧
    (0 < length (PriceLevel.order_ids l) ≤ n)%nat.

Definition ids_nodup (b : OrderBook.t) : Prop :=
  ∀ side p l, level_of b side p = Some l → NoDup (PriceLevel.order_ids l).

Definition base_inv (n : nat) (b : OrderBook.t) : Prop := counts_ok n b ∧ forward_inv b.
Definition strict_inv (b : OrderBook.t) : Prop := converse_inv b ∧ ids_nodup b.

(** The state a turn of the loop leaves, whether the loop goes on or not. *)
Definition loop_state (r : Main.LoopState + Main.LoopState) : Main.LoopState :=
  match r with inl st => st | inr st => st end.

(** An Add that passes the guard of [add_order] carries an id that is not
    live in the book it is applied to. *)
Definition fresh_add (b : OrderBook.t) (o : Order.t) : Prop :=
  Order.action o = Utils.ACTION_ADD → accepted o = true →
  OrderBook.active_orders b !! Order.order_id o = None.

(** Every Add of the sequence is fresh in the book the loop has built when
    it reaches it. *)
Fixpoint adds_fresh (orders : list Order.t) (st : Main.LoopState) : Prop :=
  match orders with
  | [] => True
  | o :: rest =>
      fresh_add (Main.order_book st) o ∧
      match Main.loop_body st o with
      | inl st' => adds_fresh rest st'
      | inr _ => True
      end
  end.

(** *** Events of the scenarios

    Prices are scaled: 100 is 100 * 10^9. *)

Definition S1_add (ts_recv ts_event symbol : string) (flags ts_in_delta sequence : Z)
  : Order.t :=
  event "A" "B" 1 100000000000 10 ts_recv ts_event symbol flags ts_in_delta sequence.

Definition S5_add (ts_recv ts_event symbol : string) (flags ts_in_delta sequence : Z)
  : Order.t :=
  event "A" "B" 7 100000000000 3 ts_recv ts_event symbol flags ts_in_delta sequence.

Definition S5_trade (order_id : Z) (ts_recv ts_event symbol : string)
    (flags ts_in_delta sequence : Z) : Order.t :=
  event "T" "A" order_id 100000000000 3 ts_recv ts_event symbol
        flags ts_in_delta sequence.

(** The book of S5 when the Trade arrives. *)
Definition S5_book : OrderBook.t :=
  snd (OrderBook.process_order OrderBook.init (S5_add "t" "t" "S" 0 0 0)).

Definition add_1_B_100 : Order.t := event "A" "B" 1 100000000000 10 "t" "t" "S" 0 0 0.
Definition add_1_B_99 : Order.t := event "A" "B" 1 99000000000 5 "t" "t" "S" 0 0 0.
Definition cancel_1_B_100 : Order.t := event "C" "B" 1 100000000000 10 "t" "t" "S" 0 0 0.
Definition cancel_1_A_5 : Order.t := event "C" "A" 1 5 77 "u" "u" "" 1 2 3.
Definition clear_N : Order.t := event "R" "N" 0 0 0 "t" "t" "S" 0 0 0.
Definition add_2_N_100 : Order.t := event "A" "N" 2 100000000000 10 "t" "t" "S" 0 0 0.

Definition add_2_B_100 : Order.t := event "A" "B" 2 100000000000 5 "t" "t" "S" 0 0 0.
Definition cancel_3_B_100 : Order.t := event "C" "B" 3 100000000000 4 "t" "t" "S" 0 0 0.
Definition trade_N_100 : Order.t := event "T" "N" 8 100000000000 3 "t" "t" "S" 0 0 0.
Definition trade_B_100 : Order.t := event "T" "B" 8 100000000000 3 "t" "t" "S" 0 0 0.
Definition trade_B_99 : Order.t := event "T" "B" 8 99000000000 3 "t" "t" "S" 0 0 0.

(** The book after [Add(id=1, B, 100, 10)] on a fresh engine. *)
Definition book_1_B_100 : OrderBook.t :=
  snd (OrderBook.add_order OrderBook.init add_1_B_100).

(** The book after [Add(id=2, B, 100, 5)] on a fresh engine. *)
Definition book_2_B_100 : OrderBook.t :=
  snd (OrderBook.add_order OrderBook.init add_2_B_100).

(** *** Notions used by the further properties *)

(** The ten slots a snapshot row holds for a side. *)
Definition snapshot_side (row : MBPRow.t) (side : ascii) : list MBPRow.Level :=
  if Ascii.eqb side Utils.SIDE_BID then MBPRow.bid_levels row
  else MBPRow.ask_levels row.

Definition ahead_decide (side : ascii) (k p : Z) : Decision (ahead side k p) :=
  match Ascii.eqb side Utils.SIDE_BID as c
        return Decision (if c then p < k else k < p) with
  | true => decide (p < k)
  | false => decide (k < p)
  end.

(** The rank of a price on a side: how many levels of the map have a
    strictly better price. *)
Definition rank (side : ascii) (m : gmap Z PriceLevel.t) (p : Z) : nat :=
  length (filter (λ k, ahead side k p) (H := λ k, ahead_decide side k p)
                 (map_to_list m).*1).

(** Every stored level carries its map key in its [price_scaled] field. *)
Definition keys_ok (b : OrderBook.t) : Prop :=
  ∀ side p l, level_of b side p = Some l → PriceLevel.price_scaled l = p.

(** The fields a snapshot row copies from the event that triggered it. *)
Definition order_meta (o : Order.t)
  : string * string * ascii * ascii * Z * Z * Z * Z * string * Z :=
  (Order.ts_recv o, Order.ts_event o, Order.action o, Order.side o, Order.size o,
   Order.flags o, Order.ts_in_delta o, Order.sequence o, Order.symbol o,
   Order.order_id o).

Definition row_meta (r : MBPRow.t)
  : string * string * ascii * ascii * Z * Z * Z * Z * string * Z :=
  (MBPRow.ts_recv r, MBPRow.ts_event r, MBPRow.action r, MBPRow.side r,
   MBPRow.row_size r, MBPRow.flags r, MBPRow.ts_in_delta r, MBPRow.sequence r,
   MBPRow.symbol r, MBPRow.order_id r).

(** What the writer's validation asks of the fields a row copies from its
    event: non-empty time stamps and symbol, an action among A, C, T, F, R
    and a side among B, A, N. *)
Definition meta_valid (o : Order.t) : bool :=
  negb (CsvWriter.empty (Order.ts_recv o) || CsvWriter.empty (Order.ts_event o))
  && negb (CsvWriter.empty (Order.symbol o))
  && negb (negb (Ascii.eqb (Order.action o) "A") && negb (Ascii.eqb (Order.action o) "C")
           && negb (Ascii.eqb (Order.action o) "T") && negb (Ascii.eqb (Order.action o) "F")
           && negb (Ascii.eqb (Order.action o) "R"))
  && negb (negb (Ascii.eqb (Order.side o) "B") && negb (Ascii.eqb (Order.side o) "A")
           && negb (Ascii.eqb (Order.side o) "N")).




Definition add_3_N_100 : Order.t := event "A" "N" 3 100000000000 10 "t" "t" "S" 0 0 0.
Definition fill_1_B_100 : Order.t := event "F" "B" 1 100000000000 10 "t" "t" "S" 0 0 0.




(** The size recorded in the order-id index for an id (0 when it is not
    live). *)
Definition stored_size (b : OrderBook.t) (id : Z) : Z :=
  from_option OrderBook.size 0 (OrderBook.active_orders b !! id).

(** The recorded sizes of the ids of a level, summed. *)
Definition resting_size (b : OrderBook.t) (ids : list Z) : Z :=
  foldr (λ id acc, stored_size b id + acc) 0 ids.

Definition sizes_ok (b : OrderBook.t) : Prop :=
  ∀ side p l, level_of b side p = Some l →
    PriceLevel.total_size l = wrap64 (resting_size b (PriceLevel.order_ids l)).

(** [size] is a [uint32_t]. *)
Definition size_typed (o : Order.t) : Prop := 0 ≤ Order.size o < 2 ^ 32.

Definition sizes_typed (b : OrderBook.t) : Prop :=
  ∀ id info, OrderBook.active_orders b !! id = Some info →
    0 ≤ OrderBook.size info < 2 ^ 32.



(** The decimal numeral of a natural number, as a string. *)
Definition numeral (n : N) : string :=
  DecimalString.NilEmpty.string_of_uint (N.to_uint n).

(** Nothing, or something that does not begin with a digit. *)
Definition no_digit_ahead (rest : string) : Prop :=
  match rest with
  | EmptyString => True
  | String c _ => Utils.isdigit c = false
  end.

(** The columns of the header, by name. *)
Definition columns : list (string * (CsvReader.ColumnIndices → Z)) :=
  [("ts_recv", CsvReader.ts_recv);
   ("ts_event", CsvReader.ts_event);
   ("rtype", CsvReader.rtype);
   ("publisher_id", CsvReader.publisher_id);
   ("instrument_id", CsvReader.instrument_id);
   ("action", CsvReader.action);
   ("side", CsvReader.side);
   ("price", CsvReader.price);
   ("size", CsvReader.size);
   ("channel_id", CsvReader.channel_id);
   ("order_id", CsvReader.order_id);
   ("flags", CsvReader.flags);
   ("ts_in_delta", CsvReader.ts_in_delta);
   ("sequence", CsvReader.sequence);
   ("symbol", CsvReader.symbol)].

(** The columns [parse_header] insists on. *)
Definition required_columns : list string :=
  ["ts_recv"; "ts_event"; "action"; "side"; "order_id"; "sequence"; "symbol"].

(** [v] is what a header with the fields [fields] gives the column [name]:
    -1 when no field has the name, otherwise the position of the last field
    that has it. *)
Definition column_of (name : string) (fields : list string) (v : Z) : Prop :=
  (v = -1 ∧ name ∉ fields) ∨
  (0 ≤ v ∧ fields !! Z.to_nat v = Some name ∧
   ∀ j, (Z.to_nat v < j)%nat → fields !! j ≠ Some name).

Definition mbo_header : list string :=
  ["ts_recv"; "ts_event"; "rtype"; "publisher_id"; "instrument_id"; "action"; "side";
   "price"; "size"; "channel_id"; "order_id"; "flags"; "ts_in_delta"; "sequence";
   "symbol"].

(** The order counts of the levels of a price map, summed. *)
Definition levels_count (m : gmap Z PriceLevel.t) : Z :=
  map_fold (λ _ l acc, PriceLevel.order_count l + acc) 0 m.

(** The order counts of all levels of the book. *)
Definition resting_orders (b : OrderBook.t) : Z :=
  levels_count (OrderBook.bid_levels b) + levels_count (OrderBook.ask_levels b).

Definition count_of (l : option PriceLevel.t) : Z :=
  from_option PriceLevel.order_count 0 l.

Definition orders_counted (b : OrderBook.t) : Prop :=
  OrderBook.get_total_orders b = resting_orders b.

(** What the guard of [add_order] leaves in the book: live orders on the bid
    or the ask side with a non-zero price and size, and no level under the
    price 0. *)
Definition guarded (b : OrderBook.t) : Prop :=
  (∀ id info, OrderBook.active_orders b !! id = Some info →
     (OrderBook.side info = Utils.SIDE_BID ∨ OrderBook.side info = Utils.SIDE_ASK) ∧
     OrderBook.price_scaled info ≠ 0 ∧ OrderBook.size info ≠ 0) ∧
  (∀ side p l, level_of b side p = Some l → p ≠ 0).

(** * Properties *)

(** ** Iteration order *)

#[global] Instance key_greater_trans : Transitive OrderBook.key_greater.
Proof. intros x y z. unfold OrderBook.key_greater. lia. Qed.
#[global] Instance key_greater_total : Total OrderBook.key_greater.
Proof. intros x y. unfold OrderBook.key_greater. lia. Qed.
#[global] Instance key_less_trans : Transitive OrderBook.key_less.
Proof. intros x y z. unfold OrderBook.key_less. lia. Qed.
#[global] Instance key_less_total : Total OrderBook.key_less.
Proof. intros x y. unfold OrderBook.key_less. lia. Qed.

#[global] Instance ahead_dec side : RelDecision (ahead side).
Proof. intros k p. unfold ahead. destruct (Ascii.eqb _ _); apply _. Defined.

#[global] Instance in_top10_dec b side p : Decision (in_top10 b side p).
Proof. unfold in_top10. apply _. Defined.

#[global] Instance no_resting_dec b side p : Decision (no_resting b side p).
Proof. unfold no_resting. destruct (level_of b side p); apply _. Defined.

Lemma filter_none (P : Z → Prop) `{!∀ x, Decision (P x)} (l : list Z) :
  Forall (λ x, ¬ P x) l → filter P l = [].
Proof.
  induction 1 as [|x l Hx Hl IH]; [done|]. by rewrite filter_cons_False.
Qed.

Section iteration.

(** [R] is the comparator order on bindings, [S] the strict order it induces
    on keys. *)
Context (R : relation (Z * PriceLevel.t)).
Context {R_dec : RelDecision R} {R_trans : Transitive R} {R_total : Total R}.
Context (S : relation Z) {S_dec : RelDecision S}.
Hypothesis R_keys : ∀ x y, R x y → x.1 ≠ y.1 → S x.1 y.1.
Hypothesis S_irrefl : ∀ k, ¬ S k k.
Hypothesis S_asym : ∀ k k', S k k' → ¬ S k' k.

Lemma sorted_keys_strict (l : list (Z * PriceLevel.t)) :
  StronglySorted R l → NoDup l.*1 → StronglySorted S l.*1.
Proof using R_keys.
  induction 1 as [|x l Hs IH Hall]; intros Hnd; simpl; [constructor|].
  apply NoDup_cons in Hnd as [Hx Hnd]. constructor; [by apply IH|].
  apply Forall_fmap, Forall_forall. intros y Hy. simpl.
  apply R_keys.
  - by eapply Forall_forall in Hall.
  - intros E. apply Hx. rewrite E. apply list_elem_of_fmap. by exists y.
Qed.

(** The iteration visits the keys in strictly sorted order ... *)
Lemma iteration_keys_sorted (m : gmap Z PriceLevel.t) :
  StronglySorted S (merge_sort R (map_to_list m)).*1.
Proof using R_keys R_trans R_total.
  apply sorted_keys_strict.
  - by apply StronglySorted_merge_sort.
  - rewrite merge_sort_Permutation. apply NoDup_fst_map_to_list.
Qed.

(** ... and visits exactly the bindings of the map. *)
Lemma iteration_elem (m : gmap Z PriceLevel.t) (p : Z) (l : PriceLevel.t) :
  (p, l) ∈ merge_sort R (map_to_list m) ↔ m !! p = Some l.
Proof using Type. rewrite merge_sort_Permutation. apply elem_of_map_to_list. Qed.

Lemma iteration_key (m : gmap Z PriceLevel.t) (p : Z) :
  p ∈ (merge_sort R (map_to_list m)).*1 ↔ is_Some (m !! p).
Proof using Type.
  rewrite list_elem_of_fmap. split.
  - intros ([k l] & -> & H%iteration_elem). by exists l.
  - intros [l Hl]. exists (p, l). split; [done|]. by apply iteration_elem.
Qed.

(** In a strictly sorted list a key is among the first [n] exactly when it
    occurs and fewer than [n] keys come strictly before it. *)
Lemma take_rank (ks : list Z) (p : Z) (n : nat) :
  StronglySorted S ks →
  p ∈ take n ks ↔ p ∈ ks ∧ (length (filter (λ k, S k p) ks) < n)%nat.
Proof using S_irrefl S_asym.
  intros Hs. revert n. induction Hs as [|k ks Hs IH Hall]; intros n.
  - rewrite take_nil. split; [by intros ?%elem_of_nil|by intros [?%elem_of_nil _]].
  - destruct n as [|n]; simpl.
    { split; [by intros ?%elem_of_nil|]. intros [_ ?]. lia. }
    rewrite !elem_of_cons, IH.
    destruct (decide (p = k)) as [->|Hne].
    + rewrite filter_cons_False by apply S_irrefl.
      rewrite filter_none; [simpl; split; [intros _; split; [by left|lia]|by left]|].
      eapply Forall_impl; [exact Hall|]. intros x Hx. by apply S_asym.
    + split.
      * intros [?|[Hin Hlen]]; [done|]. split; [by right|].
        rewrite filter_cons_True by (by eapply Forall_forall in Hall).
        simpl. lia.
      * intros [[?|Hin] Hlen]; [done|]. right. split; [done|].
        rewrite filter_cons_True in Hlen by (by eapply Forall_forall in Hall).
        simpl in Hlen. lia.
Qed.

Lemma iteration_top (m : gmap Z PriceLevel.t) (p : Z) (n : nat) :
  p ∈ take n (merge_sort R (map_to_list m)).*1 ↔
  is_Some (m !! p) ∧ (length (filter (λ k, S k p) (map_to_list m).*1) < n)%nat.
Proof using R_keys R_trans R_total S_irrefl S_asym.
  rewrite take_rank by apply iteration_keys_sorted.
  rewrite iteration_key.
  assert ((merge_sort R (map_to_list m)).*1 ≡ₚ (map_to_list m).*1) as Hp.
  { by rewrite merge_sort_Permutation. }
  by rewrite (Permutation_length (filter_Permutation _ _ _ Hp)).
Qed.

End iteration.

(** A price is within the top 10 of a side exactly when the side's map has a
    level at it and fewer than ten levels of that map have a better price. *)
Lemma in_top10_rank (b : OrderBook.t) (side : ascii) (p : Z) :
  in_top10 b side p ↔
  ∃ m, side_levels b side = Some m ∧ is_Some (m !! p) ∧
       (length (filter (λ k, ahead side k p) (map_to_list m).*1) < 10)%nat.
Proof.
  unfold in_top10, side_keys, side_levels, ahead.
  destruct (Ascii.eqb_spec side Utils.SIDE_BID) as [->|Hb]; simpl.
  - unfold OrderBook.bid_iteration.
    rewrite (iteration_top OrderBook.key_greater (λ k k', k' < k)
               (S_dec := λ k k', decide (k' < k))).
    + split; [intros [??]; eexists; eauto|]. by intros (m & [= <-] & ?).
    + unfold OrderBook.key_greater. intros x y. lia.
    + intros k. lia.
    + intros k k'. lia.
  - destruct (Ascii.eqb_spec side Utils.SIDE_ASK) as [->|Ha]; simpl.
    + unfold OrderBook.ask_iteration.
      rewrite (iteration_top OrderBook.key_less (λ k k', k < k')
                 (S_dec := λ k k', decide (k < k'))).
      * split; [intros [??]; eexists; eauto|]. by intros (m & [= <-] & ?).
      * unfold OrderBook.key_less. intros x y. lia.
      * intros k. lia.
      * intros k k'. lia.
    + split; [by intros ?%elem_of_nil|]. by intros (m & ? & _).
Qed.

(** ** The depth loop *)

Lemma depth_loop_top (it : list (Z * PriceLevel.t)) (p d : Z) :
  0 ≤ d < 10 →
  (0 ≤ OrderBook.depth_loop it p d < 10) ↔ p ∈ take (Z.to_nat (10 - d)) it.*1.
Proof.
  revert d. induction it as [|[k v] rest IH]; intros d Hd; simpl.
  - rewrite take_nil. split; [lia|]. by intros ?%elem_of_nil.
  - replace (Z.to_nat (10 - d)) with (Datatypes.S (Z.to_nat (10 - (d + 1)))) by lia.
    simpl. rewrite elem_of_cons.
    destruct (Z.eqb_spec k p) as [->|Hne].
    + split; [by left | lia].
    + unfold Utils.MAX_DEPTH. destruct (Z.geb_spec (d + 1) 10) as [Hge|Hlt].
      * replace (Z.to_nat (10 - (d + 1))) with 0%nat by lia. simpl.
        split; [lia|]. intros [?|?%elem_of_nil]; [congruence|done].
      * rewrite IH by lia. split; [by right|]. intros [?|?]; [congruence|done].
Qed.

Lemma affects_top_levels_top10 (b : OrderBook.t) (side : ascii) (p : Z) :
  OrderBook.affects_top_levels b side p = true ↔ in_top10 b side p.
Proof.
  unfold OrderBook.affects_top_levels, OrderBook.get_price_depth, in_top10, side_keys.
  rewrite andb_true_iff, Z.geb_le, Z.ltb_lt. unfold Utils.MAX_DEPTH.
  destruct (Ascii.eqb side Utils.SIDE_BID).
  - apply (depth_loop_top _ p 0). lia.
  - destruct (Ascii.eqb side Utils.SIDE_ASK).
    + apply (depth_loop_top _ p 0). lia.
    + rewrite take_nil. split; [lia|]. by intros ?%elem_of_nil.
Qed.

(** ** Machine arithmetic *)

Lemma wrap32_small z : 0 ≤ z < 2 ^ 32 → wrap32 z = z.
Proof. intros. unfold wrap32. by apply Z.mod_small. Qed.

Lemma wrap64_add_sub t sz : 0 ≤ t < 2 ^ 64 → wrap64 (wrap64 (t + sz) - sz) = t.
Proof.
  intros Ht. unfold wrap64. rewrite Zminus_mod_idemp_l.
  replace (t + sz - sz) with t by lia. by apply Z.mod_small.
Qed.

Lemma wrap32_add_sub c : 0 ≤ c < 2 ^ 32 → wrap32 (wrap32 (c + 1) - 1) = c.
Proof.
  intros Hc. unfold wrap32. rewrite Zminus_mod_idemp_l.
  replace (c + 1 - 1) with c by lia. by apply Z.mod_small.
Qed.

(** ** PriceLevel::remove_order *)

Lemma remove_order_found l id sz :
  id ∈ PriceLevel.order_ids l →
  ∃ i, first_at id (PriceLevel.order_ids l) i ∧
       PriceLevel.remove_order l id sz =
         (wrap32 (PriceLevel.order_count l - 1) =? 0, level_without l i sz).
Proof.
  intros Hin. unfold PriceLevel.remove_order.
  destruct (list_find_elem_of (λ x, x = id) _ id Hin eq_refl) as [[i x] Hf].
  rewrite Hf. apply list_find_Some in Hf as (Hi & -> & Hfirst).
  exists i. split; [|done]. split; [done|].
  intros j Hj Hl. by apply (Hfirst j id).
Qed.

Lemma remove_order_missing l id sz :
  id ∉ PriceLevel.order_ids l → PriceLevel.remove_order l id sz = (false, l).
Proof.
  intros Hin. unfold PriceLevel.remove_order.
  destruct (list_find _ _) as [[i x]|] eqn:Hf; [|done].
  apply list_find_Some in Hf as (Hi & -> & _).
  destruct Hin. by eapply list_elem_of_lookup_2.
Qed.

Lemma first_at_app_fresh (id : Z) (ids : list Z) (i : nat) :
  id ∉ ids → first_at id (ids ++ [id]) i → i = length ids.
Proof.
  intros Hfresh [Hi _].
  destruct (decide (i < length ids)%nat) as [Hlt|Hge].
  - rewrite lookup_app_l in Hi by done. destruct Hfresh. by eapply list_elem_of_lookup_2.
  - apply lookup_lt_Some in Hi. rewrite length_app in Hi. simpl in Hi. lia.
Qed.

Lemma delete_app_last (ids : list Z) (id : Z) : delete (length ids) (ids ++ [id]) = ids.
Proof. induction ids as [|x ids IH]; simpl; [done|]. by rewrite IH. Qed.

(** What [remove_order] does to a level whose count matches its ids. *)
Lemma remove_order_result n l id sz :
  PriceLevel.order_count l = Z.of_nat (length (PriceLevel.order_ids l)) →
  (0 < length (PriceLevel.order_ids l) ≤ n)%nat →
  Z.of_nat n < 2 ^ 32 →
  let '(level_empty, l') := PriceLevel.remove_order l id sz in
  (level_empty = false →
     PriceLevel.order_count l' = Z.of_nat (length (PriceLevel.order_ids l')) ∧
     (0 < length (PriceLevel.order_ids l') ≤ n)%nat) ∧
  (∀ x, x ≠ id → x ∈ PriceLevel.order_ids l →
        level_empty = false ∧ x ∈ PriceLevel.order_ids l') ∧
  (∀ x, x ∈ PriceLevel.order_ids l' → x ∈ PriceLevel.order_ids l) ∧
  (NoDup (PriceLevel.order_ids l) →
     NoDup (PriceLevel.order_ids l') ∧
     (id ∈ PriceLevel.order_ids l → id ∉ PriceLevel.order_ids l')).
Proof.
  intros Hc Hlen Hn.
  destruct (decide (id ∈ PriceLevel.order_ids l)) as [Hin|Hin].
  - destruct (remove_order_found l id sz Hin) as (i & [Hi Hfirst] & ->).
    unfold level_without. simpl.
    assert (length (delete i (PriceLevel.order_ids l)) =
            (length (PriceLevel.order_ids l) - 1)%nat) as Hdel.
    { apply length_delete. by rewrite Hi. }
    rewrite wrap32_small by lia. rewrite Hc, Hdel.
    split_and!.
    + intros Hne%Z.eqb_neq. lia.
    + intros x Hx Hxin.
      assert (x ∈ delete i (PriceLevel.order_ids l)) as Hx'.
      { apply list_elem_of_lookup in Hxin as [j Hj].
        apply list_elem_of_lookup.
        destruct (decide (j < i)%nat).
        - exists j. by rewrite list_lookup_delete_lt.
        - assert (j ≠ i) by (intros ->; congruence).
          exists (j - 1)%nat. rewrite list_lookup_delete_ge by lia.
          by replace (S (j - 1)) with j by lia. }
      split; [|done].
      apply Z.eqb_neq. destruct (delete i (PriceLevel.order_ids l)) eqn:E.
      * by apply elem_of_nil in Hx'.
      * simpl in Hdel. lia.
    + intros x. apply list_elem_of_delete_inv.
    + intros Hnd. rewrite delete_take_drop.
      rewrite <- (take_drop_middle _ _ _ Hi) in Hnd.
      apply NoDup_app in Hnd as (H1 & H2 & H3). apply NoDup_cons in H3 as [H3 H4].
      split.
      * apply NoDup_app. split_and!; [done| |done].
        intros x Hx1 Hx2. apply (H2 x Hx1). by right.
      * intros _ [Hx|Hx]%elem_of_app; [|done].
        apply (H2 id Hx). by left.
  - rewrite remove_order_missing by done.
    split_and!; [done| |done|done].
    intros x _ Hx. done.
Qed.

(** ** Lookups after the book operations *)

Lemma remove_from_levels_lookup_ne m info id p :
  p ≠ OrderBook.price_scaled info →
  OrderBook.remove_from_levels m info id !! p = m !! p.
Proof.
  intros Hne. unfold OrderBook.remove_from_levels.
  destruct (m !! OrderBook.price_scaled info) as [l|]; [|done].
  destruct (PriceLevel.remove_order _ _ _) as [[] l'].
  - by rewrite lookup_delete_ne.
  - by rewrite lookup_insert_ne.
Qed.

Lemma remove_from_levels_lookup m info id :
  OrderBook.remove_from_levels m info id !! OrderBook.price_scaled info =
  l ← m !! OrderBook.price_scaled info;
  let '(level_empty, l') := PriceLevel.remove_order l id (OrderBook.size info) in
  if level_empty then None else Some l'.
Proof.
  unfold OrderBook.remove_from_levels.
  destruct (m !! OrderBook.price_scaled info) as [l|] eqn:E; simpl; [|done].
  destruct (PriceLevel.remove_order _ _ _) as [[] l'].
  - by rewrite lookup_delete_eq.
  - by rewrite lookup_insert_eq.
Qed.

Lemma process_trade_snd b order : snd (OrderBook.process_trade b order) = b.
Proof. unfold OrderBook.process_trade. by destruct (Ascii.eqb _ _). Qed.

Lemma effective_side_neutral b order :
  Order.side order = Utils.SIDE_NEUTRAL →
  OrderBook.effective_side b order = Utils.SIDE_NEUTRAL.
Proof. intros H. unfold OrderBook.effective_side. by rewrite H. Qed.

Lemma add_order_not_accepted b o : accepted o = false → OrderBook.add_order b o = (false, b).
Proof.
  unfold accepted, OrderBook.add_order. intros H%negb_false_iff. by rewrite H.
Qed.

Lemma cancel_order_unknown b order :
  OrderBook.active_orders b !! Order.order_id order = None →
  OrderBook.cancel_order b order = (false, b).
Proof. intros H. unfold OrderBook.cancel_order. by rewrite H. Qed.

Lemma active_orders_cancel b order :
  is_Some (OrderBook.active_orders b !! Order.order_id order) →
  OrderBook.active_orders (snd (OrderBook.cancel_order b order)) =
  delete (Order.order_id order) (OrderBook.active_orders b).
Proof. intros [info Hinfo]. unfold OrderBook.cancel_order. by rewrite Hinfo. Qed.

Lemma active_orders_add b o :
  accepted o = true →
  OrderBook.active_orders (snd (OrderBook.add_order b o)) =
  <[Order.order_id o :=
      OrderBook.mkOrderInfo (Order.side o) (Order.price_scaled o) (Order.size o)]>
    (OrderBook.active_orders b).
Proof.
  unfold accepted, OrderBook.add_order. intros H%negb_true_iff. rewrite H. simpl.
  destruct (Order.is_bid o); [done|]. by destruct (Order.is_ask o).
Qed.

Lemma accepted_side o :
  accepted o = true → Order.side o = Utils.SIDE_BID ∨ Order.side o = Utils.SIDE_ASK.
Proof.
  unfold accepted. intros H%negb_true_iff.
  apply orb_false_elim in H as [H _]. apply orb_false_elim in H as [H _].
  apply negb_false_iff in H. unfold Order.is_valid in H.
  apply orb_true_iff in H as [H|H]; apply Ascii.eqb_eq in H; auto.
Qed.

(** [level_of] after a cancel of a live id, in terms of the book before. *)
Lemma level_of_cancel b order info side p :
  OrderBook.active_orders b !! Order.order_id order = Some info →
  level_of (snd (OrderBook.cancel_order b order)) side p =
  if decide (side = OrderBook.side info ∧ p = OrderBook.price_scaled info)
  then l ← level_of b side p;
       let '(level_empty, l') :=
         PriceLevel.remove_order l (Order.order_id order) (OrderBook.size info) in
       if level_empty then None else Some l'
  else level_of b side p.
Proof.
  intros Hinfo. unfold OrderBook.cancel_order. rewrite Hinfo. simpl.
  unfold level_of, side_levels. simpl.
  destruct (Ascii.eqb_spec side Utils.SIDE_BID) as [->|Hb]; simpl.
  - destruct (Ascii.eqb_spec (OrderBook.side info) Utils.SIDE_BID) as [Hs|Hs].
    + destruct (decide _) as [[_ ->]|Hd].
      * apply remove_from_levels_lookup.
      * apply remove_from_levels_lookup_ne. intros ->. by destruct Hd.
    + rewrite decide_False; [done|]. intros [E _]. by rewrite E in Hs.
  - destruct (Ascii.eqb_spec side Utils.SIDE_ASK) as [->|Ha]; simpl.
    + destruct (Ascii.eqb_spec (OrderBook.side info) Utils.SIDE_BID) as [Hs|Hs].
      * rewrite decide_False; [done|]. rewrite Hs. by intros [E _].
      * destruct (Ascii.eqb_spec (OrderBook.side info) Utils.SIDE_ASK) as [Hs'|Hs'].
        -- destruct (decide _) as [[_ ->]|Hd].
           ++ apply remove_from_levels_lookup.
           ++ apply remove_from_levels_lookup_ne. intros ->. by destruct Hd.
        -- rewrite decide_False; [done|]. intros [E _]. by rewrite E in Hs'.
    + by destruct (decide _).
Qed.

(** [level_of] after an Add that passes the guard. *)
Lemma level_of_add b o side p :
  accepted o = true →
  level_of (snd (OrderBook.add_order b o)) side p =
  if decide (side = Order.side o ∧ p = Order.price_scaled o)
  then Some (level_after_add (level_of b side p) o)
  else level_of b side p.
Proof.
  intros Hacc. pose proof (accepted_side o Hacc) as Hside.
  unfold accepted in Hacc. apply negb_true_iff in Hacc.
  unfold OrderBook.add_order. rewrite Hacc. simpl.
  unfold Order.is_bid, Order.is_ask, level_of, side_levels,
    Utils.SIDE_BID, Utils.SIDE_ASK in *.
  destruct Hside as [Hs|Hs]; rewrite Hs; simpl.
  - destruct (Ascii.eqb_spec side "B") as [->|Hb]; simpl.
    + destruct (decide _) as [[_ ->]|Hd].
      * unfold OrderBook.add_to_levels. by rewrite lookup_insert_eq.
      * unfold OrderBook.add_to_levels. rewrite lookup_insert_ne; [done|].
        intros <-. by destruct Hd.
    + destruct (decide _) as [[E _]|_]; [by destruct Hb|done].
  - destruct (Ascii.eqb_spec side "B") as [->|Hb]; simpl.
    + destruct (decide ("B"%char = "A"%char ∧ p = Order.price_scaled o))
        as [[E _]|_]; [discriminate E|done].
    + destruct (Ascii.eqb_spec side "A") as [->|Ha]; simpl.
      * destruct (decide _) as [[_ ->]|Hd].
        -- unfold OrderBook.add_to_levels. by rewrite lookup_insert_eq.
        -- unfold OrderBook.add_to_levels. rewrite lookup_insert_ne; [done|].
           intros <-. by destruct Hd.
      * destruct (decide _) as [[E _]|_]; [by destruct Ha|done].
Qed.

(** ** The Trade handler *)

(** C1: for Add(id=7, Bid, 100, 3) then Trade(Ask, 100, 3) on a fresh
    engine the Trade does produce a snapshot and its side field is 'A'; the
    effective side is Bid, where 100 has rank 0; but the depth field of the
    snapshot is -1, not 0: [generate_mbp_snapshot] looks the price up on the
    declared side of the triggering event, and the ask map is empty. *)
Theorem C1_trade_snapshot_depth
    (ts_recv ts_event symbol : string) (flags ts_in_delta sequence : Z)
    (order_id' : Z) (ts_recv' ts_event' symbol' : string)
    (flags' ts_in_delta' sequence' : Z) :
  let add := S5_add ts_recv ts_event symbol flags ts_in_delta sequence in
  let trade := S5_trade order_id' ts_recv' ts_event' symbol'
                        flags' ts_in_delta' sequence' in
  let book := snd (OrderBook.process_order OrderBook.init add) in
  OrderBook.effective_side book trade = Utils.SIDE_BID ∧
  OrderBook.get_price_depth book Utils.SIDE_BID (Order.price_scaled trade) = 0 ∧
  ∃ row, fst (OrderBook.process_order book trade) = Some row ∧
         MBPRow.side row = Utils.SIDE_ASK ∧
         MBPRow.depth row = -1.
Proof.
  intros add trade book. subst add trade book.
  split; [reflexivity|]. split; [reflexivity|].
  eexists. split; [vm_compute; reflexivity|]. split; reflexivity.
Qed.

(** C2: a Trade with declared side Neutral returns false; with declared side
    Ask (Bid) and no resting order at the price on the ask (bid) side the
    effective side is Bid (Ask); otherwise the effective side is the declared
    one; and the Trade returns true exactly when the price is within the top
    10 levels of the effective side. *)
Theorem C2_trade_effective_side (b : OrderBook.t) (order : Order.t) :
  let p := Order.price_scaled order in
  let declared := Order.side order in
  (declared = Utils.SIDE_NEUTRAL → fst (OrderBook.process_trade b order) = false) ∧
  (declared = Utils.SIDE_ASK → no_resting b Utils.SIDE_ASK p →
   OrderBook.effective_side b order = Utils.SIDE_BID) ∧
  (declared = Utils.SIDE_BID → no_resting b Utils.SIDE_BID p →
   OrderBook.effective_side b order = Utils.SIDE_ASK) ∧
  (¬ (declared = Utils.SIDE_ASK ∧ no_resting b Utils.SIDE_ASK p) →
   ¬ (declared = Utils.SIDE_BID ∧ no_resting b Utils.SIDE_BID p) →
   OrderBook.effective_side b order = declared) ∧
  (fst (OrderBook.process_trade b order) = true ↔
   in_top10 b (OrderBook.effective_side b order) p).
Proof.
  intros p declared. subst p declared.
  unfold no_resting, level_of, side_levels. simpl.
  repeat split.
  - intros H. unfold OrderBook.process_trade. by rewrite H.
  - intros H Hno. unfold OrderBook.effective_side. rewrite H. simpl.
    destruct (OrderBook.ask_levels b !! _) as [l|]; [|done].
    rewrite Hno. done.
  - intros H Hno. unfold OrderBook.effective_side. rewrite H. simpl.
    destruct (OrderBook.bid_levels b !! _) as [l|]; [|done].
    rewrite Hno. done.
  - intros Ha Hb. unfold OrderBook.effective_side.
    destruct (Ascii.eqb_spec (Order.side order) Utils.SIDE_ASK) as [E|E].
    + destruct (OrderBook.ask_levels b !! _) as [l|]; [|by destruct Ha].
      destruct (Z.eqb_spec (PriceLevel.order_count l) 0); [by destruct Ha|done].
    + destruct (Ascii.eqb_spec (Order.side order) Utils.SIDE_BID) as [E'|E']; [|done].
      destruct (OrderBook.bid_levels b !! _) as [l|]; [|by destruct Hb].
      destruct (Z.eqb_spec (PriceLevel.order_count l) 0); [by destruct Hb|done].
  - unfold OrderBook.process_trade.
    destruct (Ascii.eqb_spec (Order.side order) Utils.SIDE_NEUTRAL) as [E|E]; simpl.
    + done.
    + apply affects_top_levels_top10.
  - unfold OrderBook.process_trade.
    destruct (Ascii.eqb_spec (Order.side order) Utils.SIDE_NEUTRAL) as [E|E]; simpl.
    + rewrite effective_side_neutral by done. unfold in_top10, side_keys. simpl.
      by intros ?%elem_of_nil.
    + apply affects_top_levels_top10.
Qed.

Lemma C2_witness :
  (OrderBook.effective_side S5_book (S5_trade 8 "t" "t" "S" 0 0 0) = Utils.SIDE_BID ∧
   fst (OrderBook.process_trade S5_book (S5_trade 8 "t" "t" "S" 0 0 0)) = true) ∧
  fst (OrderBook.process_trade S5_book trade_N_100) = false ∧
  OrderBook.effective_side S5_book trade_B_99 = Utils.SIDE_ASK ∧
  OrderBook.effective_side S5_book trade_B_100 = Utils.SIDE_BID.
Proof.
  split; [|split; [|split]].
  - destruct (C2_trade_effective_side S5_book (S5_trade 8 "t" "t" "S" 0 0 0))
      as (_ & Hask & _ & _ & Htop).
    split.
    + apply Hask; [reflexivity|]. vm_compute. exact I.
    + apply Htop. vm_compute. apply list_elem_of_here.
  - destruct (C2_trade_effective_side S5_book trade_N_100) as (Hneutral & _).
    apply Hneutral. reflexivity.
  - destruct (C2_trade_effective_side S5_book trade_B_99) as (_ & _ & Hbid & _).
    apply Hbid; [reflexivity|]. vm_compute. exact I.
  - destruct (C2_trade_effective_side S5_book trade_B_100) as (_ & _ & _ & Hsame & _).
    apply Hsame.
    + intros [E _]. discriminate E.
    + intros [_ E]. vm_compute in E. discriminate E.
Defined.

(** C3: processing a Trade leaves the bid map, the ask map and the order-id
    index as they were, whatever the declared side, price and size. *)
Theorem C3_trade_frame (b : OrderBook.t) (order : Order.t) :
  snd (OrderBook.process_trade b order) = b ∧
  (Order.action order = Utils.ACTION_TRADE →
   book_state (snd (OrderBook.process_order b order)) = book_state b).
Proof.
  split; [apply process_trade_snd|].
  intros Ha. unfold OrderBook.process_order, OrderBook.dispatch. rewrite Ha. simpl.
  pose proof (process_trade_snd b order) as Hs.
  destruct (OrderBook.process_trade b order) as [r b']. simpl in Hs. subst b'.
  by destruct r.
Qed.

Lemma C3_witness :
  book_state (snd (OrderBook.process_order S5_book (S5_trade 8 "t" "t" "S" 0 0 0)))
  = book_state S5_book.
Proof.
  apply (C3_trade_frame S5_book (S5_trade 8 "t" "t" "S" 0 0 0)). reflexivity.
Defined.

(** ** Add *)

Lemma is_valid_false order :
  Order.side order ≠ Utils.SIDE_BID → Order.side order ≠ Utils.SIDE_ASK →
  Order.is_valid order = false.
Proof.
  intros Hb Ha. unfold Order.is_valid.
  apply orb_false_intro; by apply Ascii.eqb_neq.
Qed.

Lemma add_order_rejected b order :
  Order.is_valid order = false ∨ Order.price_scaled order = 0 ∨ Order.size order = 0 →
  OrderBook.add_order b order = (false, b).
Proof.
  intros H. unfold OrderBook.add_order.
  destruct H as [-> | [-> | ->]]; simpl; try done.
  - by rewrite orb_true_r.
  - by rewrite orb_true_r.
Qed.

(** C8: an Add whose side is neither Bid nor Ask, or whose scaled price is
    0, or whose size is 0, returns false and leaves the book as it was; as an
    event it yields no snapshot and leaves the three containers unchanged. *)
Theorem C8_add_rejected (b : OrderBook.t) (order : Order.t) :
  (Order.side order ≠ Utils.SIDE_BID ∧ Order.side order ≠ Utils.SIDE_ASK)
  ∨ Order.price_scaled order = 0 ∨ Order.size order = 0 →
  OrderBook.add_order b order = (false, b) ∧
  (Order.action order = Utils.ACTION_ADD →
   fst (OrderBook.process_order b order) = None ∧
   book_state (snd (OrderBook.process_order b order)) = book_state b).
Proof.
  intros H.
  assert (OrderBook.add_order b order = (false, b)) as Hadd.
  { apply add_order_rejected. destruct H as [[??]|[?|?]]; auto using is_valid_false. }
  split; [done|]. intros Ha.
  unfold OrderBook.process_order, OrderBook.dispatch. rewrite Ha, Hadd. by simpl.
Qed.

Lemma C8_witness :
  OrderBook.add_order book_1_B_100 add_2_N_100 = (false, book_1_B_100) ∧
  fst (OrderBook.process_order book_1_B_100 add_2_N_100) = None.
Proof.
  destruct (C8_add_rejected book_1_B_100 add_2_N_100) as [Hadd Hev].
  - left. split; discriminate.
  - split; [exact Hadd|]. apply Hev. reflexivity.
Defined.

(** ** Cancel *)

(** C9: a Cancel whose id is not in the order-id index returns false and
    leaves the book unchanged (no snapshot as an event); so of two identical
    Cancels of a live id the first erases the id from the index and the
    second changes nothing, whatever held of the book before it holds after. *)
Theorem C9_cancel_unknown (b : OrderBook.t) (order : Order.t) :
  (OrderBook.active_orders b !! Order.order_id order = None →
   OrderBook.cancel_order b order = (false, b) ∧
   (Order.action order = Utils.ACTION_CANCEL →
    fst (OrderBook.process_order b order) = None ∧
    book_state (snd (OrderBook.process_order b order)) = book_state b)) ∧
  (is_Some (OrderBook.active_orders b !! Order.order_id order) →
   let b1 := snd (OrderBook.cancel_order b order) in
   OrderBook.active_orders b1 =
     delete (Order.order_id order) (OrderBook.active_orders b) ∧
   OrderBook.cancel_order b1 order = (false, b1) ∧
   ∀ Inv : OrderBook.t → Prop, Inv b1 → Inv (snd (OrderBook.cancel_order b1 order))).
Proof.
  split.
  - intros H. pose proof (cancel_order_unknown b order H) as Hc. split; [done|].
    intros Ha. unfold OrderBook.process_order, OrderBook.dispatch.
    rewrite Ha, Hc. by simpl.
  - intros Hlive b1.
    assert (OrderBook.active_orders b1 =
            delete (Order.order_id order) (OrderBook.active_orders b)) as Hact.
    { by apply active_orders_cancel. }
    assert (OrderBook.cancel_order b1 order = (false, b1)) as Hc.
    { apply cancel_order_unknown. rewrite Hact. apply lookup_delete_eq. }
    split; [done|]. split; [done|].
    intros Inv HI. by rewrite Hc.
Qed.

Lemma C9_witness :
  OrderBook.cancel_order OrderBook.init cancel_1_B_100 = (false, OrderBook.init) ∧
  OrderBook.cancel_order (snd (OrderBook.cancel_order book_1_B_100 cancel_1_B_100))
                         cancel_1_B_100
  = (false, snd (OrderBook.cancel_order book_1_B_100 cancel_1_B_100)).
Proof.
  split.
  - destruct (C9_cancel_unknown OrderBook.init cancel_1_B_100) as [Hunknown _].
    apply Hunknown. reflexivity.
  - destruct (C9_cancel_unknown book_1_B_100 cancel_1_B_100) as [_ Hlive].
    apply Hlive. vm_compute. eexists. reflexivity.
Defined.

(** C10: two Cancel events that carry the same order id give the same
    resulting book and the same return value, however their side, price and
    size fields differ. *)
Theorem C10_cancel_depends_on_id_only (b : OrderBook.t) (c1 c2 : Order.t) :
  Order.order_id c1 = Order.order_id c2 →
  OrderBook.cancel_order b c1 = OrderBook.cancel_order b c2.
Proof. intros H. unfold OrderBook.cancel_order. by rewrite H. Qed.

Lemma C10_witness :
  OrderBook.cancel_order book_1_B_100 cancel_1_B_100 =
  OrderBook.cancel_order book_1_B_100 cancel_1_A_5.
Proof.
  apply (C10_cancel_depends_on_id_only book_1_B_100 cancel_1_B_100 cancel_1_A_5).
  reflexivity.
Defined.

(** C6: a Cancel of a live id returns true exactly when the stored (side,
    price) of the order is within the top 10 levels of its side in the book
    before the removal; the removal erases the id from the order-id index,
    erases its first occurrence from the level at the stored side and price,
    deletes that level when its order count reaches 0 (which, for a level
    whose count matches its ids, is when no id remains), and leaves every
    other level as it was. *)
Theorem C6_cancel_live (b : OrderBook.t) (order : Order.t) (info : OrderBook.OrderInfo) :
  OrderBook.active_orders b !! Order.order_id order = Some info →
  let id := Order.order_id order in
  let side := OrderBook.side info in
  let p := OrderBook.price_scaled info in
  let b' := snd (OrderBook.cancel_order b order) in
  (fst (OrderBook.cancel_order b order) = true ↔ in_top10 b side p) ∧
  OrderBook.active_orders b' = delete id (OrderBook.active_orders b) ∧
  (∀ l, level_of b side p = Some l → id ∈ PriceLevel.order_ids l →
     ∃ i, first_at id (PriceLevel.order_ids l) i ∧
          level_of b' side p =
            (if wrap32 (PriceLevel.order_count l - 1) =? 0 then None
             else Some (level_without l i (OrderBook.size info))) ∧
          (PriceLevel.order_count l = Z.of_nat (length (PriceLevel.order_ids l)) →
           Z.of_nat (length (PriceLevel.order_ids l)) < 2 ^ 32 →
           (level_of b' side p = None ↔ PriceLevel.order_ids l = [id]))) ∧
  (∀ l, level_of b side p = Some l → id ∉ PriceLevel.order_ids l →
     level_of b' side p = Some l) ∧
  (∀ side' p', ¬ (side' = side ∧ p' = p) → level_of b' side' p' = level_of b side' p').
Proof.
  intros Hinfo id side p b'. subst id side p b'.
  split_and!.
  - unfold OrderBook.cancel_order. rewrite Hinfo. simpl.
    apply affects_top_levels_top10.
  - apply active_orders_cancel. by rewrite Hinfo.
  - intros l Hl Hin.
    rewrite (level_of_cancel b order info _ _ Hinfo).
    rewrite decide_True by done. rewrite Hl. simpl.
    destruct (remove_order_found l _ (OrderBook.size info) Hin) as (i & Hi & ->).
    exists i. split_and!; [done..|].
    intros Hc Hlen. rewrite Hc.
    assert (0 < length (PriceLevel.order_ids l))%nat as Hpos.
    { destruct Hi as [Hi _]. apply lookup_lt_Some in Hi. lia. }
    rewrite wrap32_small by lia.
    destruct (PriceLevel.order_ids l) as [|x [|y ids]] eqn:E; simpl in *; [lia| |].
    + apply list_elem_of_singleton in Hin as ->. done.
    + destruct (Z.eqb_spec (Z.of_nat (S (S (length ids))) - 1) 0); [lia|].
      split; discriminate.
  - intros l Hl Hin.
    rewrite (level_of_cancel b order info _ _ Hinfo).
    rewrite decide_True by done. rewrite Hl. simpl.
    by rewrite remove_order_missing.
  - intros side' p' Hne.
    rewrite (level_of_cancel b order info _ _ Hinfo).
    by rewrite decide_False.
Qed.

Lemma C6_witness :
  fst (OrderBook.cancel_order book_1_B_100 cancel_1_B_100) = true ∧
  level_of (snd (OrderBook.cancel_order book_1_B_100 cancel_1_B_100))
           Utils.SIDE_BID 100000000000 = None.
Proof.
  destruct (C6_cancel_live book_1_B_100 cancel_1_B_100
              (OrderBook.mkOrderInfo "B" 100000000000 10) eq_refl)
    as (Htop & _ & Hlevel & _).
  split.
  - apply Htop. vm_compute. apply list_elem_of_here.
  - destruct (Hlevel (PriceLevel.mk 100000000000 10 1 [1]) eq_refl
                     (list_elem_of_here _ _)) as (i & _ & _ & Hempty).
    apply Hempty; [reflexivity|reflexivity|reflexivity].
Defined.

(** ** Add then Cancel *)

Lemma add_remove_levels (m : gmap Z PriceLevel.t) (add : Order.t) (s : ascii) :
  (∀ l, m !! Order.price_scaled add = Some l →
        level_typed l ∧ PriceLevel.order_count l ≠ 0 ∧
        Order.order_id add ∉ PriceLevel.order_ids l) →
  OrderBook.remove_from_levels (OrderBook.add_to_levels m add)
    (OrderBook.mkOrderInfo s (Order.price_scaled add) (Order.size add))
    (Order.order_id add) = m.
Proof.
  intros Hl. unfold OrderBook.remove_from_levels, OrderBook.add_to_levels. simpl.
  rewrite lookup_insert_eq.
  destruct (m !! Order.price_scaled add) as [l|] eqn:E; simpl.
  - destruct (Hl l eq_refl) as ([Ht Hc] & Hne & Hfresh).
    rewrite (proj2 (Z.eqb_neq _ _) Hne).
    destruct (remove_order_found
                (PriceLevel.add_order l (Order.order_id add) (Order.size add))
                (Order.order_id add) (Order.size add)) as (i & Hi & ->).
    { simpl. apply elem_of_app. right. apply list_elem_of_here. }
    simpl in Hi. apply first_at_app_fresh in Hi; [|done]. subst i.
    unfold level_without. simpl.
    rewrite wrap32_add_sub, wrap64_add_sub, delete_app_last by done.
    rewrite (proj2 (Z.eqb_neq _ _) Hne).
    rewrite insert_insert_eq. apply insert_id. rewrite E. by destruct l.
  - change (wrap32 (1 - 1) =? 0) with true.
    unfold PriceLevel.remove_order. simpl. rewrite decide_True by done. simpl.
    change (wrap32 (1 - 1) =? 0) with true. simpl.
    by apply delete_insert_id.
Qed.

(** C5, as the code has it: when the id is not in the order-id index and
    the level at (s, p), if there is one, has its counters in range, a
    non-zero order count and does not hold the id already, Add(id, s, p, sz)
    followed by a Cancel of that id leaves the book equal to its state before
    the Add. *)
Theorem C5_add_then_cancel (b : OrderBook.t) (add cancel : Order.t) :
  Order.order_id cancel = Order.order_id add →
  OrderBook.active_orders b !! Order.order_id add = None →
  (∀ l, level_of b (Order.side add) (Order.price_scaled add) = Some l →
        level_typed l ∧ PriceLevel.order_count l ≠ 0 ∧
        Order.order_id add ∉ PriceLevel.order_ids l) →
  snd (OrderBook.cancel_order (snd (OrderBook.add_order b add)) cancel) = b.
Proof.
  intros Hid Hfresh Hl. unfold OrderBook.add_order.
  destruct (negb _ || _ || _) eqn:Hrej; simpl.
  - unfold OrderBook.cancel_order. by rewrite Hid, Hfresh.
  - apply orb_false_elim in Hrej as [Hrej _]. apply orb_false_elim in Hrej as [Hv _].
    apply negb_false_iff in Hv. unfold Order.is_valid in Hv.
    unfold Order.is_bid, Order.is_ask.
    unfold level_of, side_levels, Utils.SIDE_BID, Utils.SIDE_ASK in Hl.
    destruct (Ascii.eqb_spec (Order.side add) "B") as [Hs|Hs]; simpl in *.
    + unfold OrderBook.cancel_order. simpl. rewrite Hid, lookup_insert_eq. simpl.
      rewrite Hs. simpl. rewrite <- Hs at 1.
      rewrite add_remove_levels by done. rewrite delete_insert_id by done.
      by destruct b.
    + destruct (Ascii.eqb_spec (Order.side add) "A") as [Hs'|Hs']; [|done]. simpl in *.
      unfold OrderBook.cancel_order. simpl. rewrite Hid, lookup_insert_eq. simpl.
      rewrite Hs'. simpl. rewrite <- Hs' at 1.
      rewrite add_remove_levels by done. rewrite delete_insert_id by done.
      by destruct b.
Qed.

Lemma C5_witness :
  snd (OrderBook.cancel_order
         (snd (OrderBook.add_order book_2_B_100 add_1_B_100)) cancel_1_B_100)
  = book_2_B_100.
Proof.
  apply (C5_add_then_cancel book_2_B_100 add_1_B_100 cancel_1_B_100).
  - reflexivity.
  - reflexivity.
  - intros l Hl. vm_compute in Hl. injection Hl as <-.
    split; [|split].
    + unfold level_typed. simpl. lia.
    + discriminate.
    + simpl. intros Hin. apply list_elem_of_singleton in Hin. discriminate Hin.
Defined.

(** C5 as stated fails when the id is already live: on the book that holds
    order 1 at (Bid, 100), Add(1, B, 100, 10) then Cancel(1, B, 100, 10)
    leaves the level at 100 in place and the index without id 1. *)
Lemma C5_counterexample :
  book_state (snd (OrderBook.cancel_order
                     (snd (OrderBook.add_order book_1_B_100 add_1_B_100))
                     cancel_1_B_100))
  ≠ book_state book_1_B_100.
Proof.
  intros H. apply (f_equal (λ s, s.2 !! 1)) in H. vm_compute in H. discriminate H.
Qed.

(** ** The event loop *)

Lemma process_orders_app (pre post : list Order.t) (st : Main.LoopState) :
  Main.process_orders (pre ++ post) st =
  let '(code, st') := Main.process_orders pre st in
  if code =? 0 then Main.process_orders post st' else (code, st').
Proof.
  revert st. induction pre as [|o pre IH]; intros st; simpl.
  - by destruct (Main.process_orders post st).
  - destruct (Main.loop_body st o) as [st'|st']; [apply IH|done].
Qed.

Lemma process_orders_code (orders : list Order.t) (st : Main.LoopState) :
  fst (Main.process_orders orders st) = 0 ∨ fst (Main.process_orders orders st) = 1.
Proof.
  revert st. induction orders as [|o orders IH]; intros st; simpl; [by left|].
  destruct (Main.loop_body st o); [apply IH|by right].
Qed.

(** The loop body on an event that the initial-Clear rule does not take. *)
Lemma loop_body_flag (st st' : Main.LoopState) (o : Order.t) :
  Order.action o ≠ Utils.ACTION_CLEAR →
  Main.loop_body st o = inl st' →
  Main.first_clear_ignored st' = Main.first_clear_ignored st.
Proof.
  intros Ha. unfold Main.loop_body.
  rewrite (proj2 (Ascii.eqb_neq _ _) Ha), andb_false_r.
  destruct (OrderBook.process_order _ _) as [[row|] book].
  - destruct (CsvWriter.write_mbp_row _ _) as [[] w]; [|done].
    by intros [= <-].
  - by intros [= <-].
Qed.

Lemma no_clear_keeps_flag (pre : list Order.t) (st : Main.LoopState) :
  Forall (λ o, Order.action o ≠ Utils.ACTION_CLEAR) pre →
  fst (Main.process_orders pre st) = 0 →
  Main.first_clear_ignored (snd (Main.process_orders pre st)) =
  Main.first_clear_ignored st.
Proof.
  intros Hpre. revert st. induction Hpre as [|o pre Ho Hpre IH]; intros st; simpl; [done|].
  destruct (Main.loop_body st o) as [st'|st'] eqn:E; simpl; [|done].
  intros Hc. rewrite IH by done. by eapply loop_body_flag.
Qed.

Lemma loop_body_initial_clear (st : Main.LoopState) (ev : Order.t) :
  Main.first_clear_ignored st = false →
  Order.action ev = Utils.ACTION_CLEAR →
  Main.loop_body st ev =
  inl (Main.mkLoopState (Main.order_book st) (Main.csv_writer st) true
                        (wrap64 (Main.processed_orders st + 1)) (Main.mbp_updates st)).
Proof. intros Hf Ha. unfold Main.loop_body. by rewrite Hf, Ha. Qed.

(** C7: in every event sequence run from a fresh engine the first event
    whose action is Clear writes no row and leaves the book as it was; and
    for Clear then Add(id=1, B, 100.000000000, 10), the Add carrying the
    non-empty time stamps and symbol the writer insists on, exactly one row
    is written, under row index 0, for the Add, with bid_levels[0] =
    (100, 10, 1), the other bid slots and all ask slots zero, and depth 0. *)
Theorem C7_initial_clear :
  (∀ (pre : list Order.t) (ev : Order.t),
     Forall (λ o, Order.action o ≠ Utils.ACTION_CLEAR) pre →
     Order.action ev = Utils.ACTION_CLEAR →
     let before := snd (Main.process_reconstruction pre) in
     let after := snd (Main.process_reconstruction (pre ++ [ev])) in
     Main.order_book after = Main.order_book before ∧
     Main.csv_writer after = Main.csv_writer before) ∧
  (∀ (clear : Order.t) ts_recv ts_event symbol flags ts_in_delta sequence,
     Order.action clear = Utils.ACTION_CLEAR →
     ts_recv ≠ EmptyString → ts_event ≠ EmptyString → symbol ≠ EmptyString →
     ∃ st row,
       Main.process_reconstruction
         [clear; S1_add ts_recv ts_event symbol flags ts_in_delta sequence] = (0, st) ∧
       CsvWriter.written (Main.csv_writer st) = [(0, row)] ∧
       MBPRow.action row = Utils.ACTION_ADD ∧
       MBPRow.order_id row = 1 ∧
       MBPRow.bid_levels row =
         MBPRow.mkLevel (to_double 100) 10 1 :: replicate 9 MBPRow.Level0 ∧
       MBPRow.ask_levels row = replicate 10 MBPRow.Level0 ∧
       MBPRow.depth row = 0).
Proof.
  split.
  - intros pre ev Hpre Ha before after. subst before after.
    unfold Main.process_reconstruction. rewrite process_orders_app.
    pose proof (no_clear_keeps_flag pre Main.initial Hpre) as Hflag.
    destruct (process_orders_code pre Main.initial) as [Hc|Hc];
      destruct (Main.process_orders pre Main.initial) as [code st];
      simpl in *; subst code; simpl; [|done].
    rewrite loop_body_initial_clear by auto. done.
  - intros clear ts_recv ts_event symbol flags ts_in_delta sequence Ha H1 H2 H3.
    destruct ts_recv as [|c1 s1]; [done|].
    destruct ts_event as [|c2 s2]; [done|].
    destruct symbol as [|c3 s3]; [done|].
    unfold Main.process_reconstruction. simpl.
    rewrite loop_body_initial_clear by done.
    eexists _, _. split; [vm_compute; reflexivity|].
    repeat split.
Qed.

Lemma C7_witness :
  Main.order_book (snd (Main.process_reconstruction ([add_1_B_100] ++ [clear_N]))) =
  Main.order_book (snd (Main.process_reconstruction [add_1_B_100])) ∧
  ∃ st row,
    Main.process_reconstruction [clear_N; S1_add "t1" "t2" "SYM" 0 0 1] = (0, st) ∧
    CsvWriter.written (Main.csv_writer st) = [(0, row)] ∧
    MBPRow.depth row = 0.
Proof.
  destruct C7_initial_clear as [Hfirst Hscenario].
  split.
  - apply (Hfirst [add_1_B_100] clear_N); [|reflexivity].
    apply Forall_cons. split; [discriminate|apply Forall_nil_2].
  - destruct (Hscenario clear_N "t1" "t2" "SYM" 0 0 1)%string
      as (st & row & Hrun & Hrows & _ & _ & _ & _ & Hdepth);
      [reflexivity|discriminate|discriminate|discriminate|].
    exists st, row. split; [exact Hrun|]. split; [exact Hrows|exact Hdepth].
Defined.

(** ** The invariant I1 along a run *)

(** *** One accepted Add *)

Lemma level_after_add_counted n old o :
  (∀ l, old = Some l →
     PriceLevel.order_count l = Z.of_nat (length (PriceLevel.order_ids l)) ∧
     (0 < length (PriceLevel.order_ids l) ≤ n)%nat) →
  Z.of_nat (S n) < 2 ^ 32 →
  let l' := level_after_add old o in
  PriceLevel.order_count l' = Z.of_nat (length (PriceLevel.order_ids l')) ∧
  (0 < length (PriceLevel.order_ids l') ≤ S n)%nat ∧
  Order.order_id o ∈ PriceLevel.order_ids l' ∧
  (∀ l, old = Some l →
        PriceLevel.order_ids l' = PriceLevel.order_ids l ++ [Order.order_id o]).
Proof.
  intros Hold Hn. unfold level_after_add.
  destruct old as [l|]; simpl.
  - destruct (Hold l eq_refl) as [Hc Hlen].
    destruct (Z.eqb_spec (PriceLevel.order_count l) 0) as [E|E]; [lia|].
    simpl. rewrite length_app. simpl. rewrite wrap32_small by lia.
    split_and!; [lia|lia|lia| |by intros ? [= <-]].
    apply elem_of_app. right. apply list_elem_of_here.
  - split_and!; [done|lia|lia|apply list_elem_of_here|done].
Qed.

Lemma add_order_counts n b o :
  counts_ok n b → Z.of_nat (S n) < 2 ^ 32 →
  counts_ok (S n) (snd (OrderBook.add_order b o)).
Proof.
  intros Hc Hn side p l.
  destruct (accepted o) eqn:Hacc.
  - rewrite level_of_add by done.
    destruct (decide _) as [_|_].
    + intros [= <-].
      destruct (level_after_add_counted n (level_of b side p) o) as (?&?&_); [|done|done].
      intros l' Hl'. by eapply Hc.
    + intros Hl. destruct (Hc side p l Hl) as [? ?]. split; [done|lia].
  - rewrite add_order_not_accepted by done. simpl.
    intros Hl. destruct (Hc side p l Hl) as [? ?]. split; [done|lia].
Qed.

Lemma add_order_forward n b o :
  counts_ok n b → Z.of_nat (S n) < 2 ^ 32 → forward_inv b →
  forward_inv (snd (OrderBook.add_order b o)).
Proof.
  intros Hc Hn Hf. destruct (accepted o) eqn:Hacc;
    [|by rewrite add_order_not_accepted].
  intros id info. rewrite active_orders_add by done.
  rewrite level_of_add by done.
  assert (∀ side p, let l' := level_after_add (level_of b side p) o in
            Order.order_id o ∈ PriceLevel.order_ids l' ∧
            ∀ l, level_of b side p = Some l →
                 PriceLevel.order_ids l' = PriceLevel.order_ids l ++ [Order.order_id o])
    as Hnew.
  { intros side p.
    destruct (level_after_add_counted n (level_of b side p) o) as (_&_&?&?); [|done|done].
    intros l' Hl'. by eapply Hc. }
  destruct (decide (id = Order.order_id o)) as [->|Hne].
  - rewrite lookup_insert_eq. intros [= <-]. simpl.
    rewrite decide_True by done. eexists. split; [done|]. apply Hnew.
  - rewrite lookup_insert_ne by done. intros Hinfo.
    destruct (Hf id info Hinfo) as (l & Hl & Hin).
    destruct (decide _) as [_|_]; [|by exists l].
    eexists. split; [done|].
    rewrite (proj2 (Hnew _ _) l Hl). apply elem_of_app. by left.
Qed.

Lemma add_order_converse n b o :
  counts_ok n b → Z.of_nat (S n) < 2 ^ 32 →
  converse_inv b → ids_nodup b →
  (accepted o = true → OrderBook.active_orders b !! Order.order_id o = None) →
  converse_inv (snd (OrderBook.add_order b o)) ∧ ids_nodup (snd (OrderBook.add_order b o)).
Proof.
  intros Hc Hn Hv Hnd Hfresh. destruct (accepted o) eqn:Hacc;
    [|by rewrite add_order_not_accepted].
  specialize (Hfresh eq_refl).
  assert (∀ side p l, level_of b side p = Some l → Order.order_id o ∉ PriceLevel.order_ids l)
    as Hnot.
  { intros side p l Hl Hin. destruct (Hv side p l _ Hl Hin) as (info & Hinfo & _).
    congruence. }
  split.
  - intros side p l x. rewrite level_of_add, active_orders_add by done.
    destruct (decide _) as [[-> ->]|_].
    + intros [= <-] Hx.
      assert (x = Order.order_id o ∨
              ∃ l0, level_of b (Order.side o) (Order.price_scaled o) = Some l0 ∧
                    x ∈ PriceLevel.order_ids l0) as [->|(l0 & Hl0 & Hx0)].
      { unfold level_after_add in Hx.
        destruct (level_of b (Order.side o) (Order.price_scaled o)) as [l0|]; simpl in Hx.
        - destruct (PriceLevel.order_count l0 =? 0); simpl in Hx.
          + left. by apply list_elem_of_singleton in Hx.
          + apply elem_of_app in Hx as [Hx|Hx]; [right; by exists l0|].
            left. by apply list_elem_of_singleton in Hx.
        - left. by apply list_elem_of_singleton in Hx. }
      * eexists. rewrite lookup_insert_eq. done.
      * destruct (Hv _ _ l0 x Hl0 Hx0) as (info & Hinfo & ? & ?).
        exists info. rewrite lookup_insert_ne; [done|]. congruence.
    + intros Hl Hx. destruct (Hv _ _ l x Hl Hx) as (info & Hinfo & ? & ?).
      exists info. rewrite lookup_insert_ne; [done|]. congruence.
  - intros side p l. rewrite level_of_add by done.
    destruct (decide _) as [_|_]; [|apply Hnd].
    intros [= <-]. unfold level_after_add.
    destruct (level_of b side p) as [l0|] eqn:Hl0; simpl.
    + destruct (PriceLevel.order_count l0 =? 0); simpl.
      * apply NoDup_singleton.
      * apply NoDup_app. split_and!.
        -- by eapply Hnd.
        -- intros x Hx ->%list_elem_of_singleton. by eapply Hnot.
        -- apply NoDup_singleton.
    + apply NoDup_singleton.
Qed.

(** *** One Cancel *)

Lemma cancel_order_counts n b o :
  counts_ok n b → Z.of_nat n < 2 ^ 32 →
  counts_ok n (snd (OrderBook.cancel_order b o)).
Proof.
  intros Hc Hn side p l.
  destruct (OrderBook.active_orders b !! Order.order_id o) as [info|] eqn:Hinfo.
  - rewrite (level_of_cancel b o info side p Hinfo).
    destruct (decide _) as [_|_]; [|apply Hc].
    destruct (level_of b side p) as [l0|] eqn:Hl0; simpl; [|done].
    destruct (Hc side p l0 Hl0) as [Hc0 Hlen0].
    pose proof (remove_order_result n l0 (Order.order_id o) (OrderBook.size info)
                  Hc0 Hlen0 Hn) as Hr.
    destruct (PriceLevel.remove_order _ _ _) as [[] l']; [done|].
    intros [= <-]. by apply Hr.
  - rewrite cancel_order_unknown by done. apply Hc.
Qed.

Lemma cancel_order_forward n b o :
  counts_ok n b → Z.of_nat n < 2 ^ 32 → forward_inv b →
  forward_inv (snd (OrderBook.cancel_order b o)).
Proof.
  intros Hc Hn Hf.
  destruct (OrderBook.active_orders b !! Order.order_id o) as [info|] eqn:Hinfo;
    [|by rewrite cancel_order_unknown].
  intros id info'. rewrite active_orders_cancel by (by rewrite Hinfo).
  intros [Hne Hinfo']%lookup_delete_Some.
  destruct (Hf id info' Hinfo') as (l0 & Hl0 & Hin).
  rewrite (level_of_cancel b o info _ _ Hinfo).
  destruct (decide _) as [_|_]; [|by exists l0].
  rewrite Hl0. simpl.
  destruct (Hc _ _ l0 Hl0) as [Hc0 Hlen0].
  pose proof (remove_order_result n l0 (Order.order_id o) (OrderBook.size info)
                Hc0 Hlen0 Hn) as Hr.
  destruct (PriceLevel.remove_order _ _ _) as [e l'].
  destruct Hr as (_ & Hkeep & _). destruct (Hkeep id) as [-> ?]; [done..|].
  by exists l'.
Qed.

Lemma cancel_order_converse n b o :
  counts_ok n b → Z.of_nat n < 2 ^ 32 →
  converse_inv b → ids_nodup b →
  converse_inv (snd (OrderBook.cancel_order b o)) ∧
  ids_nodup (snd (OrderBook.cancel_order b o)).
Proof.
  intros Hc Hn Hv Hnd.
  destruct (OrderBook.active_orders b !! Order.order_id o) as [info|] eqn:Hinfo;
    [|by rewrite cancel_order_unknown].
  split.
  - intros side p l x. rewrite active_orders_cancel by (by rewrite Hinfo).
    rewrite (level_of_cancel b o info _ _ Hinfo).
    destruct (decide _) as [[-> ->]|Hd].
    + destruct (level_of b _ _) as [l0|] eqn:Hl0; simpl; [|done].
      destruct (Hc _ _ l0 Hl0) as [Hc0 Hlen0].
      pose proof (remove_order_result n l0 (Order.order_id o) (OrderBook.size info)
                    Hc0 Hlen0 Hn) as Hr.
      destruct (PriceLevel.remove_order _ _ _) as [[] l']; [done|].
      intros [= <-] Hx. destruct Hr as (_ & _ & Hsub & Hdup).
      destruct (Hdup (Hnd _ _ l0 Hl0)) as [_ Hgone].
      destruct (Hv _ _ l0 x Hl0 (Hsub x Hx)) as (info' & Hinfo' & ? & ?).
      exists info'. rewrite lookup_delete_ne; [done|].
      intros <-. apply Hgone; [|done]. by apply Hsub.
    + intros Hl Hx. destruct (Hv _ _ l x Hl Hx) as (info' & Hinfo' & ? & ?).
      exists info'. rewrite lookup_delete_ne; [done|].
      intros <-. apply Hd. split; congruence.
  - intros side p l. rewrite (level_of_cancel b o info _ _ Hinfo).
    destruct (decide _) as [_|_]; [|apply Hnd].
    destruct (level_of b side p) as [l0|] eqn:Hl0; simpl; [|done].
    destruct (Hc _ _ l0 Hl0) as [Hc0 Hlen0].
    pose proof (remove_order_result n l0 (Order.order_id o) (OrderBook.size info)
                  Hc0 Hlen0 Hn) as Hr.
    destruct (PriceLevel.remove_order _ _ _) as [[] l']; [done|].
    intros [= <-]. destruct Hr as (_ & _ & _ & Hdup).
    by apply Hdup, (Hnd side p l0).
Qed.

(** *** One turn of the loop *)

Lemma book_state_with_stats b b' :
  book_state b = book_state b' → b' = OrderBook.with_stats b (OrderBook.stats b').
Proof. destruct b, b'. unfold book_state. simpl. by intros [= -> -> ->]. Qed.

Lemma dispatch_book b o :
  book_state (snd (OrderBook.dispatch b o)) =
  if Ascii.eqb (Order.action o) Utils.ACTION_CLEAR then (∅, ∅, ∅)
  else if Ascii.eqb (Order.action o) Utils.ACTION_ADD
  then book_state (snd (OrderBook.add_order b o))
  else if Ascii.eqb (Order.action o) Utils.ACTION_CANCEL
  then book_state (snd (OrderBook.cancel_order b o))
  else book_state b.
Proof.
  unfold OrderBook.dispatch.
  destruct (Ascii.eqb _ Utils.ACTION_CLEAR); [done|].
  destruct (Ascii.eqb _ Utils.ACTION_ADD).
  { by destruct (OrderBook.add_order b o). }
  destruct (Ascii.eqb _ Utils.ACTION_CANCEL).
  { by destruct (OrderBook.cancel_order b o). }
  destruct (Ascii.eqb _ Utils.ACTION_TRADE).
  { pose proof (process_trade_snd b o) as H.
    destruct (OrderBook.process_trade b o) as [r b']. simpl in *. by subst. }
  by destruct (Ascii.eqb _ Utils.ACTION_FILL).
Qed.

Lemma process_order_book b o :
  book_state (snd (OrderBook.process_order b o)) =
  book_state (snd (OrderBook.dispatch b o)).
Proof.
  unfold OrderBook.process_order.
  destruct (OrderBook.dispatch b o) as [[] b1]; done.
Qed.

Lemma loop_body_book st o :
  book_state (Main.order_book (loop_state (Main.loop_body st o))) =
  if negb (Main.first_clear_ignored st) && Ascii.eqb (Order.action o) Utils.ACTION_CLEAR
  then book_state (Main.order_book st)
  else book_state (snd (OrderBook.process_order (Main.order_book st) o)).
Proof.
  unfold Main.loop_body.
  destruct (negb _ && _); [done|].
  destruct (OrderBook.process_order _ _) as [[row|] book]; [|done].
  by destruct (CsvWriter.write_mbp_row _ _) as [[] w].
Qed.

(** What one turn of the loop does to the three containers. *)
Lemma loop_body_cases st o :
  let b := Main.order_book st in
  let b' := Main.order_book (loop_state (Main.loop_body st o)) in
  book_state b' = book_state b ∨
  book_state b' = (∅, ∅, ∅) ∨
  (Order.action o = Utils.ACTION_ADD ∧
   book_state b' = book_state (snd (OrderBook.add_order b o))) ∨
  (Order.action o = Utils.ACTION_CANCEL ∧
   book_state b' = book_state (snd (OrderBook.cancel_order b o))).
Proof.
  intros b b'. subst b b'. rewrite loop_body_book.
  destruct (negb _ && _); [by left|].
  rewrite process_order_book, dispatch_book.
  destruct (Ascii.eqb _ Utils.ACTION_CLEAR); [by right; left|].
  destruct (Ascii.eqb_spec (Order.action o) Utils.ACTION_ADD); [by right; right; left|].
  destruct (Ascii.eqb_spec (Order.action o) Utils.ACTION_CANCEL); [by right; right; right|].
  by left.
Qed.

Lemma base_inv_ext n b b' : book_state b = book_state b' → base_inv n b → base_inv n b'.
Proof. intros ->%book_state_with_stats H. exact H. Qed.

Lemma strict_inv_ext b b' : book_state b = book_state b' → strict_inv b → strict_inv b'.
Proof. intros ->%book_state_with_stats H. exact H. Qed.

Lemma base_inv_mono n m b : (n ≤ m)%nat → base_inv n b → base_inv m b.
Proof.
  intros Hnm [Hc Hf]. split; [|done].
  intros side p l Hl. destruct (Hc side p l Hl). split; [done|lia].
Qed.

Lemma level_of_init side p : level_of OrderBook.init side p = None.
Proof.
  unfold level_of, side_levels. simpl.
  destruct (Ascii.eqb _ _); simpl; [by rewrite lookup_empty|].
  destruct (Ascii.eqb _ _); simpl; [by rewrite lookup_empty|done].
Qed.

Lemma base_inv_empty n b : book_state b = (∅, ∅, ∅) → base_inv n b.
Proof.
  intros H. apply (base_inv_ext n OrderBook.init); [done|]. split.
  - intros side p l. by rewrite level_of_init.
  - intros id info. simpl. by rewrite lookup_empty.
Qed.

Lemma strict_inv_empty b : book_state b = (∅, ∅, ∅) → strict_inv b.
Proof.
  intros H. apply (strict_inv_ext OrderBook.init); [done|]. split.
  - intros side p l id. by rewrite level_of_init.
  - intros side p l. by rewrite level_of_init.
Qed.

Lemma loop_body_base n st o :
  base_inv n (Main.order_book st) → Z.of_nat (S n) < 2 ^ 32 →
  base_inv (S n) (Main.order_book (loop_state (Main.loop_body st o))).
Proof.
  intros Hb Hn.
  destruct (loop_body_cases st o) as [H|[H|[[_ H]|[_ H]]]].
  - eapply base_inv_ext; [done|]. eapply base_inv_mono; [|done]. lia.
  - by apply base_inv_empty.
  - eapply base_inv_ext; [done|]. destruct Hb as [Hc Hf]. split.
    + by apply add_order_counts.
    + by eapply add_order_forward.
  - eapply base_inv_ext; [done|]. destruct Hb as [Hc Hf].
    apply (base_inv_mono n); [lia|]. split.
    + apply cancel_order_counts; [done|lia].
    + eapply cancel_order_forward; [done|lia|done].
Qed.

Lemma loop_body_strict n st o :
  base_inv n (Main.order_book st) → Z.of_nat (S n) < 2 ^ 32 →
  strict_inv (Main.order_book st) → fresh_add (Main.order_book st) o →
  strict_inv (Main.order_book (loop_state (Main.loop_body st o))).
Proof.
  intros [Hc Hf] Hn [Hv Hnd] Hfresh.
  destruct (loop_body_cases st o) as [H|[H|[[Ha H]|[_ H]]]].
  - by eapply strict_inv_ext.
  - by apply strict_inv_empty.
  - eapply strict_inv_ext; [done|]. eapply add_order_converse; eauto.
  - eapply strict_inv_ext; [done|]. eapply (cancel_order_converse n); eauto. lia.
Qed.

(** *** The whole run *)

Lemma process_orders_inv (orders : list Order.t) :
  ∀ (n : nat) (st : Main.LoopState),
    Z.of_nat (n + length orders) < 2 ^ 32 →
    base_inv n (Main.order_book st) →
    let b := Main.order_book (snd (Main.process_orders orders st)) in
    base_inv (n + length orders) b ∧
    (strict_inv (Main.order_book st) → adds_fresh orders st → strict_inv b).
Proof.
  induction orders as [|o rest IH]; intros n st Hn Hb; simpl.
  - split; [|done]. eapply base_inv_mono; [|done]. lia.
  - simpl in Hn.
    pose proof (loop_body_base n st o Hb ltac:(lia)) as Hb'.
    pose proof (loop_body_strict n st o Hb ltac:(lia)) as Hs'.
    destruct (Main.loop_body st o) as [st'|st']; simpl in *.
    + destruct (IH (S n) st' ltac:(lia) Hb') as [IH1 IH2].
      split.
      * by replace (n + S (length rest))%nat with (S n + length rest)%nat by lia.
      * intros Hs [Hfr Hrest]. auto.
    + split.
      * eapply base_inv_mono; [|done]. lia.
      * intros Hs [Hfr _]. auto.
Qed.

(** C4, as the code has it: after any sequence of fewer than 2^32 events
    run from a fresh engine, the record of every live order id names a level
    present in the map of its side whose order_ids holds the id; and when no
    Add that passes the guard of add_order carried an id that was live when
    it was applied, conversely every id held by a level is a key of the
    index recorded at that level. *)
Theorem C4_index_invariant (orders : list Order.t) :
  Z.of_nat (length orders) < 2 ^ 32 →
  let b := Main.order_book (snd (Main.process_reconstruction orders)) in
  forward_inv b ∧ (adds_fresh orders Main.initial → converse_inv b).
Proof.
  intros Hn b. subst b. unfold Main.process_reconstruction.
  destruct (process_orders_inv orders 0 Main.initial) as [[_ Hf] Hs].
  - done.
  - by apply base_inv_empty.
  - split; [done|]. intros Hfresh. apply Hs; [|done]. by apply strict_inv_empty.
Qed.

Lemma C4_witness :
  index_invariant
    (Main.order_book (snd (Main.process_reconstruction [add_1_B_100; cancel_1_B_100]))).
Proof.
  destruct (C4_index_invariant [add_1_B_100; cancel_1_B_100]) as [Hf Hv].
  - vm_compute. reflexivity.
  - split; [exact Hf|]. apply Hv. vm_compute.
    split; [intros _ _; reflexivity|].
    split; [intros E; discriminate E|exact I].
Defined.

(** C4 as stated fails on Add(1, B, 100, 10), Add(1, B, 99, 5): the level at
    100 still holds id 1 while the index records id 1 at 99. *)
Lemma C4_counterexample :
  ¬ index_invariant
      (Main.order_book (snd (Main.process_reconstruction [add_1_B_100; add_1_B_99]))).
Proof.
  intros [_ Hv].
  destruct (Hv "B"%char 100000000000 (PriceLevel.mk 100000000000 10 1 [1]) 1)
    as (info & Hinfo & _ & Hp).
  - vm_compute. reflexivity.
  - apply list_elem_of_here.
  - vm_compute in Hinfo. injection Hinfo as <-. vm_compute in Hp. discriminate Hp.
Qed.

(** * Further properties of the engine *)

(** ** Depth and rank *)

(** In a strictly sorted list the position of a key is the number of keys
    that come strictly before it. *)
Lemma sorted_position (S : relation Z) `{!RelDecision S} (ks : list Z) (p : Z) (i : nat) :
  (∀ k, ¬ S k k) → (∀ k k', S k k' → ¬ S k' k) →
  StronglySorted S ks → ks !! i = Some p →
  length (filter (λ k, S k p) ks) = i.
Proof.
  intros Hirr Hasym Hs. revert i. induction Hs as [|k ks Hs IH Hall]; intros i Hi; [done|].
  destruct i as [|i]; simpl in Hi.
  - injection Hi as ->. rewrite filter_cons_False by apply Hirr.
    rewrite filter_none; [done|].
    eapply Forall_impl; [exact Hall|]. intros x Hx. by apply Hasym.
  - rewrite filter_cons_True.
    + simpl. f_equal. by apply IH.
    + eapply Forall_forall in Hall; [exact Hall|]. by eapply list_elem_of_lookup_2.
Qed.

(** The loop returns -1 or the running depth advanced by the position of the
    price among the keys. *)
Lemma depth_loop_position (it : list (Z * PriceLevel.t)) (p d : Z) :
  0 ≤ d < 10 →
  (OrderBook.depth_loop it p d = -1 ∧ p ∉ take (Z.to_nat (10 - d)) it.*1) ∨
  (∃ i, it.*1 !! i = Some p ∧ OrderBook.depth_loop it p d = d + Z.of_nat i ∧
        d + Z.of_nat i < 10).
Proof.
  revert d. induction it as [|[k v] rest IH]; intros d Hd; simpl.
  - left. rewrite take_nil. split; [done|]. by intros ?%elem_of_nil.
  - destruct (Z.eqb_spec k p) as [->|Hne].
    + right. exists 0%nat. simpl. split; [done|]. lia.
    + unfold Utils.MAX_DEPTH. destruct (Z.geb_spec (d + 1) 10) as [Hge|Hlt].
      * left. split; [done|].
        replace (Z.to_nat (10 - d)) with 1%nat by lia. simpl.
        intros [?|?%elem_of_nil]%elem_of_cons; [congruence|done].
      * destruct (IH (d + 1)) as [[Hr Hnot]|(i & Hi & Hr & Hlt')]; [lia| |].
        -- left. split; [done|].
           replace (Z.to_nat (10 - d)) with (S (Z.to_nat (10 - (d + 1)))) by lia.
           simpl. intros [?|?]%elem_of_cons; [congruence|done].
        -- right. exists (S i). simpl. split; [done|]. lia.
Qed.

Section iteration_depth.

Context (R : relation (Z * PriceLevel.t)).
Context {R_dec : RelDecision R} {R_trans : Transitive R} {R_total : Total R}.
Context (S : relation Z) {S_dec : RelDecision S}.
Hypothesis R_keys : ∀ x y, R x y → x.1 ≠ y.1 → S x.1 y.1.
Hypothesis S_irrefl : ∀ k, ¬ S k k.
Hypothesis S_asym : ∀ k k', S k k' → ¬ S k' k.

(** The depth loop over the iteration of a map, entered at depth 0. *)
Lemma depth_loop_iteration (m : gmap Z PriceLevel.t) (p : Z) :
  let it := merge_sort R (map_to_list m) in
  (OrderBook.depth_loop it p 0 = -1 ∧ p ∉ take 10 it.*1) ∨
  (0 ≤ OrderBook.depth_loop it p 0 < 10 ∧ p ∈ take 10 it.*1 ∧ is_Some (m !! p) ∧
   OrderBook.depth_loop it p 0 =
     Z.of_nat (length (filter (λ k, S k p) (map_to_list m).*1))).
Proof using R_keys R_trans R_total S_irrefl S_asym.
  intros it.
  destruct (depth_loop_position it p 0) as [[Hr Hnot]|(i & Hi & Hr & Hlt)]; [lia|by left|].
  right. rewrite Hr.
  assert (p ∈ take 10 it.*1) as Htop.
  { apply list_elem_of_lookup. exists i. rewrite lookup_take_lt by lia. done. }
  split; [lia|]. split; [done|].
  apply (iteration_top R S R_keys S_irrefl S_asym) in Htop as [Hsome _].
  split; [done|]. rewrite Z.add_0_l. f_equal.
  assert (it.*1 ≡ₚ (map_to_list m).*1) as Hp.
  { subst it. by rewrite merge_sort_Permutation. }
  rewrite <- (Permutation_length (filter_Permutation _ _ _ Hp)).
  symmetry. eapply sorted_position; [done..| |done].
  by apply (iteration_keys_sorted R S R_keys).
Qed.

End iteration_depth.

(** X1: [get_price_depth] returns -1 when the price is not within the top 10
    levels of the side, and otherwise the rank of the price: the number of
    levels of that side with a strictly better price, a value from 0 to 9. *)
Theorem X1_depth_is_rank (b : OrderBook.t) (side : ascii) (p : Z) :
  let d := OrderBook.get_price_depth b side p in
  (d = -1 ∧ ¬ in_top10 b side p) ∨
  (0 ≤ d < 10 ∧ in_top10 b side p ∧
   ∃ m, side_levels b side = Some m ∧ is_Some (m !! p) ∧ d = Z.of_nat (rank side m p)).
Proof.
  intros d. subst d.
  unfold OrderBook.get_price_depth, in_top10, side_keys, side_levels.
  destruct (Ascii.eqb_spec side Utils.SIDE_BID) as [->|Hb]; simpl.
  - destruct (depth_loop_iteration OrderBook.key_greater (λ k k', k' < k)
                (S_dec := λ k k', decide (k' < k)))
      with (m := OrderBook.bid_levels b) (p := p)
      as [[Hr Hnot]|(Hr & Htop & Hsome & Hcount)].
    + unfold OrderBook.key_greater. intros x y. lia.
    + intros k. lia.
    + intros k k'. lia.
    + left. done.
    + right. split; [done|]. split; [done|]. eexists. split; [done|]. split; [done|].
      exact Hcount.
  - destruct (Ascii.eqb_spec side Utils.SIDE_ASK) as [->|Ha]; simpl.
    + destruct (depth_loop_iteration OrderBook.key_less (λ k k', k < k')
                  (S_dec := λ k k', decide (k < k')))
        with (m := OrderBook.ask_levels b) (p := p)
        as [[Hr Hnot]|(Hr & Htop & Hsome & Hcount)].
      * unfold OrderBook.key_less. intros x y. lia.
      * intros k. lia.
      * intros k k'. lia.
      * left. done.
      * right. split; [done|]. split; [done|]. eexists. split; [done|]. split; [done|].
        exact Hcount.
    + left. split; [done|]. by intros ?%elem_of_nil.
Qed.

(** ** Snapshot materialisation *)

Lemma clear_loop (x : MBPRow.Level) (n s : nat) (arr : list MBPRow.Level) :
  (s + n ≤ length arr)%nat →
  foldl (λ a i, <[i := x]> a) arr (seq s n) =
  take s arr ++ replicate n x ++ drop (s + n) arr.
Proof.
  revert s arr. induction n as [|n IH]; intros s arr Hlen; simpl.
  - rewrite Nat.add_0_r. by rewrite take_drop.
  - rewrite IH by (rewrite length_insert; lia).
    rewrite (take_S_r (<[s:=x]> arr) s x) by (apply list_lookup_insert_eq; lia).
    rewrite take_insert_ge by lia. rewrite drop_insert_lt by lia.
    replace (S s + n)%nat with (s + S n)%nat by lia.
    by rewrite <- app_assoc.
Qed.

Lemma fill_levels_spec (it : list (Z * PriceLevel.t)) (level : nat)
    (arr : list MBPRow.Level) :
  (level ≤ 10)%nat → length arr = 10%nat →
  OrderBook.fill_levels it (Z.of_nat level) arr =
  (Z.of_nat (level + length (take (10 - level) it)),
   take level arr ++ (OrderBook.to_level <$> (take (10 - level) it).*2) ++
   drop (level + length (take (10 - level) it)) arr).
Proof.
  revert level arr. induction it as [|[k l] rest IH]; intros level arr Hlevel Hlen; simpl.
  - rewrite take_nil. simpl. rewrite Nat.add_0_r. by rewrite take_drop.
  - unfold Utils.MAX_DEPTH. destruct (Z.geb_spec (Z.of_nat level) 10) as [Hge|Hlt].
    + replace (10 - level)%nat with 0%nat by lia. simpl.
      rewrite Nat.add_0_r. by rewrite take_drop.
    + replace (Z.of_nat level + 1) with (Z.of_nat (S level)) by lia.
      rewrite Nat2Z.id.
      rewrite IH by (rewrite ?length_insert; lia).
      replace (10 - level)%nat with (S (10 - S level)) by lia. simpl.
      f_equal; [lia|].
      rewrite (take_S_r (<[level:=OrderBook.to_level l]> arr) level (OrderBook.to_level l))
        by (apply list_lookup_insert_eq; lia).
      rewrite take_insert_ge by lia. rewrite drop_insert_lt by lia.
      rewrite <- app_assoc. simpl.
      by replace (level + S (length (take (9 - level) rest)))%nat
        with (S (level + length (take (9 - level) rest))) by lia.
Qed.

(** The two loops of [update_bid_levels] / [update_ask_levels] together:
    the first ten levels of the iteration, then zeros up to ten slots. *)
Lemma update_levels_spec (it : list (Z * PriceLevel.t)) (arr : list MBPRow.Level) :
  length arr = 10%nat →
  OrderBook.update_levels it arr =
  (OrderBook.to_level <$> (take 10 it).*2) ++
  replicate (10 - length (take 10 it)) MBPRow.Level0.
Proof.
  intros Hlen. unfold OrderBook.update_levels.
  pose proof (fill_levels_spec it 0 arr ltac:(lia) Hlen) as Hfill.
  change (Z.of_nat 0) with 0 in Hfill. simpl in Hfill. rewrite Hfill. clear Hfill.
  unfold OrderBook.clear_levels, Utils.MAX_DEPTH.
  assert (length (take 10 it) ≤ 10)%nat as Hle by (rewrite length_take; lia).
  rewrite Nat2Z.id.
  replace (Z.to_nat (10 - Z.of_nat (length (take 10 it))))
    with (10 - length (take 10 it))%nat by lia.
  set (lv := OrderBook.to_level <$> (take 10 it).*2).
  assert (length lv = length (take 10 it)) as Hlv.
  { subst lv. by rewrite !length_fmap. }
  rewrite clear_loop by (rewrite length_app, length_drop; lia).
  rewrite take_app_length' by done.
  rewrite drop_ge by (rewrite length_app, length_drop; lia).
  by rewrite app_nil_r.
Qed.

Lemma update_levels_lookup (it : list (Z * PriceLevel.t)) (arr : list MBPRow.Level)
    (i : nat) :
  length arr = 10%nat → (i < 10)%nat →
  OrderBook.update_levels it arr !! i =
  Some (match it !! i with
        | Some (_, l) => OrderBook.to_level l
        | None => MBPRow.Level0
        end).
Proof.
  intros Hlen Hi. rewrite update_levels_spec by done.
  assert (length (take 10 it) ≤ 10)%nat as Hle by (rewrite length_take; lia).
  destruct (it !! i) as [[k l]|] eqn:E.
  - rewrite lookup_app_l.
    + rewrite !list_lookup_fmap, lookup_take_lt by done. by rewrite E.
    + rewrite !length_fmap, length_take. apply lookup_lt_Some in E. lia.
  - apply lookup_ge_None in E.
    rewrite lookup_app_r; rewrite !length_fmap, length_take.
    + apply lookup_replicate. split; [done|]. lia.
    + lia.
Qed.

Lemma update_levels_length (it : list (Z * PriceLevel.t)) (arr : list MBPRow.Level) :
  length arr = 10%nat → length (OrderBook.update_levels it arr) = 10%nat.
Proof.
  intros Hlen. rewrite update_levels_spec by done.
  rewrite length_app, !length_fmap, length_replicate, length_take. lia.
Qed.

Section iteration_rank.

Context (R : relation (Z * PriceLevel.t)).
Context {R_dec : RelDecision R} {R_trans : Transitive R} {R_total : Total R}.
Context (S : relation Z) {S_dec : RelDecision S}.
Hypothesis R_keys : ∀ x y, R x y → x.1 ≠ y.1 → S x.1 y.1.
Hypothesis S_irrefl : ∀ k, ¬ S k k.
Hypothesis S_asym : ∀ k k', S k k' → ¬ S k' k.

(** A binding of the map sits in the iteration at the position given by
    the number of keys strictly before its own. *)
Lemma iteration_lookup (m : gmap Z PriceLevel.t) (k : Z) (l : PriceLevel.t) :
  m !! k = Some l →
  merge_sort R (map_to_list m) !! length (filter (λ k', S k' k) (map_to_list m).*1)
  = Some (k, l).
Proof using R_keys R_trans R_total S_irrefl S_asym.
  intros Hl. apply (iteration_elem R) in Hl.
  apply list_elem_of_lookup in Hl as [i Hi].
  assert ((merge_sort R (map_to_list m)).*1 !! i = Some k) as Hk.
  { by rewrite list_lookup_fmap, Hi. }
  assert ((merge_sort R (map_to_list m)).*1 ≡ₚ (map_to_list m).*1) as Hp.
  { by rewrite merge_sort_Permutation. }
  rewrite <- (Permutation_length (filter_Permutation _ _ _ Hp)).
  rewrite (sorted_position S _ k i S_irrefl S_asym); [done| |done].
  by apply (iteration_keys_sorted R S R_keys).
Qed.

Lemma iteration_length (m : gmap Z PriceLevel.t) :
  length (merge_sort R (map_to_list m)) = size m.
Proof using Type. rewrite merge_sort_Permutation. apply length_map_to_list. Qed.

End iteration_rank.

Lemma bid_iteration_lookup (b : OrderBook.t) (k : Z) (l : PriceLevel.t) :
  OrderBook.bid_levels b !! k = Some l →
  OrderBook.bid_iteration b !! rank Utils.SIDE_BID (OrderBook.bid_levels b) k = Some (k, l).
Proof.
  intros Hl.
  assert (∀ x y, OrderBook.key_greater x y → x.1 ≠ y.1 → y.1 < x.1) as HR.
  { unfold OrderBook.key_greater. intros x y. lia. }
  exact (iteration_lookup OrderBook.key_greater (λ k k', k' < k)
           (S_dec := λ k k', decide (k' < k)) HR
           ltac:(cbv beta; intros; lia) ltac:(cbv beta; intros; lia) _ k l Hl).
Qed.

Lemma ask_iteration_lookup (b : OrderBook.t) (k : Z) (l : PriceLevel.t) :
  OrderBook.ask_levels b !! k = Some l →
  OrderBook.ask_iteration b !! rank Utils.SIDE_ASK (OrderBook.ask_levels b) k = Some (k, l).
Proof.
  intros Hl.
  assert (∀ x y, OrderBook.key_less x y → x.1 ≠ y.1 → x.1 < y.1) as HR.
  { unfold OrderBook.key_less. intros x y. lia. }
  exact (iteration_lookup OrderBook.key_less (λ k k', k < k')
           (S_dec := λ k k', decide (k < k')) HR
           ltac:(cbv beta; intros; lia) ltac:(cbv beta; intros; lia) _ k l Hl).
Qed.

Lemma snapshot_bid_levels (b : OrderBook.t) (o : Order.t) :
  MBPRow.bid_levels (OrderBook.generate_mbp_snapshot b o) =
  OrderBook.update_levels (OrderBook.bid_iteration b) (replicate 10 MBPRow.Level0).
Proof. reflexivity. Qed.

Lemma snapshot_ask_levels (b : OrderBook.t) (o : Order.t) :
  MBPRow.ask_levels (OrderBook.generate_mbp_snapshot b o) =
  OrderBook.update_levels (OrderBook.ask_iteration b) (replicate 10 MBPRow.Level0).
Proof. reflexivity. Qed.

(** X2: a generated snapshot has exactly ten bid and ten ask slots; the
    level stored at a price of rank i < 10 on a side fills slot i of that side
    with its (price, total size, order count); the slots from the number of
    levels of the side upwards are zero. *)
Theorem X2_snapshot_levels (b : OrderBook.t) (o : Order.t) :
  let row := OrderBook.generate_mbp_snapshot b o in
  (length (MBPRow.bid_levels row) = 10%nat ∧ length (MBPRow.ask_levels row) = 10%nat) ∧
  (∀ side m k l,
     side_levels b side = Some m → m !! k = Some l → (rank side m k < 10)%nat →
     snapshot_side row side !! rank side m k =
       Some (MBPRow.mkLevel (PriceLevel.get_price l) (PriceLevel.total_size l)
                            (PriceLevel.order_count l))) ∧
  (∀ side m i,
     side_levels b side = Some m → (size m ≤ i < 10)%nat →
     snapshot_side row side !! i = Some MBPRow.Level0).
Proof.
  intros row. subst row.
  assert (length (replicate 10 MBPRow.Level0) = 10%nat) as Hten by apply length_replicate.
  split.
  { rewrite snapshot_bid_levels, snapshot_ask_levels.
    split; by apply update_levels_length. }
  unfold side_levels, snapshot_side. split.
  - intros side m k l Hm Hl Hrank.
    destruct (Ascii.eqb_spec side Utils.SIDE_BID) as [->|Hb].
    + injection Hm as <-.
      rewrite snapshot_bid_levels, update_levels_lookup by done.
      by rewrite (bid_iteration_lookup b k l Hl).
    + destruct (Ascii.eqb_spec side Utils.SIDE_ASK) as [->|Ha]; [|done].
      injection Hm as <-.
      rewrite snapshot_ask_levels, update_levels_lookup by done.
      by rewrite (ask_iteration_lookup b k l Hl).
  - intros side m i Hm [Hsize Hi].
    destruct (Ascii.eqb_spec side Utils.SIDE_BID) as [->|Hb].
    + injection Hm as <-.
      rewrite snapshot_bid_levels, update_levels_lookup by done.
      rewrite (proj2 (lookup_ge_None _ _)); [done|].
      unfold OrderBook.bid_iteration. by rewrite iteration_length.
    + destruct (Ascii.eqb_spec side Utils.SIDE_ASK) as [->|Ha]; [|done].
      injection Hm as <-.
      rewrite snapshot_ask_levels, update_levels_lookup by done.
      rewrite (proj2 (lookup_ge_None _ _)); [done|].
      unfold OrderBook.ask_iteration. by rewrite iteration_length.
Qed.

Lemma X2_witness :
  snapshot_side (OrderBook.generate_mbp_snapshot book_2_B_100 add_2_B_100) Utils.SIDE_BID
    !! rank Utils.SIDE_BID (OrderBook.bid_levels book_2_B_100) 100000000000
  = Some (MBPRow.mkLevel (to_double 100) 5 1) ∧
  snapshot_side (OrderBook.generate_mbp_snapshot book_2_B_100 add_2_B_100) Utils.SIDE_ASK
    !! 3%nat = Some MBPRow.Level0.
Proof.
  destruct (X2_snapshot_levels book_2_B_100 add_2_B_100) as (_ & Hslot & Hzero).
  split.
  - apply (Hslot Utils.SIDE_BID (OrderBook.bid_levels book_2_B_100) 100000000000
                 (PriceLevel.mk 100000000000 5 1 [2])).
    + reflexivity.
    + reflexivity.
    + vm_compute. lia.
  - apply (Hzero Utils.SIDE_ASK (OrderBook.ask_levels book_2_B_100) 3%nat).
    + reflexivity.
    + vm_compute. lia.
Defined.

(** ** Invariants of the book along a run *)

(** A property of the three containers that holds of the empty book and that
    Add and Cancel keep holds after every run of the loop. *)
Lemma process_orders_preserves (P : OrderBook.t → Prop) (Q : Order.t → Prop) :
  (∀ b b', book_state b = book_state b' → P b → P b') →
  P OrderBook.init →
  (∀ b o, Q o → P b → P (snd (OrderBook.add_order b o))) →
  (∀ b o, P b → P (snd (OrderBook.cancel_order b o))) →
  ∀ orders st, Forall Q orders → P (Main.order_book st) →
    P (Main.order_book (snd (Main.process_orders orders st))).
Proof.
  intros Hext Hinit Hadd Hcancel orders.
  induction orders as [|o rest IH]; intros st HQ HP; simpl; [done|].
  apply Forall_cons in HQ as [Ho HQ].
  assert (P (Main.order_book (loop_state (Main.loop_body st o)))) as HP'.
  { destruct (loop_body_cases st o) as [H|[H|[[_ H]|[_ H]]]].
    - by eapply Hext.
    - eapply (Hext OrderBook.init); [by rewrite H|done].
    - eapply Hext; [done|]. by apply Hadd.
    - eapply Hext; [done|]. by apply Hcancel. }
  destruct (Main.loop_body st o) as [st'|st']; simpl in *; [by apply IH|done].
Qed.

Lemma keys_ok_add b o : keys_ok b → keys_ok (snd (OrderBook.add_order b o)).
Proof.
  intros Hk. destruct (accepted o) eqn:Hacc; [|by rewrite add_order_not_accepted].
  intros side p l. rewrite level_of_add by done.
  destruct (decide _) as [[-> ->]|_]; [|apply Hk].
  intros [= <-]. unfold level_after_add.
  destruct (level_of b _ _) as [l0|] eqn:Hl0; simpl.
  - destruct (PriceLevel.order_count l0 =? 0); simpl; [done|]. by eapply Hk.
  - done.
Qed.

Lemma keys_ok_cancel b o : keys_ok b → keys_ok (snd (OrderBook.cancel_order b o)).
Proof.
  intros Hk.
  destruct (OrderBook.active_orders b !! Order.order_id o) as [info|] eqn:Hinfo;
    [|by rewrite cancel_order_unknown].
  intros side p l. rewrite (level_of_cancel b o info _ _ Hinfo).
  destruct (decide _) as [_|_]; [|apply Hk].
  destruct (level_of b side p) as [l0|] eqn:Hl0; simpl; [|done].
  unfold PriceLevel.remove_order.
  destruct (list_find _ _) as [[i x]|].
  - destruct (_ =? 0); [done|]. intros [= <-]. simpl. by eapply Hk.
  - intros [= <-]. by eapply Hk.
Qed.

(** X3: after any run from a fresh engine every level stored in the bid or
    ask map carries the key it is stored under in its [price_scaled] field, so
    the price a snapshot shows for a level is the price of its map key. *)
Theorem X3_level_key (orders : list Order.t) :
  keys_ok (Main.order_book (snd (Main.process_reconstruction orders))).
Proof.
  apply (process_orders_preserves keys_ok (λ _, True)).
  - intros b b' ->%book_state_with_stats H. exact H.
  - intros side p l. by rewrite level_of_init.
  - intros b o _. apply keys_ok_add.
  - apply keys_ok_cancel.
  - by apply Forall_true.
  - intros side p l. by rewrite level_of_init.
Qed.

(** X4: after any run of fewer than 2^32 events from a fresh engine no
    stored level is empty: its order count equals the number of ids it holds
    and is at least 1. *)
Theorem X4_no_empty_level (orders : list Order.t) (side : ascii) (p : Z)
    (l : PriceLevel.t) :
  Z.of_nat (length orders) < 2 ^ 32 →
  level_of (Main.order_book (snd (Main.process_reconstruction orders))) side p = Some l →
  PriceLevel.order_count l = Z.of_nat (length (PriceLevel.order_ids l)) ∧
  1 ≤ PriceLevel.order_count l.
Proof.
  intros Hn Hl. unfold Main.process_reconstruction in Hl.
  destruct (process_orders_inv orders 0 Main.initial) as [[Hc _] _].
  - done.
  - by apply base_inv_empty.
  - destruct (Hc side p l Hl) as [Hcount Hlen]. split; [done|]. lia.
Qed.

Lemma X4_witness :
  PriceLevel.order_count (PriceLevel.mk 100000000000 15 2 [1; 2]) = 2 ∧
  1 ≤ PriceLevel.order_count (PriceLevel.mk 100000000000 15 2 [1; 2]).
Proof.
  apply (X4_no_empty_level [add_1_B_100; add_2_B_100] Utils.SIDE_BID 100000000000).
  - vm_compute. reflexivity.
  - vm_compute. reflexivity.
Defined.

(** X5: after a run of fewer than 2^32 events in which no accepted Add
    re-used a live id, an order id resides in at most one level of the whole
    book (never on both sides, never at two prices) and at most once in it. *)
Theorem X5_single_residence (orders : list Order.t) :
  Z.of_nat (length orders) < 2 ^ 32 →
  adds_fresh orders Main.initial →
  let b := Main.order_book (snd (Main.process_reconstruction orders)) in
  (∀ side1 p1 l1 side2 p2 l2 id,
     level_of b side1 p1 = Some l1 → id ∈ PriceLevel.order_ids l1 →
     level_of b side2 p2 = Some l2 → id ∈ PriceLevel.order_ids l2 →
     side1 = side2 ∧ p1 = p2) ∧
  (∀ side p l, level_of b side p = Some l → NoDup (PriceLevel.order_ids l)).
Proof.
  intros Hn Hfresh b. subst b. unfold Main.process_reconstruction.
  destruct (process_orders_inv orders 0 Main.initial) as [_ Hs].
  - done.
  - by apply base_inv_empty.
  - destruct Hs as [Hv Hnd]; [by apply strict_inv_empty|done|].
    split; [|exact Hnd].
    intros side1 p1 l1 side2 p2 l2 id Hl1 Hin1 Hl2 Hin2.
    destruct (Hv _ _ _ _ Hl1 Hin1) as (info1 & Hi1 & <- & <-).
    destruct (Hv _ _ _ _ Hl2 Hin2) as (info2 & Hi2 & <- & <-).
    rewrite Hi1 in Hi2. by injection Hi2 as ->.
Qed.

Lemma X5_witness :
  (∀ side1 p1 l1 side2 p2 l2 id,
     level_of (Main.order_book
                 (snd (Main.process_reconstruction [add_1_B_100; add_2_B_100])))
              side1 p1 = Some l1 →
     id ∈ PriceLevel.order_ids l1 →
     level_of (Main.order_book
                 (snd (Main.process_reconstruction [add_1_B_100; add_2_B_100])))
              side2 p2 = Some l2 →
     id ∈ PriceLevel.order_ids l2 →
     side1 = side2 ∧ p1 = p2) ∧
  (∀ side p l,
     level_of (Main.order_book
                 (snd (Main.process_reconstruction [add_1_B_100; add_2_B_100])))
              side p = Some l →
     NoDup (PriceLevel.order_ids l)).
Proof.
  apply (X5_single_residence [add_1_B_100; add_2_B_100]).
  - vm_compute. reflexivity.
  - vm_compute. split; [intros _ _; reflexivity|].
    split; [intros _ _; reflexivity|exact I].
Defined.

(** ** The rows a run writes *)

Lemma process_order_row b o row :
  fst (OrderBook.process_order b o) = Some row →
  row = OrderBook.generate_mbp_snapshot
          (OrderBook.with_stats (snd (OrderBook.dispatch b o))
             (OrderBook.count_order (OrderBook.stats (snd (OrderBook.dispatch b o))))) o ∧
  fst (OrderBook.dispatch b o) = true.
Proof.
  unfold OrderBook.process_order.
  destruct (OrderBook.dispatch b o) as [[] b1]; simpl; [|done].
  by intros [= <-].
Qed.

Lemma dispatch_true_action b o :
  fst (OrderBook.dispatch b o) = true →
  Order.action o = Utils.ACTION_ADD ∨ Order.action o = Utils.ACTION_CANCEL ∨
  Order.action o = Utils.ACTION_TRADE.
Proof.
  unfold OrderBook.dispatch.
  destruct (Ascii.eqb _ Utils.ACTION_CLEAR); [done|].
  destruct (Ascii.eqb_spec (Order.action o) Utils.ACTION_ADD); [by left|].
  destruct (Ascii.eqb_spec (Order.action o) Utils.ACTION_CANCEL); [by right; left|].
  destruct (Ascii.eqb_spec (Order.action o) Utils.ACTION_TRADE); [by right; right|].
  by destruct (Ascii.eqb _ Utils.ACTION_FILL).
Qed.

(** The three outcomes of one turn of the loop: no row; a row that passes
    the writer's validation and is written under the running index; a row
    that fails it, on which the function returns 1. *)
Lemma loop_body_outcome st o :
  let w := Main.csv_writer st in
  (∃ st', Main.loop_body st o = inl st' ∧
     Main.csv_writer st' = w ∧ Main.mbp_updates st' = Main.mbp_updates st ∧
     Main.processed_orders st' = wrap64 (Main.processed_orders st + 1)) ∨
  (∃ st' row, Main.loop_body st o = inl st' ∧
     fst (OrderBook.process_order (Main.order_book st) o) = Some row ∧
     CsvWriter.validate_mbp_row row = true ∧
     Main.csv_writer st' =
       CsvWriter.mk (wrap64 (CsvWriter.row_index w + 1))
                    (CsvWriter.written w ++ [(CsvWriter.row_index w, row)])
                    (CsvWriter.success w) ∧
     Main.mbp_updates st' = wrap64 (Main.mbp_updates st + 1) ∧
     Main.processed_orders st' = wrap64 (Main.processed_orders st + 1)) ∨
  (∃ st' row, Main.loop_body st o = inr st' ∧
     Main.first_clear_ignored st || negb (Ascii.eqb (Order.action o) Utils.ACTION_CLEAR)
       = true ∧
     fst (OrderBook.process_order (Main.order_book st) o) = Some row ∧
     CsvWriter.validate_mbp_row row = false ∧
     Main.csv_writer st' =
       CsvWriter.mk (CsvWriter.row_index w) (CsvWriter.written w) false ∧
     Main.mbp_updates st' = Main.mbp_updates st).
Proof.
  intros w. subst w. unfold Main.loop_body.
  destruct (negb (Main.first_clear_ignored st) && _) eqn:Hclear.
  { left. eexists. by split_and!. }
  destruct (OrderBook.process_order _ _) as [[row|] book]; simpl.
  - unfold CsvWriter.write_mbp_row.
    destruct (CsvWriter.validate_mbp_row row) eqn:Hv; simpl.
    + right. left. eexists _, row. by split_and!.
    + right. right. eexists _, row. split_and!; try done.
      destruct (Main.first_clear_ignored st); [done|]. simpl in *. by rewrite Hclear.
  - left. eexists. by split_and!.
Qed.

Lemma row_meta_snapshot b o :
  row_meta (OrderBook.generate_mbp_snapshot b o) = order_meta o.
Proof. reflexivity. Qed.

(** The rows a run appends to the writer. *)
Lemma process_orders_rows (orders : list Order.t) (st : Main.LoopState) :
  ∃ new,
    CsvWriter.written (Main.csv_writer (snd (Main.process_orders orders st))) =
      CsvWriter.written (Main.csv_writer st) ++ new ∧
    row_meta <$> new.*2 `sublist_of` order_meta <$> orders ∧
    Forall (λ r, MBPRow.rtype r = 10 ∧ MBPRow.publisher_id r = 2 ∧
                 MBPRow.instrument_id r = 1108 ∧
                 CsvWriter.validate_mbp_row r = true ∧
                 (MBPRow.action r = Utils.ACTION_ADD ∨
                  MBPRow.action r = Utils.ACTION_CANCEL ∨
                  MBPRow.action r = Utils.ACTION_TRADE)) new.*2.
Proof.
  revert st. induction orders as [|o rest IH]; intros st; simpl.
  - exists []. rewrite app_nil_r. by split_and!.
  - destruct (loop_body_outcome st o)
      as [(st' & -> & Hw & _)
         |[(st' & row & -> & Hrow & Hval & Hw & _)
          |(st' & row & -> & _ & Hrow & Hval & Hw & _)]]; simpl.
    + destruct (IH st') as (new & H1 & H2 & H3).
      exists new. rewrite Hw in H1. split_and!; [done|by apply sublist_cons|done].
    + destruct (IH st') as (new & H1 & H2 & H3).
      apply process_order_row in Hrow as [Hrow Hdisp].
      exists ((CsvWriter.row_index (Main.csv_writer st), row) :: new).
      rewrite Hw in H1. simpl in H1. split_and!.
      * rewrite H1. by rewrite <- app_assoc.
      * rewrite !fmap_cons. cbn [snd].
        replace (row_meta row) with (order_meta o)
          by (rewrite Hrow; symmetry; apply row_meta_snapshot).
        by apply sublist_skip.
      * rewrite fmap_cons. cbn [snd]. apply Forall_cons. split; [|done].
        split_and!; [by rewrite Hrow..|done|].
        rewrite Hrow. simpl. exact (dispatch_true_action _ _ Hdisp).
    + exists []. rewrite app_nil_r, Hw. simpl. split_and!; [done|apply sublist_nil_l|done].
Qed.

(** The counters of a run: row indices, [row_index], [mbp_updates] and
    [processed_orders], as long as none of them can wrap. *)
Lemma process_orders_counters (orders : list Order.t) :
  ∀ (k : nat) (st : Main.LoopState),
    Z.of_nat (k + length orders) < 2 ^ 64 →
    let n := length (CsvWriter.written (Main.csv_writer st)) in
    (CsvWriter.written (Main.csv_writer st)).*1 = Z.of_nat <$> seq 0 n →
    CsvWriter.row_index (Main.csv_writer st) = Z.of_nat n →
    Main.mbp_updates st = Z.of_nat n →
    Main.processed_orders st = Z.of_nat k → (n ≤ k)%nat →
    let r := Main.process_orders orders st in
    let n' := length (CsvWriter.written (Main.csv_writer (snd r))) in
    (CsvWriter.written (Main.csv_writer (snd r))).*1 = Z.of_nat <$> seq 0 n' ∧
    CsvWriter.row_index (Main.csv_writer (snd r)) = Z.of_nat n' ∧
    Main.mbp_updates (snd r) = Z.of_nat n' ∧
    (n' ≤ k + length orders)%nat ∧
    (fst r = 0 → Main.processed_orders (snd r) = Z.of_nat (k + length orders)).
Proof.
  induction orders as [|o rest IH]; intros k st Hk n Hseq Hidx Hupd Hproc Hnk; simpl.
  - rewrite Nat.add_0_r. split_and!; [done|done|done|lia|done].
  - simpl in Hk.
    destruct (loop_body_outcome st o)
      as [(st' & -> & Hw & Hmu & Hp)
         |[(st' & row & -> & Hrow & Hval & Hw & Hmu & Hp)
          |(st' & row & -> & _ & Hrow & Hval & Hw & Hmu)]]; simpl.
    + destruct (IH (S k) st') as (H1 & H2 & H3 & H4 & H5).
      * lia.
      * by rewrite Hw.
      * by rewrite Hw.
      * by rewrite Hmu, Hw.
      * rewrite Hp, Hproc. unfold wrap64. rewrite Z.mod_small by lia. lia.
      * rewrite Hw. fold n. lia.
      * split_and!; [done|done|done|lia|].
        intros Hc. rewrite (H5 Hc). f_equal. lia.
    + assert (length (CsvWriter.written (Main.csv_writer st')) = S n) as Hlen.
      { rewrite Hw. simpl. rewrite length_app. simpl. fold n. lia. }
      destruct (IH (S k) st') as (H1 & H2 & H3 & H4 & H5).
      * lia.
      * rewrite Hlen, Hw. cbn [CsvWriter.written].
        rewrite fmap_app, Hseq, seq_S, fmap_app. fold n. simpl. by rewrite Hidx.
      * rewrite Hlen, Hw. simpl. rewrite Hidx. fold n. unfold wrap64.
        rewrite Z.mod_small by lia. lia.
      * rewrite Hlen, Hmu, Hupd. fold n. unfold wrap64.
        rewrite Z.mod_small by lia. lia.
      * rewrite Hp, Hproc. unfold wrap64. rewrite Z.mod_small by lia. lia.
      * rewrite Hlen. lia.
      * split_and!; [done|done|done|lia|].
        intros Hc. rewrite (H5 Hc). f_equal. lia.
    + rewrite Hw. simpl. fold n.
      split_and!; [done|done|by rewrite Hmu|lia|done].
Qed.

(** X6: in a run of fewer than 2^64 events the rows written carry the
    indices 0, 1, 2, ... without gap, [row_index] and [mbp_updates] both equal
    the number of rows written, there are never more rows than events, and a
    run that returns 0 has counted every event in [processed_orders]. *)
Theorem X6_row_indices (orders : list Order.t) :
  Z.of_nat (length orders) < 2 ^ 64 →
  let r := Main.process_reconstruction orders in
  let w := Main.csv_writer (snd r) in
  let n := length (CsvWriter.written w) in
  (CsvWriter.written w).*1 = Z.of_nat <$> seq 0 n ∧
  CsvWriter.row_index w = Z.of_nat n ∧
  Main.mbp_updates (snd r) = Z.of_nat n ∧
  (n ≤ length orders)%nat ∧
  (fst r = 0 → Main.processed_orders (snd r) = Z.of_nat (length orders)).
Proof.
  intros Hn. apply (process_orders_counters orders 0 Main.initial); try done.
Qed.

Lemma X6_witness :
  (CsvWriter.written
     (Main.csv_writer (snd (Main.process_reconstruction
                              [add_1_B_100; add_2_B_100; cancel_1_B_100])))).*1
  = [0; 1; 2].
Proof.
  destruct (X6_row_indices [add_1_B_100; add_2_B_100; cancel_1_B_100]) as [Hidx _].
  - vm_compute. reflexivity.
  - exact Hidx.
Defined.

(** X7: the rows a run writes follow the events that triggered them: their
    copied fields (time stamps, action, side, size, flags, ts_in_delta,
    sequence, symbol, order id) form a subsequence of those of the input
    events, in input order; every row carries rtype 10, publisher_id 2 and
    instrument_id 1108, has passed the writer's validation, and stems from an
    Add, Cancel or Trade event. *)
Theorem X7_rows_follow_events (orders : list Order.t) :
  let rows := (CsvWriter.written
                 (Main.csv_writer (snd (Main.process_reconstruction orders)))).*2 in
  row_meta <$> rows `sublist_of` order_meta <$> orders ∧
  Forall (λ r, MBPRow.rtype r = 10 ∧ MBPRow.publisher_id r = 2 ∧
               MBPRow.instrument_id r = 1108 ∧
               CsvWriter.validate_mbp_row r = true ∧
               (MBPRow.action r = Utils.ACTION_ADD ∨
                MBPRow.action r = Utils.ACTION_CANCEL ∨
                MBPRow.action r = Utils.ACTION_TRADE)) rows.
Proof.
  intros rows. subst rows. unfold Main.process_reconstruction.
  destruct (process_orders_rows orders Main.initial) as (new & H1 & H2 & H3).
  rewrite H1. simpl. done.
Qed.

(** ** Row validation *)

















(** ** Input the parser has validated *)

Lemma validate_order_action (o : Order.t) :
  CsvReader.validate_order o = true →
  (Order.action o = Utils.ACTION_ADD →
   meta_valid o = true ∧ (accepted o = true ↔ Order.side o ≠ Utils.SIDE_NEUTRAL)) ∧
  (Order.action o = Utils.ACTION_CANCEL ∨ Order.action o = Utils.ACTION_TRADE →
   Order.symbol o ≠ EmptyString → meta_valid o = true).
Proof.
  unfold CsvReader.validate_order, meta_valid, accepted, Order.is_valid,
    CsvReader.empty, CsvWriter.empty, Utils.ACTION_ADD, Utils.ACTION_CLEAR,
    Utils.ACTION_CANCEL, Utils.ACTION_TRADE.
  intros Hv. split.
  - intros Ha. rewrite Ha in *. simpl in *.
    destruct (Order.side o) as [[] [] [] [] [] [] [] []]; simpl in *; try discriminate Hv;
      destruct (Order.ts_recv o); simpl in *; try discriminate Hv;
      destruct (Order.ts_event o); simpl in *; try discriminate Hv;
      destruct (Order.order_id o =? 0); simpl in *; try discriminate Hv;
      destruct (Order.symbol o); simpl in *; try discriminate Hv;
      destruct (Order.price_scaled o =? 0); simpl in *; try discriminate Hv;
      destruct (Order.size o =? 0); simpl in *; try discriminate Hv;
      (split; [done|]); split; done.
  - intros Ha Hsym. destruct (Order.symbol o); [done|].
    destruct Ha as [Ha|Ha]; rewrite Ha in *; simpl in *;
      destruct (Order.side o) as [[] [] [] [] [] [] [] []]; simpl in *; try discriminate Hv;
      destruct (Order.ts_recv o); simpl in *; try discriminate Hv;
      destruct (Order.ts_event o); simpl in *; try discriminate Hv; done.
Qed.





(** X10: an Add event that has passed [CsvReader::validate_order] has a
    non-zero price and size; [add_order] then records it in the order-id
    index under its own side, price and size unless its side is 'N', which
    the parser lets through and [add_order] drops without changing the book. *)
Theorem X10_validated_add (b : OrderBook.t) (o : Order.t) :
  CsvReader.validate_order o = true → Order.action o = Utils.ACTION_ADD →
  Order.price_scaled o ≠ 0 ∧ Order.size o ≠ 0 ∧
  (Order.side o ≠ Utils.SIDE_NEUTRAL →
   OrderBook.active_orders (snd (OrderBook.add_order b o)) !! Order.order_id o =
     Some (OrderBook.mkOrderInfo (Order.side o) (Order.price_scaled o) (Order.size o))) ∧
  (Order.side o = Utils.SIDE_NEUTRAL → OrderBook.add_order b o = (false, b)).
Proof.
  intros Hv Ha. destruct (validate_order_action o Hv) as [Hadd _].
  destruct (Hadd Ha) as [_ Hacc].
  assert (Order.price_scaled o ≠ 0 ∧ Order.size o ≠ 0) as [Hp Hs].
  { revert Hv. unfold CsvReader.validate_order. rewrite Ha. simpl.
    destruct (negb _ && _ && _); [done|].
    destruct (_ || _); [done|]. destruct (_ =? 0) eqn:E0; [done|].
    destruct (CsvReader.empty _); [done|].
    destruct (Z.eqb_spec (Order.price_scaled o) 0); [done|].
    destruct (Z.eqb_spec (Order.size o) 0); [done|]. done. }
  split_and!; [done|done| |].
  - intros Hside. rewrite active_orders_add by (by apply Hacc).
    apply lookup_insert_eq.
  - intros Hside. apply add_order_not_accepted.
    destruct (accepted o) eqn:E; [|done]. by destruct (proj1 Hacc eq_refl).
Qed.

Lemma X10_witness :
  OrderBook.add_order book_1_B_100 add_3_N_100 = (false, book_1_B_100) ∧
  OrderBook.active_orders (snd (OrderBook.add_order book_1_B_100 add_2_B_100)) !! 2 =
    Some (OrderBook.mkOrderInfo "B" 100000000000 5).
Proof.
  split.
  - apply (X10_validated_add book_1_B_100 add_3_N_100); reflexivity.
  - apply (X10_validated_add book_1_B_100 add_2_B_100); [reflexivity..|discriminate].
Defined.

(** ** Clear events after the first *)

Lemma loop_body_sets_flag (st st' : Main.LoopState) (o : Order.t) :
  Main.loop_body st o = inl st' →
  Main.first_clear_ignored st = true ∨ Order.action o = Utils.ACTION_CLEAR →
  Main.first_clear_ignored st' = true.
Proof.
  unfold Main.loop_body. intros H Hor.
  destruct (Main.first_clear_ignored st) eqn:Hf; simpl in H.
  - destruct (OrderBook.process_order _ _) as [[row|] b'].
    + destruct (CsvWriter.write_mbp_row _ _) as [[] w]; [|done].
      by injection H as <-.
    + by injection H as <-.
  - destruct Hor as [|Ha]; [done|]. rewrite Ha in H. simpl in H. by injection H as <-.
Qed.

Lemma process_orders_sets_flag (orders : list Order.t) :
  ∀ st, fst (Main.process_orders orders st) = 0 →
    Main.first_clear_ignored st = true ∨
    Exists (λ o, Order.action o = Utils.ACTION_CLEAR) orders →
    Main.first_clear_ignored (snd (Main.process_orders orders st)) = true.
Proof.
  induction orders as [|o rest IH]; intros st Hc Hor; simpl in *.
  - destruct Hor as [|Hex]; [done|]. by apply Exists_nil in Hex.
  - destruct (Main.loop_body st o) as [st'|st'] eqn:Hb; [|done].
    apply IH; [done|].
    destruct Hor as [Hf|Hex].
    + left. apply (loop_body_sets_flag st st' o Hb). by left.
    + apply Exists_cons in Hex as [Ha|Hex]; [|by right].
      left. apply (loop_body_sets_flag st st' o Hb). by right.
Qed.

(** X11: a Clear event that is not the first Clear of the input empties the
    three containers of the book and resets its statistics (the event itself
    is then counted), writes no row, and lets the run continue. *)
Theorem X11_later_clear (pre : list Order.t) (ev : Order.t) :
  fst (Main.process_reconstruction pre) = 0 →
  Exists (λ o, Order.action o = Utils.ACTION_CLEAR) pre →
  Order.action ev = Utils.ACTION_CLEAR →
  let st := snd (Main.process_reconstruction pre) in
  let r := Main.process_reconstruction (pre ++ [ev]) in
  fst r = 0 ∧
  book_state (Main.order_book (snd r)) = (∅, ∅, ∅) ∧
  OrderBook.stats (Main.order_book (snd r)) = OrderBook.count_order Utils.reset ∧
  Main.csv_writer (snd r) = Main.csv_writer st ∧
  Main.mbp_updates (snd r) = Main.mbp_updates st.
Proof.
  intros Hc Hex Ha st r. subst st r. unfold Main.process_reconstruction in *.
  pose proof (process_orders_sets_flag pre Main.initial Hc (or_intror Hex)) as Hf.
  rewrite process_orders_app.
  destruct (Main.process_orders pre Main.initial) as [code st]. simpl in *. subst code.
  simpl. unfold Main.loop_body. rewrite Hf. simpl.
  unfold OrderBook.process_order, OrderBook.dispatch. rewrite Ha. simpl. done.
Qed.

Lemma X11_witness :
  book_state (Main.order_book
    (snd (Main.process_reconstruction [clear_N; add_1_B_100; clear_N]))) = (∅, ∅, ∅).
Proof.
  apply (X11_later_clear [clear_N; add_1_B_100] clear_N).
  - vm_compute. reflexivity.
  - apply Exists_cons_hd. reflexivity.
  - reflexivity.
Defined.

(** ** Events the book has no case for *)












(** ** Writing a batch of rows *)




(** ** The depth a Cancel row reports *)

Lemma depth_loop_keys (it it' : list (Z * PriceLevel.t)) (p : Z) :
  it.*1 = it'.*1 → ∀ d, OrderBook.depth_loop it p d = OrderBook.depth_loop it' p d.
Proof.
  revert it'. induction it as [|[k l] it IH]; intros [|[k' l'] it'] E d; try done.
  injection E as -> E. simpl. destruct (k' =? p); [done|].
  destruct (d + 1 >=? Utils.MAX_DEPTH); [done|]. by apply IH.
Qed.

Section iteration_dom.

Context (R : relation (Z * PriceLevel.t)).
Context {R_dec : RelDecision R} {R_trans : Transitive R} {R_total : Total R}.
Context (S : relation Z) {S_dec : RelDecision S}.
Hypothesis R_keys : ∀ x y, R x y → x.1 ≠ y.1 → S x.1 y.1.
Hypothesis S_asym : ∀ k k', S k k' → ¬ S k' k.

(** Two maps with the same keys are visited in the same order of keys. *)
Lemma iteration_keys_dom (m m' : gmap Z PriceLevel.t) :
  (∀ k, is_Some (m !! k) ↔ is_Some (m' !! k)) →
  (merge_sort R (map_to_list m)).*1 = (merge_sort R (map_to_list m')).*1.
Proof using R_keys R_trans R_total S_asym.
  intros Hdom.
  apply (StronglySorted_unique_strong S).
  - intros x1 x2 _ _ H1 H2. by destruct (S_asym _ _ H1).
  - by apply (iteration_keys_sorted R S R_keys).
  - by apply (iteration_keys_sorted R S R_keys).
  - apply NoDup_Permutation.
    + rewrite merge_sort_Permutation. apply NoDup_fst_map_to_list.
    + rewrite merge_sort_Permutation. apply NoDup_fst_map_to_list.
    + intros k. by rewrite !(iteration_key R).
Qed.

End iteration_dom.

Lemma get_price_depth_keys (b b' : OrderBook.t) (side : ascii) (p : Z) :
  (∀ k, is_Some (level_of b side k) ↔ is_Some (level_of b' side k)) →
  OrderBook.get_price_depth b side p = OrderBook.get_price_depth b' side p.
Proof.
  unfold level_of, side_levels, OrderBook.get_price_depth.
  destruct (Ascii.eqb side Utils.SIDE_BID); simpl.
  - intros H. apply depth_loop_keys.
    apply (iteration_keys_dom OrderBook.key_greater (λ k k', k' < k)); [|intros; lia|done].
    unfold OrderBook.key_greater. intros x y. lia.
  - destruct (Ascii.eqb side Utils.SIDE_ASK); simpl; [|done].
    intros H. apply depth_loop_keys.
    apply (iteration_keys_dom OrderBook.key_less (λ k k', k < k')); [|intros; lia|done].
    unfold OrderBook.key_less. intros x y. lia.
Qed.

Lemma get_price_depth_absent (b : OrderBook.t) (side : ascii) (p : Z) :
  level_of b side p = None → OrderBook.get_price_depth b side p = -1.
Proof.
  unfold level_of, side_levels, OrderBook.get_price_depth.
  destruct (Ascii.eqb side Utils.SIDE_BID); simpl.
  - intros Hn.
    destruct (depth_loop_iteration OrderBook.key_greater (λ k k', k' < k)
                (S_dec := λ k k', decide (k' < k)))
      with (m := OrderBook.bid_levels b) (p := p)
      as [[Hr _]|(_ & _ & Hsome & _)].
    + unfold OrderBook.key_greater. intros x y. lia.
    + intros k. lia.
    + intros k k'. lia.
    + done.
    + rewrite Hn in Hsome. by destruct Hsome.
  - destruct (Ascii.eqb side Utils.SIDE_ASK); simpl; [|done].
    intros Hn.
    destruct (depth_loop_iteration OrderBook.key_less (λ k k', k < k')
                (S_dec := λ k k', decide (k < k')))
      with (m := OrderBook.ask_levels b) (p := p)
      as [[Hr _]|(_ & _ & Hsome & _)].
    + unfold OrderBook.key_less. intros x y. lia.
    + intros k. lia.
    + intros k k'. lia.
    + done.
    + rewrite Hn in Hsome. by destruct Hsome.
Qed.

(** X14: a Cancel event for a live order that repeats the side and price
    stored for it, at a level within the top 10, produces a row; the row's
    depth is -1 when the cancel removed the level (its order count fell to
    0), and otherwise the depth the level had before the cancel. *)
Theorem X14_cancel_row_depth (b : OrderBook.t) (o : Order.t)
    (info : OrderBook.OrderInfo) (l : PriceLevel.t) :
  Order.action o = Utils.ACTION_CANCEL →
  OrderBook.active_orders b !! Order.order_id o = Some info →
  Order.side o = OrderBook.side info →
  Order.price_scaled o = OrderBook.price_scaled info →
  level_of b (Order.side o) (Order.price_scaled o) = Some l →
  Order.order_id o ∈ PriceLevel.order_ids l →
  in_top10 b (Order.side o) (Order.price_scaled o) →
  ∃ row, fst (OrderBook.process_order b o) = Some row ∧
    MBPRow.depth row =
      if wrap32 (PriceLevel.order_count l - 1) =? 0 then -1
      else OrderBook.get_price_depth b (Order.side o) (Order.price_scaled o).
Proof.
  intros Ha Hinfo Hside Hprice Hl Hin Htop.
  pose proof (level_of_cancel b o info) as Hlev.
  assert (fst (OrderBook.cancel_order b o) = true) as Hret.
  { unfold OrderBook.cancel_order. rewrite Hinfo. simpl.
    apply affects_top_levels_top10. by rewrite <- Hside, <- Hprice. }
  unfold OrderBook.process_order, OrderBook.dispatch. rewrite Ha. simpl.
  destruct (OrderBook.cancel_order b o) as [r b'] eqn:Hc. simpl in Hret, Hlev. subst r.
  eexists. split; [done|].
  cbn [MBPRow.depth OrderBook.generate_mbp_snapshot].
  change (OrderBook.get_price_depth b' (Order.side o) (Order.price_scaled o) =
          if wrap32 (PriceLevel.order_count l - 1) =? 0 then -1
          else OrderBook.get_price_depth b (Order.side o) (Order.price_scaled o)).
  destruct (remove_order_found l (Order.order_id o) (OrderBook.size info) Hin)
    as (i & _ & Hrem).
  destruct (wrap32 (PriceLevel.order_count l - 1) =? 0) eqn:Hz.
  - apply get_price_depth_absent. rewrite (Hlev _ _ Hinfo).
    rewrite decide_True by done. rewrite Hl. simpl. by rewrite Hrem.
  - symmetry. apply get_price_depth_keys. intros k. rewrite (Hlev _ _ Hinfo).
    destruct (decide (Order.side o = OrderBook.side info ∧
                      k = OrderBook.price_scaled info)) as [[_ ->]|Hne]; [|done].
    rewrite <- Hprice, Hl. simpl. rewrite Hrem. done.
Qed.

Lemma X14_witness :
  ∃ row, fst (OrderBook.process_order book_1_B_100 cancel_1_B_100) = Some row ∧
    MBPRow.depth row = -1.
Proof.
  apply (X14_cancel_row_depth book_1_B_100 cancel_1_B_100
           (OrderBook.mkOrderInfo "B" 100000000000 10)
           (PriceLevel.make 100000000000 10 1)).
  - reflexivity.
  - reflexivity.
  - reflexivity.
  - reflexivity.
  - reflexivity.
  - apply list_elem_of_here.
  - apply affects_top_levels_top10. vm_compute. reflexivity.
Defined.

(** ** The total size of a level *)

Lemma resting_size_app b ids1 ids2 :
  resting_size b (ids1 ++ ids2) = resting_size b ids1 + resting_size b ids2.
Proof.
  unfold resting_size. induction ids1 as [|x ids1 IH]; simpl; [done|]. rewrite IH. lia.
Qed.

Lemma resting_size_ext b b' ids :
  (∀ x, x ∈ ids → stored_size b x = stored_size b' x) →
  resting_size b ids = resting_size b' ids.
Proof.
  unfold resting_size. induction ids as [|x ids IH]; intros H; simpl; [done|].
  rewrite H by apply list_elem_of_here. rewrite IH; [done|].
  intros y Hy. apply H. by apply list_elem_of_further.
Qed.

Lemma resting_size_delete b ids i x :
  ids !! i = Some x →
  resting_size b ids = stored_size b x + resting_size b (delete i ids).
Proof.
  unfold resting_size. revert i. induction ids as [|y ids IH]; intros [|i] H; try done.
  - by injection H as ->.
  - simpl in *. rewrite (IH i H). lia.
Qed.

Lemma resting_size_bound b ids :
  sizes_typed b →
  0 ≤ resting_size b ids ≤ Z.of_nat (length ids) * (2 ^ 32 - 1).
Proof.
  intros Ht. unfold resting_size. induction ids as [|x ids IH]; simpl; [lia|].
  assert (0 ≤ stored_size b x ≤ 2 ^ 32 - 1) as Hx.
  { unfold stored_size. destruct (OrderBook.active_orders b !! x) as [info|] eqn:E; simpl.
    - pose proof (Ht x info E). lia.
    - lia. }
  lia.
Qed.

Lemma wrap64_wrap64_add (a s : Z) : wrap64 (wrap64 a + s) = wrap64 (a + s).
Proof. unfold wrap64. by rewrite Zplus_mod_idemp_l. Qed.

Lemma wrap64_wrap64_sub (a s : Z) : wrap64 (wrap64 a - s) = wrap64 (a - s).
Proof. unfold wrap64. by rewrite Zminus_mod_idemp_l. Qed.

Lemma stored_size_add b o x :
  accepted o = true → x ≠ Order.order_id o →
  stored_size (snd (OrderBook.add_order b o)) x = stored_size b x.
Proof.
  intros Hacc Hne. unfold stored_size.
  by rewrite active_orders_add, lookup_insert_ne.
Qed.

Lemma stored_size_cancel b o x :
  x ≠ Order.order_id o →
  stored_size (snd (OrderBook.cancel_order b o)) x = stored_size b x.
Proof.
  intros Hne. unfold stored_size.
  destruct (OrderBook.active_orders b !! Order.order_id o) as [info|] eqn:E.
  - by rewrite active_orders_cancel, lookup_delete_ne.
  - by rewrite cancel_order_unknown.
Qed.

Lemma sizes_ok_add n b o :
  counts_ok n b → converse_inv b → size_typed o →
  fresh_add b o → Order.action o = Utils.ACTION_ADD →
  sizes_ok b → sizes_ok (snd (OrderBook.add_order b o)).
Proof.
  intros Hc Hv Ht Hfresh Ha Hs.
  destruct (accepted o) eqn:Hacc; [|by rewrite add_order_not_accepted].
  specialize (Hfresh Ha Hacc).
  assert (∀ side p l, level_of b side p = Some l →
            resting_size (snd (OrderBook.add_order b o)) (PriceLevel.order_ids l) =
            resting_size b (PriceLevel.order_ids l)) as Hsame.
  { intros side p l Hl. apply resting_size_ext. intros x Hx.
    apply stored_size_add; [done|]. intros ->.
    destruct (Hv _ _ _ _ Hl Hx) as (info & Hinfo & _). congruence. }
  intros side p l. rewrite level_of_add by done.
  destruct (decide _) as [[-> ->]|_]; [|intros Hl; by rewrite (Hsame _ _ _ Hl), (Hs _ _ _ Hl)].
  intros [= <-]. unfold level_after_add.
  assert (stored_size (snd (OrderBook.add_order b o)) (Order.order_id o) = Order.size o)
    as Hnew.
  { unfold stored_size. by rewrite active_orders_add, lookup_insert_eq. }
  destruct (level_of b _ _) as [l0|] eqn:Hl0; simpl.
  - destruct (Hc _ _ _ Hl0) as [Hcount Hlen].
    destruct (Z.eqb_spec (PriceLevel.order_count l0) 0) as [E|_]; [lia|].
    simpl. rewrite resting_size_app, (Hsame _ _ _ Hl0), (Hs _ _ _ Hl0).
    unfold resting_size at 2. simpl. rewrite Hnew, wrap64_wrap64_add. f_equal.
    unfold resting_size. lia.
  - change (PriceLevel.order_count PriceLevel.empty =? 0) with true. simpl.
    unfold resting_size. simpl. rewrite Hnew, Z.add_0_r.
    unfold wrap64. rewrite Z.mod_small; [done|]. unfold size_typed in Ht. lia.
Qed.

Lemma sizes_ok_cancel n b o :
  counts_ok n b → Z.of_nat n < 2 ^ 32 → forward_inv b → converse_inv b → ids_nodup b →
  sizes_ok b → sizes_ok (snd (OrderBook.cancel_order b o)).
Proof.
  intros Hc Hn Hf Hv Hnd Hs.
  destruct (OrderBook.active_orders b !! Order.order_id o) as [info|] eqn:Hinfo;
    [|by rewrite cancel_order_unknown].
  intros side p l. rewrite (level_of_cancel b o info) by done.
  destruct (decide _) as [[-> ->]|Hne].
  - destruct (Hf _ _ Hinfo) as (l0 & Hl0 & Hin). rewrite Hl0. simpl.
    destruct (remove_order_found l0 (Order.order_id o) (OrderBook.size info) Hin)
      as (i & [Hi _] & Hrem).
    destruct (Hc _ _ _ Hl0) as [Hcount Hlen].
    pose proof (remove_order_result n l0 (Order.order_id o) (OrderBook.size info)
                  Hcount Hlen Hn) as Hres.
    rewrite Hrem in Hres |- *. destruct Hres as (_ & _ & _ & Hnodup).
    destruct (Hnodup (Hnd _ _ _ Hl0)) as [_ Hout]. specialize (Hout Hin).
    destruct (_ =? 0); [done|]. intros [= <-]. simpl in *.
    rewrite (Hs _ _ _ Hl0), wrap64_wrap64_sub. f_equal.
    rewrite (resting_size_delete b _ i _ Hi).
    replace (stored_size b (Order.order_id o)) with (OrderBook.size info)
      by (unfold stored_size; by rewrite Hinfo).
    rewrite (resting_size_ext (snd (OrderBook.cancel_order b o)) b); [lia|].
    intros x Hx. apply stored_size_cancel. by intros ->.
  - intros Hl. rewrite (Hs _ _ _ Hl). f_equal. symmetry.
    apply resting_size_ext. intros x Hx. apply stored_size_cancel. intros ->.
    destruct (Hv _ _ _ _ Hl Hx) as (info' & Hinfo' & <- & <-).
    apply Hne. rewrite Hinfo in Hinfo'. by injection Hinfo' as ->.
Qed.

Lemma sizes_ok_ext b b' : book_state b = book_state b' → sizes_ok b → sizes_ok b'.
Proof. intros ->%book_state_with_stats H. exact H. Qed.

Lemma sizes_ok_empty b : book_state b = (∅, ∅, ∅) → sizes_ok b.
Proof.
  intros H. apply (sizes_ok_ext OrderBook.init); [by rewrite H|].
  intros side p l. by rewrite level_of_init.
Qed.

Lemma loop_body_sizes n st o :
  base_inv n (Main.order_book st) → Z.of_nat (S n) < 2 ^ 32 →
  strict_inv (Main.order_book st) → fresh_add (Main.order_book st) o →
  size_typed o → sizes_ok (Main.order_book st) →
  sizes_ok (Main.order_book (loop_state (Main.loop_body st o))).
Proof.
  intros [Hc Hf] Hn [Hv Hnd] Hfresh Ht Hs.
  destruct (loop_body_cases st o) as [H|[H|[[Ha H]|[_ H]]]].
  - by eapply sizes_ok_ext.
  - by apply sizes_ok_empty.
  - eapply sizes_ok_ext; [done|]. by eapply sizes_ok_add.
  - eapply sizes_ok_ext; [done|]. eapply (sizes_ok_cancel n); eauto. lia.
Qed.

Lemma process_orders_sizes (orders : list Order.t) :
  ∀ (n : nat) (st : Main.LoopState),
    Z.of_nat (n + length orders) < 2 ^ 32 →
    base_inv n (Main.order_book st) → strict_inv (Main.order_book st) →
    sizes_ok (Main.order_book st) →
    adds_fresh orders st → Forall size_typed orders →
    sizes_ok (Main.order_book (snd (Main.process_orders orders st))).
Proof.
  induction orders as [|o rest IH]; intros n st Hn Hb Hs Hz Hfr Hty; simpl; [done|].
  simpl in Hn, Hfr. destruct Hfr as [Hfresh Hrest].
  apply Forall_cons in Hty as [Ht Hty].
  pose proof (loop_body_base n st o Hb ltac:(lia)) as Hb'.
  pose proof (loop_body_strict n st o Hb ltac:(lia) Hs Hfresh) as Hs'.
  pose proof (loop_body_sizes n st o Hb ltac:(lia) Hs Hfresh Ht Hz) as Hz'.
  destruct (Main.loop_body st o) as [st'|st']; simpl in *; [|done].
  apply (IH (S n)); try done. lia.
Qed.

Lemma sizes_typed_run (orders : list Order.t) :
  Forall size_typed orders →
  sizes_typed (Main.order_book (snd (Main.process_reconstruction orders))).
Proof.
  intros Hty. apply (process_orders_preserves sizes_typed size_typed); try done.
  - intros b b' ->%book_state_with_stats H. exact H.
  - intros b o Ht Hb. destruct (accepted o) eqn:Hacc; [|by rewrite add_order_not_accepted].
    intros id info. rewrite active_orders_add by done.
    destruct (decide (id = Order.order_id o)) as [->|Hne].
    + rewrite lookup_insert_eq. by intros [= <-].
    + rewrite lookup_insert_ne by done. apply Hb.
  - intros b o Hb.
    destruct (OrderBook.active_orders b !! Order.order_id o) as [info|] eqn:E;
      [|by rewrite cancel_order_unknown].
    intros id info'. rewrite active_orders_cancel by done.
    intros [_ H]%lookup_delete_Some. by eapply Hb.
Qed.

(** X15: after a run of fewer than 2^32 events in which no accepted Add
    re-used a live id, the total size of every stored level is exactly the
    sum of the sizes the order-id index records for the ids the level holds:
    the size a snapshot shows for a level is that of its resting orders. *)
Theorem X15_level_total_size (orders : list Order.t) (side : ascii) (p : Z)
    (l : PriceLevel.t) :
  Z.of_nat (length orders) < 2 ^ 32 →
  adds_fresh orders Main.initial →
  Forall size_typed orders →
  let b := Main.order_book (snd (Main.process_reconstruction orders)) in
  level_of b side p = Some l →
  PriceLevel.total_size l = resting_size b (PriceLevel.order_ids l).
Proof.
  intros Hn Hfresh Hty b Hl. subst b.
  pose proof (sizes_typed_run orders Hty) as Htyped.
  unfold Main.process_reconstruction in *.
  destruct (process_orders_inv orders 0 Main.initial) as [[Hc _] _];
    [done|by apply base_inv_empty|].
  pose proof (process_orders_sizes orders 0 Main.initial Hn
                ltac:(by apply base_inv_empty) ltac:(by apply strict_inv_empty)
                ltac:(by apply sizes_ok_empty) Hfresh Hty) as Hs.
  rewrite (Hs _ _ _ Hl). destruct (Hc _ _ _ Hl) as [_ Hlen].
  pose proof (resting_size_bound _ (PriceLevel.order_ids l) Htyped) as Hb.
  unfold wrap64. apply Z.mod_small. simpl in Hlen. nia.
Qed.

Lemma X15_witness :
  PriceLevel.total_size (PriceLevel.mk 100000000000 15 2 [1; 2]) =
  resting_size
    (Main.order_book (snd (Main.process_reconstruction [add_1_B_100; add_2_B_100])))
    (PriceLevel.order_ids (PriceLevel.mk 100000000000 15 2 [1; 2])).
Proof.
  apply (X15_level_total_size [add_1_B_100; add_2_B_100] Utils.SIDE_BID 100000000000).
  - vm_compute. reflexivity.
  - vm_compute. split; [intros _ _; reflexivity|].
    split; [intros _ _; reflexivity|exact I].
  - repeat (apply Forall_cons; split; [vm_compute; split; [discriminate|reflexivity]|]).
    apply Forall_nil_2.
  - vm_compute. reflexivity.
Defined.

(** ** The two validators of an order *)




(** X17: [orders_equal] compares every field of the two orders: it returns
    true exactly when the orders are equal. *)
Theorem X17_orders_equal (o1 o2 : Order.t) :
  OrderUtils.orders_equal o1 o2 = true ↔ o1 = o2.
Proof.
  unfold OrderUtils.orders_equal. destruct o1, o2. simpl.
  rewrite !andb_true_iff, !Z.eqb_eq, !Ascii.eqb_eq, !String.eqb_eq.
  split.
  - intros [[[[[[[[[[-> ->] ->] ->] ->] ->] ->] ->] ->] ->] ->]. done.
  - intros [= -> -> -> -> -> -> -> -> -> -> ->]. done.
Qed.

(** ** The best prices *)

Lemma rank_best (side : ascii) (m : gmap Z PriceLevel.t) (k : Z) :
  (∀ k', is_Some (m !! k') → ¬ ahead side k' k) → rank side m k = 0%nat.
Proof.
  intros Hbest. unfold rank. rewrite filter_none; [done|].
  apply Forall_forall. intros k' Hk'. apply Hbest.
  apply list_elem_of_fmap in Hk' as ([k'' l] & -> & Hin).
  apply elem_of_map_to_list in Hin. by exists l.
Qed.

(** X18: [get_spread] returns the price of the level stored under the
    highest bid key and the price of the level stored under the lowest ask
    key, and 0.0 for a side that has no level. *)
Theorem X18_get_spread (b : OrderBook.t) :
  (OrderBook.bid_levels b = ∅ → fst (OrderBook.get_spread b) = double_zero) ∧
  (∀ k l, OrderBook.bid_levels b !! k = Some l →
     (∀ k', is_Some (OrderBook.bid_levels b !! k') → k' ≤ k) →
     fst (OrderBook.get_spread b) = PriceLevel.get_price l) ∧
  (OrderBook.ask_levels b = ∅ → snd (OrderBook.get_spread b) = double_zero) ∧
  (∀ k l, OrderBook.ask_levels b !! k = Some l →
     (∀ k', is_Some (OrderBook.ask_levels b !! k') → k ≤ k') →
     snd (OrderBook.get_spread b) = PriceLevel.get_price l).
Proof.
  unfold OrderBook.get_spread. cbn [fst snd]. split_and!.
  - intros H. unfold OrderBook.bid_iteration. rewrite H, map_to_list_empty. done.
  - intros k l Hl Hbest. pose proof (bid_iteration_lookup b k l Hl) as Hit.
    rewrite rank_best in Hit.
    + by destruct (OrderBook.bid_iteration b) as [|[k0 l0] it]; [|injection Hit as _ ->].
    + intros k' Hk'. specialize (Hbest k' Hk'). unfold ahead. simpl. lia.
  - intros H. unfold OrderBook.ask_iteration. rewrite H, map_to_list_empty. done.
  - intros k l Hl Hbest. pose proof (ask_iteration_lookup b k l Hl) as Hit.
    rewrite rank_best in Hit.
    + by destruct (OrderBook.ask_iteration b) as [|[k0 l0] it]; [|injection Hit as _ ->].
    + intros k' Hk'. specialize (Hbest k' Hk'). unfold ahead. simpl. lia.
Qed.

(** ** String helpers of Utils.cpp *)

Lemma append_cons (c : ascii) (s1 s2 : string) :
  String c s1 +:+ s2 = String c (s1 +:+ s2).
Proof. reflexivity. Qed.

Lemma append_nil_l (s : string) : EmptyString +:+ s = s.
Proof. reflexivity. Qed.







(** *** Reading unsigned integers *)

Lemma digits_loop_numeral (d : Decimal.uint) (rest : string) :
  no_digit_ahead rest →
  ∀ r, Utils.digits_loop (λ z, z) (DecimalString.NilEmpty.string_of_uint d +:+ rest) r =
       r * 10 ^ Z.of_N (DecimalPos.Unsigned.usize d)
       + Z.of_N (DecimalPos.Unsigned.of_lu (Decimal.rev d)).
Proof.
  intros Hrest.
  induction d as [|d IH|d IH|d IH|d IH|d IH|d IH|d IH|d IH|d IH|d IH]; intros r;
    [rewrite append_nil_l; simpl; destruct rest as [|c rest];
       [simpl; lia|simpl in Hrest; simpl; rewrite Hrest; lia]|..];
    cbn [DecimalString.NilEmpty.string_of_uint]; rewrite append_cons;
    cbn [Utils.digits_loop]; change (Utils.isdigit _) with true; cbv iota;
    rewrite IH; unfold Decimal.rev; cbn [Decimal.revapp];
    rewrite (DecimalPos.Unsigned.of_lu_revapp d (_ Decimal.Nil));
    cbn [DecimalPos.Unsigned.usize DecimalPos.Unsigned.of_lu];
    rewrite N2Z.inj_succ, Z.pow_succ_r by lia;
    rewrite N2Z.inj_add, N2Z.inj_mul, N2Z.inj_pow;
    unfold Decimal.rev; simpl; lia.
Qed.

Lemma digits_loop_mod (m : Z) (s : string) :
  ∀ r, Utils.digits_loop (λ z, z mod m) s (r mod m) =
       Utils.digits_loop (λ z, z) s r mod m.
Proof.
  induction s as [|c s IH]; intros r; simpl; [done|].
  destruct (Utils.isdigit c); [|done].
  rewrite <- IH. f_equal.
  by rewrite <- (Zplus_mod_idemp_l (r mod m * 10)), Zmult_mod_idemp_l, Zplus_mod_idemp_l.
Qed.

Lemma fast_string_to_uint64_loop (s : string) :
  Utils.fast_string_to_uint64 s = wrap64 (Utils.digits_loop (λ z, z) s 0).
Proof.
  unfold Utils.fast_string_to_uint64, wrap64. destruct s as [|c s]; [done|].
  change (Utils.empty (String c s)) with false. cbv iota.
  by rewrite <- digits_loop_mod.
Qed.

Lemma fast_string_to_uint32_loop (s : string) :
  Utils.fast_string_to_uint32 s = wrap32 (Utils.digits_loop (λ z, z) s 0).
Proof.
  unfold Utils.fast_string_to_uint32, wrap32. destruct s as [|c s]; [done|].
  change (Utils.empty (String c s)) with false. cbv iota.
  by rewrite <- digits_loop_mod.
Qed.

(** X20: [fast_string_to_uint64] reads the decimal numeral of any natural
    number to that number reduced modulo 2^64, and ignores whatever follows
    the numeral from the first character that is not a digit. *)
Theorem X20_read_numeral (n : N) (rest : string) :
  no_digit_ahead rest →
  Utils.fast_string_to_uint64 (numeral n +:+ rest) = wrap64 (Z.of_N n).
Proof.
  intros Hrest. rewrite fast_string_to_uint64_loop. unfold numeral.
  rewrite digits_loop_numeral by done.
  rewrite <- DecimalPos.Unsigned.of_uint_alt.
  change (Pos.of_uint (N.to_uint n)) with (N.of_uint (N.to_uint n)).
  rewrite DecimalN.Unsigned.of_to. f_equal.
Qed.

Lemma X20_witness :
  Utils.fast_string_to_uint64 (numeral 18446744073709551617 +:+ " 7") = wrap64 18446744073709551617.
Proof.
  apply (X20_read_numeral 18446744073709551617%N " 7"). reflexivity.
Defined.

(** X21: on every string [fast_string_to_uint32] returns the value of
    [fast_string_to_uint64] reduced modulo 2^32. *)
Theorem X21_uint32_of_uint64 (s : string) :
  Utils.fast_string_to_uint32 s = wrap32 (Utils.fast_string_to_uint64 s).
Proof.
  rewrite fast_string_to_uint32_loop, fast_string_to_uint64_loop.
  unfold wrap32, wrap64.
  symmetry. apply Z.mod_mod_divide. by exists (2 ^ 32).
Qed.

(** *** Trimming *)

Lemma erase_leading_spec (s : string) :
  ∃ l, s = l +:+ Utils.erase_leading s ∧ Utils.all_of Utils.isspace l = true.
Proof.
  induction s as [|c s (l & IH & Hl)]; [by exists EmptyString|].
  simpl. destruct (Utils.isspace c) eqn:Hc.
  - exists (String c l). rewrite append_cons, <- IH. split; [done|]. simpl. by rewrite Hc.
  - by exists EmptyString.
Qed.

Lemma erase_leading_head (s : string) (c : ascii) (rest : string) :
  Utils.erase_leading s = String c rest → Utils.isspace c = false.
Proof.
  induction s as [|x s IH]; simpl; [done|].
  destruct (Utils.isspace x) eqn:Hx; [done|]. by intros [= <- _].
Qed.

Lemma erase_leading_fixed (s : string) :
  (∀ c rest, s = String c rest → Utils.isspace c = false) → Utils.erase_leading s = s.
Proof.
  destruct s as [|c s]; [done|]. intros H. simpl. by rewrite (H c s eq_refl).
Qed.

Lemma erase_leading_all (s : string) :
  Utils.erase_leading s = EmptyString ↔ Utils.all_of Utils.isspace s = true.
Proof.
  induction s as [|c s IH]; simpl; [done|].
  destruct (Utils.isspace c); simpl; [done|]. split; discriminate.
Qed.

Lemma erase_trailing_spec (s : string) :
  ∃ r, s = Utils.erase_trailing s +:+ r ∧ Utils.all_of Utils.isspace r = true.
Proof.
  induction s as [|c s (r & IH & Hr)]; [by exists EmptyString|].
  simpl. destruct (Utils.all_of Utils.isspace s) eqn:Hs.
  - destruct (Utils.isspace c) eqn:Hc.
    + exists (String c s). rewrite append_nil_l. split; [done|]. simpl. by rewrite Hc.
    + exists s. by rewrite append_cons, append_nil_l.
  - exists r. by rewrite append_cons, <- IH.
Qed.

Lemma erase_trailing_all (s : string) :
  Utils.all_of Utils.isspace s = true → Utils.erase_trailing s = EmptyString.
Proof.
  destruct s as [|c s]; [done|]. simpl. intros [Hc Hs]%andb_true_iff.
  by rewrite Hs, Hc.
Qed.

Lemma erase_trailing_not_all (s : string) :
  Utils.all_of Utils.isspace s = false →
  Utils.all_of Utils.isspace (Utils.erase_trailing s) = false.
Proof.
  induction s as [|c s IH]; [done|]. simpl.
  destruct (Utils.all_of Utils.isspace s) eqn:Hs.
  - rewrite andb_true_r. intros Hc. rewrite Hc. simpl. by rewrite Hc.
  - intros _. simpl. rewrite IH by done. apply andb_false_r.
Qed.

Lemma erase_trailing_head (s : string) (c : ascii) (rest : string) :
  Utils.erase_trailing s = String c rest → ∃ rest', s = String c rest'.
Proof.
  destruct s as [|x s]; [done|]. simpl.
  destruct (Utils.all_of Utils.isspace s).
  - destruct (Utils.isspace x); [done|]. intros [= <- _]. by eexists.
  - intros [= <- _]. by eexists.
Qed.

Lemma erase_trailing_last (s : string) :
  ∀ pre c, Utils.erase_trailing s = pre +:+ String c EmptyString → Utils.isspace c = false.
Proof.
  induction s as [|x s IH]; intros pre c.
  - simpl. destruct pre; discriminate.
  - simpl. destruct (Utils.all_of Utils.isspace s) eqn:Hs.
    + destruct (Utils.isspace x) eqn:Hx.
      * destruct pre; discriminate.
      * destruct pre as [|p pre]; [by intros [= <-]|].
        rewrite append_cons. intros [= _ H]. destruct pre; discriminate.
    + destruct pre as [|p pre].
      * rewrite append_nil_l. intros [= _ H].
        apply erase_trailing_not_all in Hs. rewrite H in Hs. done.
      * rewrite append_cons. intros [= _ H]. by eapply IH.
Qed.

Lemma erase_trailing_idemp (s : string) :
  Utils.erase_trailing (Utils.erase_trailing s) = Utils.erase_trailing s.
Proof.
  induction s as [|c s IH]; [done|]. simpl.
  destruct (Utils.all_of Utils.isspace s) eqn:Hs.
  - destruct (Utils.isspace c) eqn:Hc; [done|]. simpl. by rewrite Hc.
  - simpl. rewrite (erase_trailing_not_all s Hs). by rewrite IH.
Qed.

(** X22: [trim_string] removes a run of whitespace from each end of the
    string and nothing else; what is left neither begins nor ends with
    whitespace, so trimming twice changes nothing; and the result is empty
    exactly for the strings [is_empty_or_whitespace] accepts. *)
Theorem X22_trim_string (s : string) :
  (∃ l r, s = l +:+ Utils.trim_string s +:+ r ∧
          Utils.all_of Utils.isspace l = true ∧ Utils.all_of Utils.isspace r = true) ∧
  (∀ c rest, Utils.trim_string s = String c rest → Utils.isspace c = false) ∧
  (∀ pre c, Utils.trim_string s = pre +:+ String c EmptyString →
            Utils.isspace c = false) ∧
  Utils.trim_string (Utils.trim_string s) = Utils.trim_string s ∧
  (Utils.is_empty_or_whitespace s = true ↔ Utils.trim_string s = EmptyString).
Proof.
  unfold Utils.trim_string.
  assert (∀ c rest, Utils.erase_trailing (Utils.erase_leading s) = String c rest →
                    Utils.isspace c = false) as Hhead.
  { intros c rest [rest' H]%erase_trailing_head. by eapply erase_leading_head. }
  split_and!.
  - destruct (erase_leading_spec s) as (l & Hl & Hsl).
    destruct (erase_trailing_spec (Utils.erase_leading s)) as (r & Hr & Hsr).
    exists l, r. by rewrite <- Hr, <- Hl.
  - exact Hhead.
  - apply erase_trailing_last.
  - rewrite (erase_leading_fixed _ Hhead). apply erase_trailing_idemp.
  - unfold Utils.is_empty_or_whitespace.
    replace (Utils.empty s || Utils.all_of Utils.isspace s)
      with (Utils.all_of Utils.isspace s) by (by destruct s).
    rewrite <- erase_leading_all. split.
    + by intros ->.
    + intros Ht.
      destruct (Utils.all_of Utils.isspace (Utils.erase_leading s)) eqn:Ha.
      * destruct (Utils.erase_leading s) as [|c rest] eqn:He; [done|].
        simpl in Ha. apply andb_true_iff in Ha as [Hc _].
        by rewrite (erase_leading_head s c rest He) in Hc.
      * apply erase_trailing_not_all in Ha. by rewrite Ht in Ha.
Qed.

(** ** The header of the input *)

Lemma to_int_small (i : Z) : 0 ≤ i < 2 ^ 31 → CsvReader.to_int i = i.
Proof. intros Hi. unfold CsvReader.to_int. rewrite Z.mod_small; lia. Qed.

Section column.

Variable name : string.
Variable get : CsvReader.ColumnIndices → Z.
Hypothesis get_set : ∀ c f i,
  get (CsvReader.set_column c f i) =
  if String.eqb f name then CsvReader.to_int i else get c.

Lemma column_of_snoc (pre : list string) (f : string) (c : CsvReader.ColumnIndices) :
  Z.of_nat (length pre) < 2 ^ 31 →
  column_of name pre (get c) →
  column_of name (pre ++ [f]) (get (CsvReader.set_column c f (Z.of_nat (length pre)))).
Proof using get_set.
  intros Hlen Hinv. rewrite get_set.
  destruct (String.eqb_spec f name) as [->|Hne].
  - right. rewrite to_int_small by lia. rewrite Nat2Z.id. split; [lia|]. split.
    + by rewrite lookup_app_r, Nat.sub_diag by lia.
    + intros j Hj. rewrite lookup_ge_None_2; [done|]. rewrite length_app. simpl. lia.
  - destruct Hinv as [[Hv Hnot]|(Hv & Hat & Hlast)].
    + left. split; [done|]. rewrite elem_of_app, list_elem_of_singleton.
      intros [?|?]; [done|]. by apply Hne.
    + right. split; [done|]. split.
      * by apply lookup_app_l_Some.
      * intros j Hj. destruct (decide (j < length pre)%nat) as [Hlt|Hge].
        { rewrite lookup_app_l by done. by apply Hlast. }
        destruct (decide (j = length pre)) as [->|Hne'].
        { rewrite lookup_app_r, Nat.sub_diag by lia. simpl. congruence. }
        rewrite lookup_ge_None_2; [done|]. rewrite length_app. simpl. lia.
Qed.

Lemma header_loop_column (rest : list string) :
  ∀ pre c, Z.of_nat (length (pre ++ rest)) < 2 ^ 31 →
    column_of name pre (get c) →
    column_of name (pre ++ rest)
      (get (CsvReader.header_loop rest (Z.of_nat (length pre)) c)).
Proof using get_set.
  induction rest as [|f rest IH]; intros pre c Hlen Hinv.
  - by rewrite app_nil_r.
  - simpl. rewrite length_app in Hlen. simpl in Hlen.
    replace (wrap64 (Z.of_nat (length pre) + 1)) with (Z.of_nat (length (pre ++ [f]))).
    + rewrite (cons_middle f pre rest), (assoc_L (++)). apply IH.
      * rewrite !length_app. simpl. lia.
      * apply column_of_snoc; [lia|done].
    + rewrite length_app. simpl. unfold wrap64. rewrite Z.mod_small; lia.
Qed.

Lemma parse_header_column (fields : list string) :
  Z.of_nat (length fields) < 2 ^ 31 →
  get CsvReader.ColumnIndices0 = -1 →
  column_of name fields (get (snd (CsvReader.parse_header fields))).
Proof using get_set.
  intros Hlen Hinit.
  assert (snd (CsvReader.parse_header fields) =
          CsvReader.header_loop fields 0 CsvReader.ColumnIndices0) as ->.
  { unfold CsvReader.parse_header. by destruct (negb _). }
  apply (header_loop_column fields [] CsvReader.ColumnIndices0); [done|].
  left. rewrite Hinit. split; [done|]. apply not_elem_of_nil.
Qed.

Lemma column_of_present (fields : list string) (v : Z) :
  column_of name fields v → (0 ≤ v ↔ name ∈ fields).
Proof.
  intros [[-> Hnot]|(Hv & Hat & _)].
  - split; [lia|done].
  - split; [|done]. intros _. by eapply list_elem_of_lookup_2.
Qed.

End column.

Ltac get_set_tac :=
  intros c f i; unfold CsvReader.set_column;
  repeat match goal with
         | |- context [String.eqb f ?x] =>
             destruct (String.eqb_spec f x) as [->|?]; [reflexivity|]
         end;
  reflexivity.

Lemma parse_header_columns (fields : list string) :
  Z.of_nat (length fields) < 2 ^ 31 →
  Forall (λ col, column_of col.1 fields (col.2 (snd (CsvReader.parse_header fields))))
         columns.
Proof.
  intros Hlen. unfold columns.
  repeat (apply Forall_cons; split;
          [cbn [fst snd];
           match goal with
           | |- column_of ?n _ (?g _) =>
               apply (parse_header_column n g); [get_set_tac|done|reflexivity]
           end|]).
  apply Forall_nil_2.
Qed.

(** X23: for a header of fewer than 2^31 fields, [parse_header] succeeds
    exactly when the fields name all of ts_recv, ts_event, action, side,
    order_id, sequence and symbol; every column index it leaves is -1 when no
    field has the column's name, and otherwise the position of the last field
    that has it. *)
Theorem X23_parse_header (fields : list string) :
  Z.of_nat (length fields) < 2 ^ 31 →
  let r := CsvReader.parse_header fields in
  (fst r = true ↔ Forall (λ name, name ∈ fields) required_columns) ∧
  Forall (λ col, column_of col.1 fields (col.2 (snd r))) columns.
Proof.
  intros Hlen r. subst r. pose proof (parse_header_columns fields Hlen) as Hcols.
  split; [|done].
  unfold columns in Hcols. rewrite !Forall_cons in Hcols. cbn [fst snd] in Hcols.
  destruct Hcols as (H1 & H2 & _ & _ & _ & H6 & H7 & _ & _ & _ & H11 & _ & _ & H14 & H15 & _).
  apply column_of_present in H1, H2, H6, H7, H11, H14, H15.
  unfold required_columns. rewrite !Forall_cons.
  rewrite <- H1, <- H2, <- H6, <- H7, <- H11, <- H14, <- H15.
  assert (snd (CsvReader.parse_header fields) =
          CsvReader.header_loop fields 0 CsvReader.ColumnIndices0) as ->.
  { unfold CsvReader.parse_header. by destruct (negb _). }
  unfold CsvReader.parse_header.
  set (c := CsvReader.header_loop fields 0 CsvReader.ColumnIndices0).
  unfold CsvReader.is_valid, CsvReader.validate_mbo_format. cbn [forallb].
  destruct (Z.geb_spec (CsvReader.ts_recv c) 0), (Z.geb_spec (CsvReader.ts_event c) 0),
    (Z.geb_spec (CsvReader.action c) 0), (Z.geb_spec (CsvReader.side c) 0),
    (Z.geb_spec (CsvReader.order_id c) 0), (Z.geb_spec (CsvReader.sequence c) 0);
    cbn [negb andb fst];
    try (split; [discriminate|intros (? & ? & ? & ? & ? & ? & ? & _); lia]).
  replace (CsvReader.ts_recv c <? 0) with false by lia.
  replace (CsvReader.ts_event c <? 0) with false by lia.
  replace (CsvReader.action c <? 0) with false by lia.
  replace (CsvReader.side c <? 0) with false by lia.
  replace (CsvReader.order_id c <? 0) with false by lia.
  replace (CsvReader.sequence c <? 0) with false by lia.
  cbn [negb andb].
  destruct (Z.ltb_spec (CsvReader.symbol c) 0); cbn [negb andb].
  - split; [discriminate|intros (? & ? & ? & ? & ? & ? & ? & _); lia].
  - split; [|done]. intros _. split_and!; try lia. apply Forall_nil_2.
Qed.

Lemma X23_witness :
  fst (CsvReader.parse_header mbo_header) = true ↔
  Forall (λ name, name ∈ mbo_header) required_columns.
Proof.
  apply (X23_parse_header mbo_header). vm_compute. reflexivity.
Defined.

(** ** Live orders and order counts *)

Lemma levels_count_lookup (m : gmap Z PriceLevel.t) (p : Z) :
  levels_count m = count_of (m !! p) + levels_count (delete p m).
Proof.
  unfold levels_count. destruct (m !! p) as [l|] eqn:Hl; simpl.
  - apply (map_fold_delete_L (λ _ l acc, PriceLevel.order_count l + acc)); [|done].
    intros. lia.
  - by rewrite delete_id.
Qed.

Lemma levels_count_update (m m' : gmap Z PriceLevel.t) (p : Z) :
  (∀ k, k ≠ p → m' !! k = m !! k) →
  levels_count m' - count_of (m' !! p) = levels_count m - count_of (m !! p).
Proof.
  intros Hsame. rewrite (levels_count_lookup m p), (levels_count_lookup m' p).
  replace (delete p m') with (delete p m); [lia|].
  apply map_eq. intros k. destruct (decide (k = p)) as [->|Hne].
  - by rewrite !lookup_delete_eq.
  - by rewrite !lookup_delete_ne, Hsame.
Qed.

Lemma side_update (b b' : OrderBook.t) (side : ascii) (p : Z) :
  side = Utils.SIDE_BID ∨ side = Utils.SIDE_ASK →
  (∀ s k, ¬ (s = side ∧ k = p) → level_of b' s k = level_of b s k) →
  resting_orders b' - count_of (level_of b' side p) =
  resting_orders b - count_of (level_of b side p).
Proof.
  intros Hside Hsame. unfold resting_orders.
  destruct Hside as [-> | ->].
  - pose proof (levels_count_update (OrderBook.bid_levels b) (OrderBook.bid_levels b') p)
      as Hb.
    replace (OrderBook.ask_levels b') with (OrderBook.ask_levels b).
    + change (level_of b' Utils.SIDE_BID p) with (OrderBook.bid_levels b' !! p).
      change (level_of b Utils.SIDE_BID p) with (OrderBook.bid_levels b !! p).
      assert (∀ k, k ≠ p → OrderBook.bid_levels b' !! k = OrderBook.bid_levels b !! k)
        as Hk; [|specialize (Hb Hk); lia].
      intros k Hk. apply (Hsame Utils.SIDE_BID k). by intros [_ ?].
    + apply map_eq. intros k. symmetry. apply (Hsame Utils.SIDE_ASK k). by intros [? _].
  - pose proof (levels_count_update (OrderBook.ask_levels b) (OrderBook.ask_levels b') p)
      as Ha.
    replace (OrderBook.bid_levels b') with (OrderBook.bid_levels b).
    + change (level_of b' Utils.SIDE_ASK p) with (OrderBook.ask_levels b' !! p).
      change (level_of b Utils.SIDE_ASK p) with (OrderBook.ask_levels b !! p).
      assert (∀ k, k ≠ p → OrderBook.ask_levels b' !! k = OrderBook.ask_levels b !! k)
        as Hk; [|specialize (Ha Hk); lia].
      intros k Hk. apply (Hsame Utils.SIDE_ASK k). by intros [_ ?].
    + apply map_eq. intros k. symmetry. apply (Hsame Utils.SIDE_BID k). by intros [? _].
Qed.

Lemma orders_counted_add n b o :
  counts_ok n b → Z.of_nat (S n) < 2 ^ 32 →
  fresh_add b o → Order.action o = Utils.ACTION_ADD →
  orders_counted b → orders_counted (snd (OrderBook.add_order b o)).
Proof.
  intros Hc Hn Hfresh Ha Hcount.
  destruct (accepted o) eqn:Hacc; [|by rewrite add_order_not_accepted].
  specialize (Hfresh Ha Hacc).
  unfold orders_counted, OrderBook.get_total_orders in *.
  rewrite active_orders_add, map_size_insert_None by done.
  pose proof (side_update b (snd (OrderBook.add_order b o)) (Order.side o)
                (Order.price_scaled o) (accepted_side o Hacc)) as Hupd.
  rewrite (level_of_add b o) in Hupd by done.
  rewrite decide_True in Hupd by done.
  assert (count_of (Some (level_after_add
                            (level_of b (Order.side o) (Order.price_scaled o)) o)) =
          count_of (level_of b (Order.side o) (Order.price_scaled o)) + 1) as Hone.
  { unfold level_after_add.
    destruct (level_of b _ _) as [l|] eqn:Hl; simpl; [|done].
    destruct (Hc _ _ _ Hl) as [Hcnt Hlen].
    destruct (Z.eqb_spec (PriceLevel.order_count l) 0) as [E|_]; [lia|].
    simpl. apply wrap32_small. lia. }
  rewrite Hone in Hupd.
  rewrite Nat2Z.inj_succ, Hcount.
  assert (resting_orders (snd (OrderBook.add_order b o)) -
          (count_of (level_of b (Order.side o) (Order.price_scaled o)) + 1) =
          resting_orders b - count_of (level_of b (Order.side o) (Order.price_scaled o)))
    as Heq; [|lia].
  apply Hupd. intros s k Hne. rewrite level_of_add by done. by rewrite decide_False.
Qed.

Lemma orders_counted_cancel n b o :
  counts_ok n b → Z.of_nat n < 2 ^ 32 → forward_inv b →
  orders_counted b → orders_counted (snd (OrderBook.cancel_order b o)).
Proof.
  intros Hc Hn Hf Hcount.
  destruct (OrderBook.active_orders b !! Order.order_id o) as [info|] eqn:Hinfo;
    [|by rewrite cancel_order_unknown].
  unfold orders_counted, OrderBook.get_total_orders in *.
  rewrite active_orders_cancel, map_size_delete_Some by done.
  destruct (Hf _ _ Hinfo) as (l & Hl & Hin).
  assert (OrderBook.side info = Utils.SIDE_BID ∨ OrderBook.side info = Utils.SIDE_ASK)
    as Hside.
  { unfold level_of, side_levels in Hl.
    destruct (Ascii.eqb_spec (OrderBook.side info) Utils.SIDE_BID); [by left|].
    destruct (Ascii.eqb_spec (OrderBook.side info) Utils.SIDE_ASK); [by right|done]. }
  pose proof (side_update b (snd (OrderBook.cancel_order b o)) (OrderBook.side info)
                (OrderBook.price_scaled info) Hside) as Hupd.
  rewrite (level_of_cancel b o info) in Hupd by done.
  rewrite decide_True, Hl in Hupd by done. simpl in Hupd.
  destruct (remove_order_found l (Order.order_id o) (OrderBook.size info) Hin)
    as (i & _ & Hrem).
  rewrite Hrem in Hupd.
  destruct (Hc _ _ _ Hl) as [Hcnt Hlen].
  assert (wrap32 (PriceLevel.order_count l - 1) = PriceLevel.order_count l - 1) as Hw.
  { apply wrap32_small. lia. }
  assert (0 < size (OrderBook.active_orders b))%nat as Hpos.
  { destruct (decide (size (OrderBook.active_orders b) = 0%nat)) as [E|]; [|lia].
    apply map_size_empty_iff in E. rewrite E in Hinfo. done. }
  rewrite Nat2Z.inj_pred, Hcount by done.
  assert (resting_orders (snd (OrderBook.cancel_order b o)) -
          (PriceLevel.order_count l - 1) =
          resting_orders b - PriceLevel.order_count l) as Heq; [|lia].
  rewrite <- Hupd.
  - destruct (Z.eqb_spec (wrap32 (PriceLevel.order_count l - 1)) 0) as [E|E]; simpl.
    + rewrite <- Hw, E. done.
    + by rewrite Hw.
  - intros s k Hne. rewrite (level_of_cancel b o info) by done. by rewrite decide_False.
Qed.

Lemma orders_counted_ext b b' :
  book_state b = book_state b' → orders_counted b → orders_counted b'.
Proof. intros ->%book_state_with_stats H. exact H. Qed.

Lemma orders_counted_empty b : book_state b = (∅, ∅, ∅) → orders_counted b.
Proof.
  intros H. apply (orders_counted_ext OrderBook.init); [by rewrite H|]. reflexivity.
Qed.

Lemma loop_body_counted n st o :
  base_inv n (Main.order_book st) → Z.of_nat (S n) < 2 ^ 32 →
  fresh_add (Main.order_book st) o →
  orders_counted (Main.order_book st) →
  orders_counted (Main.order_book (loop_state (Main.loop_body st o))).
Proof.
  intros [Hc Hf] Hn Hfresh Hs.
  destruct (loop_body_cases st o) as [H|[H|[[Ha H]|[_ H]]]].
  - by eapply orders_counted_ext.
  - by apply orders_counted_empty.
  - eapply orders_counted_ext; [done|]. by eapply orders_counted_add.
  - eapply orders_counted_ext; [done|]. eapply (orders_counted_cancel n); eauto. lia.
Qed.

Lemma process_orders_counted (orders : list Order.t) :
  ∀ (n : nat) (st : Main.LoopState),
    Z.of_nat (n + length orders) < 2 ^ 32 →
    base_inv n (Main.order_book st) →
    orders_counted (Main.order_book st) →
    adds_fresh orders st →
    orders_counted (Main.order_book (snd (Main.process_orders orders st))).
Proof.
  induction orders as [|o rest IH]; intros n st Hn Hb Hz Hfr; simpl; [done|].
  simpl in Hn, Hfr. destruct Hfr as [Hfresh Hrest].
  pose proof (loop_body_base n st o Hb ltac:(lia)) as Hb'.
  pose proof (loop_body_counted n st o Hb ltac:(lia) Hfresh Hz) as Hz'.
  destruct (Main.loop_body st o) as [st'|st']; simpl in *; [|done].
  apply (IH (S n)); try done. lia.
Qed.

(** X24: after a run of fewer than 2^32 events in which no accepted Add
    re-used a live id, [get_total_orders] (the number of live order ids)
    equals the sum of the order counts of all bid and ask levels. *)
Theorem X24_orders_counted (orders : list Order.t) :
  Z.of_nat (length orders) < 2 ^ 32 →
  adds_fresh orders Main.initial →
  let b := Main.order_book (snd (Main.process_reconstruction orders)) in
  OrderBook.get_total_orders b = resting_orders b.
Proof.
  intros Hn Hfresh b. subst b.
  apply (process_orders_counted orders 0 Main.initial);
    [done|by apply base_inv_empty|by apply orders_counted_empty|done].
Qed.

Lemma X24_witness :
  OrderBook.get_total_orders
    (Main.order_book (snd (Main.process_reconstruction
                             [add_1_B_100; add_2_B_100; cancel_1_B_100]))) =
  resting_orders
    (Main.order_book (snd (Main.process_reconstruction
                             [add_1_B_100; add_2_B_100; cancel_1_B_100]))).
Proof.
  apply (X24_orders_counted [add_1_B_100; add_2_B_100; cancel_1_B_100]).
  - vm_compute. reflexivity.
  - vm_compute. split; [intros _ _; reflexivity|].
    split; [intros _ _; reflexivity|]. split; [discriminate|exact I].
Defined.

(** ** The row of an Add *)

Section iteration_present.

Context (R : relation (Z * PriceLevel.t)).
Context {R_dec : RelDecision R} {R_trans : Transitive R} {R_total : Total R}.
Context (S : relation Z) {S_dec : RelDecision S}.
Hypothesis R_keys : ∀ x y, R x y → x.1 ≠ y.1 → S x.1 y.1.
Hypothesis S_irrefl : ∀ k, ¬ S k k.
Hypothesis S_asym : ∀ k k', S k k' → ¬ S k' k.

(** The depth loop at a key of the map: the number of better keys, or -1
    when there are ten or more of them. *)
Lemma depth_loop_present (m : gmap Z PriceLevel.t) (p : Z) :
  let it := merge_sort R (map_to_list m) in
  let r := length (filter (λ k, S k p) (map_to_list m).*1) in
  is_Some (m !! p) →
  (OrderBook.depth_loop it p 0 = -1 ∧ (10 ≤ r)%nat) ∨
  (OrderBook.depth_loop it p 0 = Z.of_nat r ∧ (r < 10)%nat).
Proof using R_keys R_trans R_total S_irrefl S_asym.
  intros it r Hsome.
  pose proof (iteration_top R S R_keys S_irrefl S_asym m p 10) as Htop.
  destruct (depth_loop_iteration R S R_keys S_irrefl S_asym m p)
    as [[Hd Hnot]|(Hd & Hin & _ & Hcount)].
  - left. split; [done|]. destruct (decide (r < 10)%nat) as [Hlt|]; [|lia].
    destruct Hnot. apply Htop. done.
  - right. split; [done|]. apply Htop in Hin as [_ Hlt]. done.
Qed.

End iteration_present.

Lemma get_price_depth_present (b : OrderBook.t) (side : ascii) (p : Z)
    (m : gmap Z PriceLevel.t) :
  side_levels b side = Some m → is_Some (m !! p) →
  (OrderBook.get_price_depth b side p = -1 ∧ (10 ≤ rank side m p)%nat) ∨
  (OrderBook.get_price_depth b side p = Z.of_nat (rank side m p) ∧
   (rank side m p < 10)%nat).
Proof.
  unfold side_levels, OrderBook.get_price_depth.
  destruct (Ascii.eqb_spec side Utils.SIDE_BID) as [->|Hb]; cbv iota.
  - intros [= <-] Hsome.
    destruct (depth_loop_present OrderBook.key_greater (λ k k', k' < k)
                (S_dec := λ k k', decide (k' < k)))
      with (m := OrderBook.bid_levels b) (p := p) as [[Hd Hr]|[Hd Hr]].
    + unfold OrderBook.key_greater. intros x y. lia.
    + intros k. lia.
    + intros k k'. lia.
    + done.
    + left. split; [exact Hd|exact Hr].
    + right. split; [exact Hd|exact Hr].
  - destruct (Ascii.eqb_spec side Utils.SIDE_ASK) as [->|Ha]; cbv iota; [|done].
    intros [= <-] Hsome.
    destruct (depth_loop_present OrderBook.key_less (λ k k', k < k')
                (S_dec := λ k k', decide (k < k')))
      with (m := OrderBook.ask_levels b) (p := p) as [[Hd Hr]|[Hd Hr]].
    + unfold OrderBook.key_less. intros x y. lia.
    + intros k. lia.
    + intros k k'. lia.
    + done.
    + left. split; [exact Hd|exact Hr].
    + right. split; [exact Hd|exact Hr].
Qed.

(** X25: an Add that passes the guard of [add_order] produces a row exactly
    when, in the book after the insertion, fewer than ten levels of its side
    have a strictly better price; the depth of the row is the number of those
    levels. *)
Theorem X25_add_row (b : OrderBook.t) (o : Order.t) :
  Order.action o = Utils.ACTION_ADD → accepted o = true →
  ∃ m, side_levels (snd (OrderBook.add_order b o)) (Order.side o) = Some m ∧
    match fst (OrderBook.process_order b o) with
    | Some row =>
        (rank (Order.side o) m (Order.price_scaled o) < 10)%nat ∧
        MBPRow.depth row = Z.of_nat (rank (Order.side o) m (Order.price_scaled o))
    | None => (10 ≤ rank (Order.side o) m (Order.price_scaled o))%nat
    end.
Proof.
  intros Ha Hacc.
  pose proof (level_of_add b o (Order.side o) (Order.price_scaled o) Hacc) as Hlev.
  rewrite decide_True in Hlev by done.
  unfold level_of in Hlev.
  destruct (side_levels (snd (OrderBook.add_order b o)) (Order.side o)) as [m|] eqn:Hm;
    [|done].
  simpl in Hlev. exists m. split; [done|].
  pose proof (get_price_depth_present _ _ (Order.price_scaled o) m Hm
                ltac:(by rewrite Hlev)) as Hd.
  assert (fst (OrderBook.add_order b o) =
          OrderBook.affects_top_levels (snd (OrderBook.add_order b o)) (Order.side o)
            (Order.price_scaled o)) as Hret.
  { unfold accepted in Hacc. apply negb_true_iff in Hacc.
    unfold OrderBook.add_order. rewrite Hacc. done. }
  unfold OrderBook.process_order, OrderBook.dispatch. rewrite Ha. simpl.
  destruct (OrderBook.add_order b o) as [r b'] eqn:Hadd. simpl in *. subst r.
  unfold OrderBook.affects_top_levels.
  change Utils.MAX_DEPTH with 10.
  destruct Hd as [[Hd Hr]|[Hd Hr]]; rewrite Hd.
  - simpl. done.
  - replace (Z.of_nat (rank (Order.side o) m (Order.price_scaled o)) >=? 0) with true
      by lia.
    replace (Z.of_nat (rank (Order.side o) m (Order.price_scaled o)) <? 10) with true
      by lia.
    simpl. split; [done|]. exact Hd.
Qed.

Lemma X25_witness :
  ∃ m, side_levels (snd (OrderBook.add_order book_1_B_100 add_2_B_100)) "B" = Some m ∧
    match fst (OrderBook.process_order book_1_B_100 add_2_B_100) with
    | Some row =>
        (rank "B" m 100000000000 < 10)%nat ∧
        MBPRow.depth row = Z.of_nat (rank "B" m 100000000000)
    | None => (10 ≤ rank "B" m 100000000000)%nat
    end.
Proof.
  apply (X25_add_row book_1_B_100 add_2_B_100); reflexivity.
Defined.

(** ** What the guard of add_order keeps out *)

Lemma accepted_nonzero (o : Order.t) :
  accepted o = true → Order.price_scaled o ≠ 0 ∧ Order.size o ≠ 0.
Proof.
  unfold accepted. intros H%negb_true_iff.
  apply orb_false_elim in H as [H Hs]. apply orb_false_elim in H as [_ Hp].
  split; by apply Z.eqb_neq.
Qed.

Lemma guarded_add b o : guarded b → guarded (snd (OrderBook.add_order b o)).
Proof.
  intros [Hi Hl]. destruct (accepted o) eqn:Hacc; [|by rewrite add_order_not_accepted].
  destruct (accepted_nonzero o Hacc) as [Hp Hs]. split.
  - intros id info. rewrite active_orders_add by done.
    destruct (decide (id = Order.order_id o)) as [->|Hne].
    + rewrite lookup_insert_eq. intros [= <-]. simpl.
      split; [by apply accepted_side|done].
    + rewrite lookup_insert_ne by done. apply Hi.
  - intros side p l. rewrite level_of_add by done.
    destruct (decide _) as [[-> ->]|_]; [done|apply Hl].
Qed.

Lemma guarded_cancel b o : guarded b → guarded (snd (OrderBook.cancel_order b o)).
Proof.
  intros [Hi Hl].
  destruct (OrderBook.active_orders b !! Order.order_id o) as [info|] eqn:E;
    [|by rewrite cancel_order_unknown].
  split.
  - intros id info'. rewrite active_orders_cancel by done.
    intros [_ H]%lookup_delete_Some. by eapply Hi.
  - intros side p l. rewrite (level_of_cancel b o info) by done.
    destruct (decide _) as [[-> ->]|_]; [|apply Hl].
    destruct (level_of b _ _) as [l0|] eqn:Hl0; [|done].
    intros _. by eapply Hl.
Qed.

Lemma guarded_init : guarded OrderBook.init.
Proof.
  split; [|intros side p l; by rewrite level_of_init].
  intros id info. unfold OrderBook.init. cbn [OrderBook.active_orders].
  by rewrite lookup_empty.
Qed.

(** X26: after any run from a fresh engine every live order is recorded on
    the bid or the ask side with a non-zero price and a non-zero size, and
    no level is stored under the price 0: what the guard of [add_order]
    refuses never enters the book by another way. *)
Theorem X26_guard_invariant (orders : list Order.t) :
  guarded (Main.order_book (snd (Main.process_reconstruction orders))).
Proof.
  apply (process_orders_preserves guarded (λ _, True)).
  - intros b b' ->%book_state_with_stats H. exact H.
  - exact guarded_init.
  - intros b o _. apply guarded_add.
  - apply guarded_cancel.
  - by apply Forall_true.
  - exact guarded_init.
Qed.
